(** * FOC motor controller: state observer + PLL and feed-forward control

    A shallow embedding of
      - MotorControl/MCSDK/MCLib/Any/Src/sto_speed_pos_fdbk.c
      - MotorControl/MCSDK/MCLib/Any/Src/feed_forward_ctrl.c
    and the properties of the design document that concern them.

    Conventions of the embedding.
      - Every C integer is a [Z]; where a C assignment or cast can leave the
        range of its type the wrap-around is written out ([wrap16],
        [wrap32], [wrap_u8]).  The product of two 16-bit operands is
        evaluated in 32 bits and cannot leave them, so it carries no wrap;
        neither does a quotient, which is never larger in magnitude than
        its dividend.  A chain of 32-bit additions and subtractions is
        wrapped once at its end, which equals wrapping at every step.
      - [x >> n] on a signed operand is the arithmetic shift of the target
        compilers, [Z.shiftr]; [x / y] is C's division truncating toward
        zero, [Z.quot].  Division by zero is undefined in C; the embedding
        is total and takes [Z.quot]'s value (0) there, so that a statement
        says nothing about the C code at a state where a divisor is zero.
      - The compile-time switch FULL_MISRA_C_COMPLIANCY is the boolean
        argument [misra] of the functions that contain an #ifdef on it.
      - A [pHandle] that the C code updates in place is threaded through the
        function: each assignment [pHandle->f = e] is [set_f e pHandle].  An
        if / else-if chain whose branches only assign one field (the clamps
        of STO_CalcElAngle) is the assignment of the conditional value, the
        empty else branch keeping the field's value. *)

From Stdlib Require Import ZArith List Bool Lia Znumtheory.
Import ListNotations.
Open Scope Z_scope.

(** ** Machine integers *)

Definition INT16_MAX : Z := 32767.

(** Conversion to int16_t (two's complement truncation). *)
Definition wrap16 (x : Z) : Z := (x + 32768) mod 65536 - 32768.

(** Result of an int32_t operation (two's complement wrap-around). *)
Definition wrap32 (x : Z) : Z := (x + 2147483648) mod 4294967296 - 2147483648.

(** Conversion to uint8_t and to uint16_t. *)
Definition wrap_u8 (x : Z) : Z := x mod 256.
Definition wrap_u16 (x : Z) : Z := x mod 65536.

Definition in_s16 (x : Z) : Prop := -32768 <= x <= 32767.
Definition in_s32 (x : Z) : Prop := -2147483648 <= x <= 2147483647.

(** ** Data model (mc_type.h, speed_pos_fdbk.h, sto_speed_pos_fdbk.h)

    The headers that declare the handles are not among the sources.  The
    records below have the fields that the two .c files use, under the names
    they use; the C type noted at a field is the one its uses imply (the type
    of the local it is copied to or cast to, the suffix of the constants it
    is assigned) and decides where the functions below wrap. *)

Record Trig_Components : Type := Build_Trig { hCos : Z; hSin : Z }.
Record Volt_Components : Type := Build_Volt { qV_Component1 : Z; qV_Component2 : Z }.
Record Curr_Components : Type := Build_Curr { qI_Component1 : Z; qI_Component2 : Z }.

Record Observer_Inputs_t : Type := Build_Inputs {
  Valfa_beta : Volt_Components;
  Ialfa_beta : Curr_Components;
  Vbus : Z
}.

Record SpeednPosFdbk_Handle_t : Type := Build_SPD {
  hElAngle : Z;  (* int16_t, s16 electrical degrees *)
  hElSpeedDpp : Z;  (* int16_t *)
  hAvrMecSpeed01Hz : Z;  (* int16_t *)
  hMecAccel01HzP : Z;  (* int16_t *)
  bSpeedErrorNumber : Z;  (* uint8_t *)
  bMaximumSpeedErrorsNumber : Z;  (* uint8_t *)
  hMeasurementFrequency : Z;  (* uint16_t *)
  bElToMecRatio : Z;  (* uint8_t *)
  hMaxReliableMecSpeed01Hz : Z  (* uint16_t *)
}.

Definition set_hElAngle (v : Z) (p : SpeednPosFdbk_Handle_t) : SpeednPosFdbk_Handle_t :=
  {| hElAngle := v; hElSpeedDpp := hElSpeedDpp p; hAvrMecSpeed01Hz := hAvrMecSpeed01Hz p;
     hMecAccel01HzP := hMecAccel01HzP p; bSpeedErrorNumber := bSpeedErrorNumber p;
     bMaximumSpeedErrorsNumber := bMaximumSpeedErrorsNumber p;
     hMeasurementFrequency := hMeasurementFrequency p; bElToMecRatio := bElToMecRatio p;
     hMaxReliableMecSpeed01Hz := hMaxReliableMecSpeed01Hz p |}.

Definition set_hElSpeedDpp (v : Z) (p : SpeednPosFdbk_Handle_t) : SpeednPosFdbk_Handle_t :=
  {| hElAngle := hElAngle p; hElSpeedDpp := v; hAvrMecSpeed01Hz := hAvrMecSpeed01Hz p;
     hMecAccel01HzP := hMecAccel01HzP p; bSpeedErrorNumber := bSpeedErrorNumber p;
     bMaximumSpeedErrorsNumber := bMaximumSpeedErrorsNumber p;
     hMeasurementFrequency := hMeasurementFrequency p; bElToMecRatio := bElToMecRatio p;
     hMaxReliableMecSpeed01Hz := hMaxReliableMecSpeed01Hz p |}.

Definition set_hAvrMecSpeed01Hz (v : Z) (p : SpeednPosFdbk_Handle_t) : SpeednPosFdbk_Handle_t :=
  {| hElAngle := hElAngle p; hElSpeedDpp := hElSpeedDpp p; hAvrMecSpeed01Hz := v;
     hMecAccel01HzP := hMecAccel01HzP p; bSpeedErrorNumber := bSpeedErrorNumber p;
     bMaximumSpeedErrorsNumber := bMaximumSpeedErrorsNumber p;
     hMeasurementFrequency := hMeasurementFrequency p; bElToMecRatio := bElToMecRatio p;
     hMaxReliableMecSpeed01Hz := hMaxReliableMecSpeed01Hz p |}.

Definition set_bSpeedErrorNumber (v : Z) (p : SpeednPosFdbk_Handle_t) : SpeednPosFdbk_Handle_t :=
  {| hElAngle := hElAngle p; hElSpeedDpp := hElSpeedDpp p; hAvrMecSpeed01Hz := hAvrMecSpeed01Hz p;
     hMecAccel01HzP := hMecAccel01HzP p; bSpeedErrorNumber := v;
     bMaximumSpeedErrorsNumber := bMaximumSpeedErrorsNumber p;
     hMeasurementFrequency := hMeasurementFrequency p; bElToMecRatio := bElToMecRatio p;
     hMaxReliableMecSpeed01Hz := hMaxReliableMecSpeed01Hz p |}.

(** The collaborators that the two components call and that live in other
    files of the SDK (pid_regulator.c, mc_math.c, speed_pos_fdbk.c,
    bus_voltage_sensor.c, speed_torq_ctrl.c).  A function that updates its
    handle returns the new handle next to its C result. *)
Class MCLib : Type := {
  PID_Handle_t : Type;
  PI_Controller : PID_Handle_t -> Z -> PID_Handle_t * Z;
  PID_SetIntegralTerm : PID_Handle_t -> Z -> PID_Handle_t;
  MCM_Trig_Functions : Z -> Trig_Components;
  SPD_IsMecSpeedReliable : SpeednPosFdbk_Handle_t -> Z -> SpeednPosFdbk_Handle_t * bool;
  BusVoltageSensor_Handle_t : Type;
  VBS_GetAvBusVoltage_d : BusVoltageSensor_Handle_t -> Z;
  SpeednTorqCtrl_Handle_t : Type;
  STC_GetSpeedSensor : SpeednTorqCtrl_Handle_t -> SpeednPosFdbk_Handle_t;
  SPD_GetElSpeedDpp : SpeednPosFdbk_Handle_t -> Z
}.

Definition set_hMecAccel01HzP (v : Z) (p : SpeednPosFdbk_Handle_t) : SpeednPosFdbk_Handle_t :=
  {| hElAngle := hElAngle p; hElSpeedDpp := hElSpeedDpp p; hAvrMecSpeed01Hz := hAvrMecSpeed01Hz p;
     hMecAccel01HzP := v; bSpeedErrorNumber := bSpeedErrorNumber p;
     bMaximumSpeedErrorsNumber := bMaximumSpeedErrorsNumber p;
     hMeasurementFrequency := hMeasurementFrequency p; bElToMecRatio := bElToMecRatio p;
     hMaxReliableMecSpeed01Hz := hMaxReliableMecSpeed01Hz p |}.

(** The functions of pid_regulator.c that only the initialisation and the
    PLL services of the observer call. *)
Class PIDLib {lib : MCLib} : Type := {
  PID_HandleInit : PID_Handle_t -> PID_Handle_t;
  PID_GetKP : PID_Handle_t -> Z;
  PID_GetKI : PID_Handle_t -> Z;
  PID_SetKP : PID_Handle_t -> Z -> PID_Handle_t;
  PID_SetKI : PID_Handle_t -> Z -> PID_Handle_t;
  PID_GetKIDivisor : PID_Handle_t -> Z
}.

Section Observer.
Context {lib : MCLib}.

Record STO_Handle_t : Type := Build_STO {
  _Super : SpeednPosFdbk_Handle_t;
  hC1 : Z;  (* int16_t *)
  hC2 : Z;  (* int16_t *)
  hC3 : Z;  (* int16_t *)
  hC4 : Z;  (* int16_t *)
  hC5 : Z;  (* int16_t *)
  hC6 : Z;  (* int16_t *)
  hF1 : Z;  (* int16_t *)
  hF2 : Z;  (* int16_t *)
  hF3 : Z;  (* int16_t *)
  F3POW2 : Z;  (* uint16_t *)
  F1LOG : Z;  (* uint16_t *)
  F2LOG : Z;  (* uint16_t *)
  PIRegulator : PID_Handle_t;  (* the PLL regulator, owned in place *)
  Ialfa_est : Z;  (* int32_t *)
  Ibeta_est : Z;  (* int32_t *)
  wBemf_alfa_est : Z;  (* int32_t *)
  wBemf_beta_est : Z;  (* int32_t *)
  hBemf_alfa_est : Z;  (* int16_t *)
  hBemf_beta_est : Z;  (* int16_t *)
  Speed_Buffer : list Z;  (* int16_t array *)
  Speed_Buffer_Index : Z;  (* uint8_t *)
  IsSpeedReliable : bool;
  ConsistencyCounter : Z;  (* uint8_t *)
  ReliabilityCounter : Z;  (* uint8_t *)
  IsAlgorithmConverged : bool;
  IsBemfConsistent : bool;
  Obs_Bemf_Level : Z;  (* int32_t *)
  Est_Bemf_Level : Z;  (* int32_t *)
  EnableDualCheck : bool;
  DppBufferSum : Z;  (* int32_t *)
  SpeedBufferOldestEl : Z;  (* int16_t *)
  SpeedBufferSize01Hz : Z;  (* uint8_t *)
  SpeedBufferSizedpp : Z;  (* uint8_t *)
  SpeedBufferSizedppLOG : Z;  (* uint16_t *)
  VariancePercentage : Z;  (* uint8_t *)
  SpeedValidationBand_H : Z;  (* uint8_t *)
  SpeedValidationBand_L : Z;  (* uint8_t *)
  MinStartUpValidSpeed : Z;  (* uint16_t *)
  StartUpConsistThreshold : Z;  (* uint8_t *)
  Reliability_hysteresys : Z;  (* uint8_t *)
  BemfConsistencyCheck : Z;  (* uint8_t *)
  BemfConsistencyGain : Z;  (* uint8_t *)
  MaxAppPositiveMecSpeed01Hz : Z;  (* uint16_t *)
  ForceConvergency : bool;
  ForceConvergency2 : bool
}.

Definition set__Super (v : SpeednPosFdbk_Handle_t) (p : STO_Handle_t) : STO_Handle_t :=
  {| _Super := v; hC1 := hC1 p; hC2 := hC2 p; hC3 := hC3 p; hC4 := hC4 p; hC5 := hC5 p; hC6 := hC6 p;
     hF1 := hF1 p; hF2 := hF2 p; hF3 := hF3 p; F3POW2 := F3POW2 p; F1LOG := F1LOG p; F2LOG := F2LOG p;
     PIRegulator := PIRegulator p; Ialfa_est := Ialfa_est p; Ibeta_est := Ibeta_est p;
     wBemf_alfa_est := wBemf_alfa_est p; wBemf_beta_est := wBemf_beta_est p;
     hBemf_alfa_est := hBemf_alfa_est p; hBemf_beta_est := hBemf_beta_est p;
     Speed_Buffer := Speed_Buffer p; Speed_Buffer_Index := Speed_Buffer_Index p;
     IsSpeedReliable := IsSpeedReliable p; ConsistencyCounter := ConsistencyCounter p;
     ReliabilityCounter := ReliabilityCounter p; IsAlgorithmConverged := IsAlgorithmConverged p;
     IsBemfConsistent := IsBemfConsistent p; Obs_Bemf_Level := Obs_Bemf_Level p;
     Est_Bemf_Level := Est_Bemf_Level p; EnableDualCheck := EnableDualCheck p;
     DppBufferSum := DppBufferSum p; SpeedBufferOldestEl := SpeedBufferOldestEl p;
     SpeedBufferSize01Hz := SpeedBufferSize01Hz p; SpeedBufferSizedpp := SpeedBufferSizedpp p;
     SpeedBufferSizedppLOG := SpeedBufferSizedppLOG p; VariancePercentage := VariancePercentage p;
     SpeedValidationBand_H := SpeedValidationBand_H p; SpeedValidationBand_L := SpeedValidationBand_L p;
     MinStartUpValidSpeed := MinStartUpValidSpeed p; StartUpConsistThreshold := StartUpConsistThreshold p;
     Reliability_hysteresys := Reliability_hysteresys p; BemfConsistencyCheck := BemfConsistencyCheck p;
     BemfConsistencyGain := BemfConsistencyGain p;
     MaxAppPositiveMecSpeed01Hz := MaxAppPositiveMecSpeed01Hz p; ForceConvergency := ForceConvergency p;
     ForceConvergency2 := ForceConvergency2 p |}.

Definition set_hC2 (v : Z) (p : STO_Handle_t) : STO_Handle_t :=
  {| _Super := _Super p; hC1 := hC1 p; hC2 := v; hC3 := hC3 p; hC4 := hC4 p; hC5 := hC5 p; hC6 := hC6 p;
     hF1 := hF1 p; hF2 := hF2 p; hF3 := hF3 p; F3POW2 := F3POW2 p; F1LOG := F1LOG p; F2LOG := F2LOG p;
     PIRegulator := PIRegulator p; Ialfa_est := Ialfa_est p; Ibeta_est := Ibeta_est p;
     wBemf_alfa_est := wBemf_alfa_est p; wBemf_beta_est := wBemf_beta_est p;
     hBemf_alfa_est := hBemf_alfa_est p; hBemf_beta_est := hBemf_beta_est p;
     Speed_Buffer := Speed_Buffer p; Speed_Buffer_Index := Speed_Buffer_Index p;
     IsSpeedReliable := IsSpeedReliable p; ConsistencyCounter := ConsistencyCounter p;
     ReliabilityCounter := ReliabilityCounter p; IsAlgorithmConverged := IsAlgorithmConverged p;
     IsBemfConsistent := IsBemfConsistent p; Obs_Bemf_Level := Obs_Bemf_Level p;
     Est_Bemf_Level := Est_Bemf_Level p; EnableDualCheck := EnableDualCheck p;
     DppBufferSum := DppBufferSum p; SpeedBufferOldestEl := SpeedBufferOldestEl p;
     SpeedBufferSize01Hz := SpeedBufferSize01Hz p; SpeedBufferSizedpp := SpeedBufferSizedpp p;
     SpeedBufferSizedppLOG := SpeedBufferSizedppLOG p; VariancePercentage := VariancePercentage p;
     SpeedValidationBand_H := SpeedValidationBand_H p; SpeedValidationBand_L := SpeedValidationBand_L p;
     MinStartUpValidSpeed := MinStartUpValidSpeed p; StartUpConsistThreshold := StartUpConsistThreshold p;
     Reliability_hysteresys := Reliability_hysteresys p; BemfConsistencyCheck := BemfConsistencyCheck p;
     BemfConsistencyGain := BemfConsistencyGain p;
     MaxAppPositiveMecSpeed01Hz := MaxAppPositiveMecSpeed01Hz p; ForceConvergency := ForceConvergency p;
     ForceConvergency2 := ForceConvergency2 p |}.

Definition set_hC4 (v : Z) (p : STO_Handle_t) : STO_Handle_t :=
  {| _Super := _Super p; hC1 := hC1 p; hC2 := hC2 p; hC3 := hC3 p; hC4 := v; hC5 := hC5 p; hC6 := hC6 p;
     hF1 := hF1 p; hF2 := hF2 p; hF3 := hF3 p; F3POW2 := F3POW2 p; F1LOG := F1LOG p; F2LOG := F2LOG p;
     PIRegulator := PIRegulator p; Ialfa_est := Ialfa_est p; Ibeta_est := Ibeta_est p;
     wBemf_alfa_est := wBemf_alfa_est p; wBemf_beta_est := wBemf_beta_est p;
     hBemf_alfa_est := hBemf_alfa_est p; hBemf_beta_est := hBemf_beta_est p;
     Speed_Buffer := Speed_Buffer p; Speed_Buffer_Index := Speed_Buffer_Index p;
     IsSpeedReliable := IsSpeedReliable p; ConsistencyCounter := ConsistencyCounter p;
     ReliabilityCounter := ReliabilityCounter p; IsAlgorithmConverged := IsAlgorithmConverged p;
     IsBemfConsistent := IsBemfConsistent p; Obs_Bemf_Level := Obs_Bemf_Level p;
     Est_Bemf_Level := Est_Bemf_Level p; EnableDualCheck := EnableDualCheck p;
     DppBufferSum := DppBufferSum p; SpeedBufferOldestEl := SpeedBufferOldestEl p;
     SpeedBufferSize01Hz := SpeedBufferSize01Hz p; SpeedBufferSizedpp := SpeedBufferSizedpp p;
     SpeedBufferSizedppLOG := SpeedBufferSizedppLOG p; VariancePercentage := VariancePercentage p;
     SpeedValidationBand_H := SpeedValidationBand_H p; SpeedValidationBand_L := SpeedValidationBand_L p;
     MinStartUpValidSpeed := MinStartUpValidSpeed p; StartUpConsistThreshold := StartUpConsistThreshold p;
     Reliability_hysteresys := Reliability_hysteresys p; BemfConsistencyCheck := BemfConsistencyCheck p;
     BemfConsistencyGain := BemfConsistencyGain p;
     MaxAppPositiveMecSpeed01Hz := MaxAppPositiveMecSpeed01Hz p; ForceConvergency := ForceConvergency p;
     ForceConvergency2 := ForceConvergency2 p |}.

Definition set_PIRegulator (v : PID_Handle_t) (p : STO_Handle_t) : STO_Handle_t :=
  {| _Super := _Super p; hC1 := hC1 p; hC2 := hC2 p; hC3 := hC3 p; hC4 := hC4 p; hC5 := hC5 p;
     hC6 := hC6 p; hF1 := hF1 p; hF2 := hF2 p; hF3 := hF3 p; F3POW2 := F3POW2 p; F1LOG := F1LOG p;
     F2LOG := F2LOG p; PIRegulator := v; Ialfa_est := Ialfa_est p; Ibeta_est := Ibeta_est p;
     wBemf_alfa_est := wBemf_alfa_est p; wBemf_beta_est := wBemf_beta_est p;
     hBemf_alfa_est := hBemf_alfa_est p; hBemf_beta_est := hBemf_beta_est p;
     Speed_Buffer := Speed_Buffer p; Speed_Buffer_Index := Speed_Buffer_Index p;
     IsSpeedReliable := IsSpeedReliable p; ConsistencyCounter := ConsistencyCounter p;
     ReliabilityCounter := ReliabilityCounter p; IsAlgorithmConverged := IsAlgorithmConverged p;
     IsBemfConsistent := IsBemfConsistent p; Obs_Bemf_Level := Obs_Bemf_Level p;
     Est_Bemf_Level := Est_Bemf_Level p; EnableDualCheck := EnableDualCheck p;
     DppBufferSum := DppBufferSum p; SpeedBufferOldestEl := SpeedBufferOldestEl p;
     SpeedBufferSize01Hz := SpeedBufferSize01Hz p; SpeedBufferSizedpp := SpeedBufferSizedpp p;
     SpeedBufferSizedppLOG := SpeedBufferSizedppLOG p; VariancePercentage := VariancePercentage p;
     SpeedValidationBand_H := SpeedValidationBand_H p; SpeedValidationBand_L := SpeedValidationBand_L p;
     MinStartUpValidSpeed := MinStartUpValidSpeed p; StartUpConsistThreshold := StartUpConsistThreshold p;
     Reliability_hysteresys := Reliability_hysteresys p; BemfConsistencyCheck := BemfConsistencyCheck p;
     BemfConsistencyGain := BemfConsistencyGain p;
     MaxAppPositiveMecSpeed01Hz := MaxAppPositiveMecSpeed01Hz p; ForceConvergency := ForceConvergency p;
     ForceConvergency2 := ForceConvergency2 p |}.

Definition set_Ialfa_est (v : Z) (p : STO_Handle_t) : STO_Handle_t :=
  {| _Super := _Super p; hC1 := hC1 p; hC2 := hC2 p; hC3 := hC3 p; hC4 := hC4 p; hC5 := hC5 p;
     hC6 := hC6 p; hF1 := hF1 p; hF2 := hF2 p; hF3 := hF3 p; F3POW2 := F3POW2 p; F1LOG := F1LOG p;
     F2LOG := F2LOG p; PIRegulator := PIRegulator p; Ialfa_est := v; Ibeta_est := Ibeta_est p;
     wBemf_alfa_est := wBemf_alfa_est p; wBemf_beta_est := wBemf_beta_est p;
     hBemf_alfa_est := hBemf_alfa_est p; hBemf_beta_est := hBemf_beta_est p;
     Speed_Buffer := Speed_Buffer p; Speed_Buffer_Index := Speed_Buffer_Index p;
     IsSpeedReliable := IsSpeedReliable p; ConsistencyCounter := ConsistencyCounter p;
     ReliabilityCounter := ReliabilityCounter p; IsAlgorithmConverged := IsAlgorithmConverged p;
     IsBemfConsistent := IsBemfConsistent p; Obs_Bemf_Level := Obs_Bemf_Level p;
     Est_Bemf_Level := Est_Bemf_Level p; EnableDualCheck := EnableDualCheck p;
     DppBufferSum := DppBufferSum p; SpeedBufferOldestEl := SpeedBufferOldestEl p;
     SpeedBufferSize01Hz := SpeedBufferSize01Hz p; SpeedBufferSizedpp := SpeedBufferSizedpp p;
     SpeedBufferSizedppLOG := SpeedBufferSizedppLOG p; VariancePercentage := VariancePercentage p;
     SpeedValidationBand_H := SpeedValidationBand_H p; SpeedValidationBand_L := SpeedValidationBand_L p;
     MinStartUpValidSpeed := MinStartUpValidSpeed p; StartUpConsistThreshold := StartUpConsistThreshold p;
     Reliability_hysteresys := Reliability_hysteresys p; BemfConsistencyCheck := BemfConsistencyCheck p;
     BemfConsistencyGain := BemfConsistencyGain p;
     MaxAppPositiveMecSpeed01Hz := MaxAppPositiveMecSpeed01Hz p; ForceConvergency := ForceConvergency p;
     ForceConvergency2 := ForceConvergency2 p |}.

Definition set_Ibeta_est (v : Z) (p : STO_Handle_t) : STO_Handle_t :=
  {| _Super := _Super p; hC1 := hC1 p; hC2 := hC2 p; hC3 := hC3 p; hC4 := hC4 p; hC5 := hC5 p;
     hC6 := hC6 p; hF1 := hF1 p; hF2 := hF2 p; hF3 := hF3 p; F3POW2 := F3POW2 p; F1LOG := F1LOG p;
     F2LOG := F2LOG p; PIRegulator := PIRegulator p; Ialfa_est := Ialfa_est p; Ibeta_est := v;
     wBemf_alfa_est := wBemf_alfa_est p; wBemf_beta_est := wBemf_beta_est p;
     hBemf_alfa_est := hBemf_alfa_est p; hBemf_beta_est := hBemf_beta_est p;
     Speed_Buffer := Speed_Buffer p; Speed_Buffer_Index := Speed_Buffer_Index p;
     IsSpeedReliable := IsSpeedReliable p; ConsistencyCounter := ConsistencyCounter p;
     ReliabilityCounter := ReliabilityCounter p; IsAlgorithmConverged := IsAlgorithmConverged p;
     IsBemfConsistent := IsBemfConsistent p; Obs_Bemf_Level := Obs_Bemf_Level p;
     Est_Bemf_Level := Est_Bemf_Level p; EnableDualCheck := EnableDualCheck p;
     DppBufferSum := DppBufferSum p; SpeedBufferOldestEl := SpeedBufferOldestEl p;
     SpeedBufferSize01Hz := SpeedBufferSize01Hz p; SpeedBufferSizedpp := SpeedBufferSizedpp p;
     SpeedBufferSizedppLOG := SpeedBufferSizedppLOG p; VariancePercentage := VariancePercentage p;
     SpeedValidationBand_H := SpeedValidationBand_H p; SpeedValidationBand_L := SpeedValidationBand_L p;
     MinStartUpValidSpeed := MinStartUpValidSpeed p; StartUpConsistThreshold := StartUpConsistThreshold p;
     Reliability_hysteresys := Reliability_hysteresys p; BemfConsistencyCheck := BemfConsistencyCheck p;
     BemfConsistencyGain := BemfConsistencyGain p;
     MaxAppPositiveMecSpeed01Hz := MaxAppPositiveMecSpeed01Hz p; ForceConvergency := ForceConvergency p;
     ForceConvergency2 := ForceConvergency2 p |}.

Definition set_wBemf_alfa_est (v : Z) (p : STO_Handle_t) : STO_Handle_t :=
  {| _Super := _Super p; hC1 := hC1 p; hC2 := hC2 p; hC3 := hC3 p; hC4 := hC4 p; hC5 := hC5 p;
     hC6 := hC6 p; hF1 := hF1 p; hF2 := hF2 p; hF3 := hF3 p; F3POW2 := F3POW2 p; F1LOG := F1LOG p;
     F2LOG := F2LOG p; PIRegulator := PIRegulator p; Ialfa_est := Ialfa_est p; Ibeta_est := Ibeta_est p;
     wBemf_alfa_est := v; wBemf_beta_est := wBemf_beta_est p; hBemf_alfa_est := hBemf_alfa_est p;
     hBemf_beta_est := hBemf_beta_est p; Speed_Buffer := Speed_Buffer p;
     Speed_Buffer_Index := Speed_Buffer_Index p; IsSpeedReliable := IsSpeedReliable p;
     ConsistencyCounter := ConsistencyCounter p; ReliabilityCounter := ReliabilityCounter p;
     IsAlgorithmConverged := IsAlgorithmConverged p; IsBemfConsistent := IsBemfConsistent p;
     Obs_Bemf_Level := Obs_Bemf_Level p; Est_Bemf_Level := Est_Bemf_Level p;
     EnableDualCheck := EnableDualCheck p; DppBufferSum := DppBufferSum p;
     SpeedBufferOldestEl := SpeedBufferOldestEl p; SpeedBufferSize01Hz := SpeedBufferSize01Hz p;
     SpeedBufferSizedpp := SpeedBufferSizedpp p; SpeedBufferSizedppLOG := SpeedBufferSizedppLOG p;
     VariancePercentage := VariancePercentage p; SpeedValidationBand_H := SpeedValidationBand_H p;
     SpeedValidationBand_L := SpeedValidationBand_L p; MinStartUpValidSpeed := MinStartUpValidSpeed p;
     StartUpConsistThreshold := StartUpConsistThreshold p;
     Reliability_hysteresys := Reliability_hysteresys p; BemfConsistencyCheck := BemfConsistencyCheck p;
     BemfConsistencyGain := BemfConsistencyGain p;
     MaxAppPositiveMecSpeed01Hz := MaxAppPositiveMecSpeed01Hz p; ForceConvergency := ForceConvergency p;
     ForceConvergency2 := ForceConvergency2 p |}.

Definition set_wBemf_beta_est (v : Z) (p : STO_Handle_t) : STO_Handle_t :=
  {| _Super := _Super p; hC1 := hC1 p; hC2 := hC2 p; hC3 := hC3 p; hC4 := hC4 p; hC5 := hC5 p;
     hC6 := hC6 p; hF1 := hF1 p; hF2 := hF2 p; hF3 := hF3 p; F3POW2 := F3POW2 p; F1LOG := F1LOG p;
     F2LOG := F2LOG p; PIRegulator := PIRegulator p; Ialfa_est := Ialfa_est p; Ibeta_est := Ibeta_est p;
     wBemf_alfa_est := wBemf_alfa_est p; wBemf_beta_est := v; hBemf_alfa_est := hBemf_alfa_est p;
     hBemf_beta_est := hBemf_beta_est p; Speed_Buffer := Speed_Buffer p;
     Speed_Buffer_Index := Speed_Buffer_Index p; IsSpeedReliable := IsSpeedReliable p;
     ConsistencyCounter := ConsistencyCounter p; ReliabilityCounter := ReliabilityCounter p;
     IsAlgorithmConverged := IsAlgorithmConverged p; IsBemfConsistent := IsBemfConsistent p;
     Obs_Bemf_Level := Obs_Bemf_Level p; Est_Bemf_Level := Est_Bemf_Level p;
     EnableDualCheck := EnableDualCheck p; DppBufferSum := DppBufferSum p;
     SpeedBufferOldestEl := SpeedBufferOldestEl p; SpeedBufferSize01Hz := SpeedBufferSize01Hz p;
     SpeedBufferSizedpp := SpeedBufferSizedpp p; SpeedBufferSizedppLOG := SpeedBufferSizedppLOG p;
     VariancePercentage := VariancePercentage p; SpeedValidationBand_H := SpeedValidationBand_H p;
     SpeedValidationBand_L := SpeedValidationBand_L p; MinStartUpValidSpeed := MinStartUpValidSpeed p;
     StartUpConsistThreshold := StartUpConsistThreshold p;
     Reliability_hysteresys := Reliability_hysteresys p; BemfConsistencyCheck := BemfConsistencyCheck p;
     BemfConsistencyGain := BemfConsistencyGain p;
     MaxAppPositiveMecSpeed01Hz := MaxAppPositiveMecSpeed01Hz p; ForceConvergency := ForceConvergency p;
     ForceConvergency2 := ForceConvergency2 p |}.

Definition set_hBemf_alfa_est (v : Z) (p : STO_Handle_t) : STO_Handle_t :=
  {| _Super := _Super p; hC1 := hC1 p; hC2 := hC2 p; hC3 := hC3 p; hC4 := hC4 p; hC5 := hC5 p;
     hC6 := hC6 p; hF1 := hF1 p; hF2 := hF2 p; hF3 := hF3 p; F3POW2 := F3POW2 p; F1LOG := F1LOG p;
     F2LOG := F2LOG p; PIRegulator := PIRegulator p; Ialfa_est := Ialfa_est p; Ibeta_est := Ibeta_est p;
     wBemf_alfa_est := wBemf_alfa_est p; wBemf_beta_est := wBemf_beta_est p; hBemf_alfa_est := v;
     hBemf_beta_est := hBemf_beta_est p; Speed_Buffer := Speed_Buffer p;
     Speed_Buffer_Index := Speed_Buffer_Index p; IsSpeedReliable := IsSpeedReliable p;
     ConsistencyCounter := ConsistencyCounter p; ReliabilityCounter := ReliabilityCounter p;
     IsAlgorithmConverged := IsAlgorithmConverged p; IsBemfConsistent := IsBemfConsistent p;
     Obs_Bemf_Level := Obs_Bemf_Level p; Est_Bemf_Level := Est_Bemf_Level p;
     EnableDualCheck := EnableDualCheck p; DppBufferSum := DppBufferSum p;
     SpeedBufferOldestEl := SpeedBufferOldestEl p; SpeedBufferSize01Hz := SpeedBufferSize01Hz p;
     SpeedBufferSizedpp := SpeedBufferSizedpp p; SpeedBufferSizedppLOG := SpeedBufferSizedppLOG p;
     VariancePercentage := VariancePercentage p; SpeedValidationBand_H := SpeedValidationBand_H p;
     SpeedValidationBand_L := SpeedValidationBand_L p; MinStartUpValidSpeed := MinStartUpValidSpeed p;
     StartUpConsistThreshold := StartUpConsistThreshold p;
     Reliability_hysteresys := Reliability_hysteresys p; BemfConsistencyCheck := BemfConsistencyCheck p;
     BemfConsistencyGain := BemfConsistencyGain p;
     MaxAppPositiveMecSpeed01Hz := MaxAppPositiveMecSpeed01Hz p; ForceConvergency := ForceConvergency p;
     ForceConvergency2 := ForceConvergency2 p |}.

Definition set_hBemf_beta_est (v : Z) (p : STO_Handle_t) : STO_Handle_t :=
  {| _Super := _Super p; hC1 := hC1 p; hC2 := hC2 p; hC3 := hC3 p; hC4 := hC4 p; hC5 := hC5 p;
     hC6 := hC6 p; hF1 := hF1 p; hF2 := hF2 p; hF3 := hF3 p; F3POW2 := F3POW2 p; F1LOG := F1LOG p;
     F2LOG := F2LOG p; PIRegulator := PIRegulator p; Ialfa_est := Ialfa_est p; Ibeta_est := Ibeta_est p;
     wBemf_alfa_est := wBemf_alfa_est p; wBemf_beta_est := wBemf_beta_est p;
     hBemf_alfa_est := hBemf_alfa_est p; hBemf_beta_est := v; Speed_Buffer := Speed_Buffer p;
     Speed_Buffer_Index := Speed_Buffer_Index p; IsSpeedReliable := IsSpeedReliable p;
     ConsistencyCounter := ConsistencyCounter p; ReliabilityCounter := ReliabilityCounter p;
     IsAlgorithmConverged := IsAlgorithmConverged p; IsBemfConsistent := IsBemfConsistent p;
     Obs_Bemf_Level := Obs_Bemf_Level p; Est_Bemf_Level := Est_Bemf_Level p;
     EnableDualCheck := EnableDualCheck p; DppBufferSum := DppBufferSum p;
     SpeedBufferOldestEl := SpeedBufferOldestEl p; SpeedBufferSize01Hz := SpeedBufferSize01Hz p;
     SpeedBufferSizedpp := SpeedBufferSizedpp p; SpeedBufferSizedppLOG := SpeedBufferSizedppLOG p;
     VariancePercentage := VariancePercentage p; SpeedValidationBand_H := SpeedValidationBand_H p;
     SpeedValidationBand_L := SpeedValidationBand_L p; MinStartUpValidSpeed := MinStartUpValidSpeed p;
     StartUpConsistThreshold := StartUpConsistThreshold p;
     Reliability_hysteresys := Reliability_hysteresys p; BemfConsistencyCheck := BemfConsistencyCheck p;
     BemfConsistencyGain := BemfConsistencyGain p;
     MaxAppPositiveMecSpeed01Hz := MaxAppPositiveMecSpeed01Hz p; ForceConvergency := ForceConvergency p;
     ForceConvergency2 := ForceConvergency2 p |}.

Definition set_Speed_Buffer (v : list Z) (p : STO_Handle_t) : STO_Handle_t :=
  {| _Super := _Super p; hC1 := hC1 p; hC2 := hC2 p; hC3 := hC3 p; hC4 := hC4 p; hC5 := hC5 p;
     hC6 := hC6 p; hF1 := hF1 p; hF2 := hF2 p; hF3 := hF3 p; F3POW2 := F3POW2 p; F1LOG := F1LOG p;
     F2LOG := F2LOG p; PIRegulator := PIRegulator p; Ialfa_est := Ialfa_est p; Ibeta_est := Ibeta_est p;
     wBemf_alfa_est := wBemf_alfa_est p; wBemf_beta_est := wBemf_beta_est p;
     hBemf_alfa_est := hBemf_alfa_est p; hBemf_beta_est := hBemf_beta_est p; Speed_Buffer := v;
     Speed_Buffer_Index := Speed_Buffer_Index p; IsSpeedReliable := IsSpeedReliable p;
     ConsistencyCounter := ConsistencyCounter p; ReliabilityCounter := ReliabilityCounter p;
     IsAlgorithmConverged := IsAlgorithmConverged p; IsBemfConsistent := IsBemfConsistent p;
     Obs_Bemf_Level := Obs_Bemf_Level p; Est_Bemf_Level := Est_Bemf_Level p;
     EnableDualCheck := EnableDualCheck p; DppBufferSum := DppBufferSum p;
     SpeedBufferOldestEl := SpeedBufferOldestEl p; SpeedBufferSize01Hz := SpeedBufferSize01Hz p;
     SpeedBufferSizedpp := SpeedBufferSizedpp p; SpeedBufferSizedppLOG := SpeedBufferSizedppLOG p;
     VariancePercentage := VariancePercentage p; SpeedValidationBand_H := SpeedValidationBand_H p;
     SpeedValidationBand_L := SpeedValidationBand_L p; MinStartUpValidSpeed := MinStartUpValidSpeed p;
     StartUpConsistThreshold := StartUpConsistThreshold p;
     Reliability_hysteresys := Reliability_hysteresys p; BemfConsistencyCheck := BemfConsistencyCheck p;
     BemfConsistencyGain := BemfConsistencyGain p;
     MaxAppPositiveMecSpeed01Hz := MaxAppPositiveMecSpeed01Hz p; ForceConvergency := ForceConvergency p;
     ForceConvergency2 := ForceConvergency2 p |}.

Definition set_Speed_Buffer_Index (v : Z) (p : STO_Handle_t) : STO_Handle_t :=
  {| _Super := _Super p; hC1 := hC1 p; hC2 := hC2 p; hC3 := hC3 p; hC4 := hC4 p; hC5 := hC5 p;
     hC6 := hC6 p; hF1 := hF1 p; hF2 := hF2 p; hF3 := hF3 p; F3POW2 := F3POW2 p; F1LOG := F1LOG p;
     F2LOG := F2LOG p; PIRegulator := PIRegulator p; Ialfa_est := Ialfa_est p; Ibeta_est := Ibeta_est p;
     wBemf_alfa_est := wBemf_alfa_est p; wBemf_beta_est := wBemf_beta_est p;
     hBemf_alfa_est := hBemf_alfa_est p; hBemf_beta_est := hBemf_beta_est p;
     Speed_Buffer := Speed_Buffer p; Speed_Buffer_Index := v; IsSpeedReliable := IsSpeedReliable p;
     ConsistencyCounter := ConsistencyCounter p; ReliabilityCounter := ReliabilityCounter p;
     IsAlgorithmConverged := IsAlgorithmConverged p; IsBemfConsistent := IsBemfConsistent p;
     Obs_Bemf_Level := Obs_Bemf_Level p; Est_Bemf_Level := Est_Bemf_Level p;
     EnableDualCheck := EnableDualCheck p; DppBufferSum := DppBufferSum p;
     SpeedBufferOldestEl := SpeedBufferOldestEl p; SpeedBufferSize01Hz := SpeedBufferSize01Hz p;
     SpeedBufferSizedpp := SpeedBufferSizedpp p; SpeedBufferSizedppLOG := SpeedBufferSizedppLOG p;
     VariancePercentage := VariancePercentage p; SpeedValidationBand_H := SpeedValidationBand_H p;
     SpeedValidationBand_L := SpeedValidationBand_L p; MinStartUpValidSpeed := MinStartUpValidSpeed p;
     StartUpConsistThreshold := StartUpConsistThreshold p;
     Reliability_hysteresys := Reliability_hysteresys p; BemfConsistencyCheck := BemfConsistencyCheck p;
     BemfConsistencyGain := BemfConsistencyGain p;
     MaxAppPositiveMecSpeed01Hz := MaxAppPositiveMecSpeed01Hz p; ForceConvergency := ForceConvergency p;
     ForceConvergency2 := ForceConvergency2 p |}.

Definition set_IsSpeedReliable (v : bool) (p : STO_Handle_t) : STO_Handle_t :=
  {| _Super := _Super p; hC1 := hC1 p; hC2 := hC2 p; hC3 := hC3 p; hC4 := hC4 p; hC5 := hC5 p;
     hC6 := hC6 p; hF1 := hF1 p; hF2 := hF2 p; hF3 := hF3 p; F3POW2 := F3POW2 p; F1LOG := F1LOG p;
     F2LOG := F2LOG p; PIRegulator := PIRegulator p; Ialfa_est := Ialfa_est p; Ibeta_est := Ibeta_est p;
     wBemf_alfa_est := wBemf_alfa_est p; wBemf_beta_est := wBemf_beta_est p;
     hBemf_alfa_est := hBemf_alfa_est p; hBemf_beta_est := hBemf_beta_est p;
     Speed_Buffer := Speed_Buffer p; Speed_Buffer_Index := Speed_Buffer_Index p; IsSpeedReliable := v;
     ConsistencyCounter := ConsistencyCounter p; ReliabilityCounter := ReliabilityCounter p;
     IsAlgorithmConverged := IsAlgorithmConverged p; IsBemfConsistent := IsBemfConsistent p;
     Obs_Bemf_Level := Obs_Bemf_Level p; Est_Bemf_Level := Est_Bemf_Level p;
     EnableDualCheck := EnableDualCheck p; DppBufferSum := DppBufferSum p;
     SpeedBufferOldestEl := SpeedBufferOldestEl p; SpeedBufferSize01Hz := SpeedBufferSize01Hz p;
     SpeedBufferSizedpp := SpeedBufferSizedpp p; SpeedBufferSizedppLOG := SpeedBufferSizedppLOG p;
     VariancePercentage := VariancePercentage p; SpeedValidationBand_H := SpeedValidationBand_H p;
     SpeedValidationBand_L := SpeedValidationBand_L p; MinStartUpValidSpeed := MinStartUpValidSpeed p;
     StartUpConsistThreshold := StartUpConsistThreshold p;
     Reliability_hysteresys := Reliability_hysteresys p; BemfConsistencyCheck := BemfConsistencyCheck p;
     BemfConsistencyGain := BemfConsistencyGain p;
     MaxAppPositiveMecSpeed01Hz := MaxAppPositiveMecSpeed01Hz p; ForceConvergency := ForceConvergency p;
     ForceConvergency2 := ForceConvergency2 p |}.

Definition set_ConsistencyCounter (v : Z) (p : STO_Handle_t) : STO_Handle_t :=
  {| _Super := _Super p; hC1 := hC1 p; hC2 := hC2 p; hC3 := hC3 p; hC4 := hC4 p; hC5 := hC5 p;
     hC6 := hC6 p; hF1 := hF1 p; hF2 := hF2 p; hF3 := hF3 p; F3POW2 := F3POW2 p; F1LOG := F1LOG p;
     F2LOG := F2LOG p; PIRegulator := PIRegulator p; Ialfa_est := Ialfa_est p; Ibeta_est := Ibeta_est p;
     wBemf_alfa_est := wBemf_alfa_est p; wBemf_beta_est := wBemf_beta_est p;
     hBemf_alfa_est := hBemf_alfa_est p; hBemf_beta_est := hBemf_beta_est p;
     Speed_Buffer := Speed_Buffer p; Speed_Buffer_Index := Speed_Buffer_Index p;
     IsSpeedReliable := IsSpeedReliable p; ConsistencyCounter := v;
     ReliabilityCounter := ReliabilityCounter p; IsAlgorithmConverged := IsAlgorithmConverged p;
     IsBemfConsistent := IsBemfConsistent p; Obs_Bemf_Level := Obs_Bemf_Level p;
     Est_Bemf_Level := Est_Bemf_Level p; EnableDualCheck := EnableDualCheck p;
     DppBufferSum := DppBufferSum p; SpeedBufferOldestEl := SpeedBufferOldestEl p;
     SpeedBufferSize01Hz := SpeedBufferSize01Hz p; SpeedBufferSizedpp := SpeedBufferSizedpp p;
     SpeedBufferSizedppLOG := SpeedBufferSizedppLOG p; VariancePercentage := VariancePercentage p;
     SpeedValidationBand_H := SpeedValidationBand_H p; SpeedValidationBand_L := SpeedValidationBand_L p;
     MinStartUpValidSpeed := MinStartUpValidSpeed p; StartUpConsistThreshold := StartUpConsistThreshold p;
     Reliability_hysteresys := Reliability_hysteresys p; BemfConsistencyCheck := BemfConsistencyCheck p;
     BemfConsistencyGain := BemfConsistencyGain p;
     MaxAppPositiveMecSpeed01Hz := MaxAppPositiveMecSpeed01Hz p; ForceConvergency := ForceConvergency p;
     ForceConvergency2 := ForceConvergency2 p |}.

Definition set_ReliabilityCounter (v : Z) (p : STO_Handle_t) : STO_Handle_t :=
  {| _Super := _Super p; hC1 := hC1 p; hC2 := hC2 p; hC3 := hC3 p; hC4 := hC4 p; hC5 := hC5 p;
     hC6 := hC6 p; hF1 := hF1 p; hF2 := hF2 p; hF3 := hF3 p; F3POW2 := F3POW2 p; F1LOG := F1LOG p;
     F2LOG := F2LOG p; PIRegulator := PIRegulator p; Ialfa_est := Ialfa_est p; Ibeta_est := Ibeta_est p;
     wBemf_alfa_est := wBemf_alfa_est p; wBemf_beta_est := wBemf_beta_est p;
     hBemf_alfa_est := hBemf_alfa_est p; hBemf_beta_est := hBemf_beta_est p;
     Speed_Buffer := Speed_Buffer p; Speed_Buffer_Index := Speed_Buffer_Index p;
     IsSpeedReliable := IsSpeedReliable p; ConsistencyCounter := ConsistencyCounter p;
     ReliabilityCounter := v; IsAlgorithmConverged := IsAlgorithmConverged p;
     IsBemfConsistent := IsBemfConsistent p; Obs_Bemf_Level := Obs_Bemf_Level p;
     Est_Bemf_Level := Est_Bemf_Level p; EnableDualCheck := EnableDualCheck p;
     DppBufferSum := DppBufferSum p; SpeedBufferOldestEl := SpeedBufferOldestEl p;
     SpeedBufferSize01Hz := SpeedBufferSize01Hz p; SpeedBufferSizedpp := SpeedBufferSizedpp p;
     SpeedBufferSizedppLOG := SpeedBufferSizedppLOG p; VariancePercentage := VariancePercentage p;
     SpeedValidationBand_H := SpeedValidationBand_H p; SpeedValidationBand_L := SpeedValidationBand_L p;
     MinStartUpValidSpeed := MinStartUpValidSpeed p; StartUpConsistThreshold := StartUpConsistThreshold p;
     Reliability_hysteresys := Reliability_hysteresys p; BemfConsistencyCheck := BemfConsistencyCheck p;
     BemfConsistencyGain := BemfConsistencyGain p;
     MaxAppPositiveMecSpeed01Hz := MaxAppPositiveMecSpeed01Hz p; ForceConvergency := ForceConvergency p;
     ForceConvergency2 := ForceConvergency2 p |}.

Definition set_IsAlgorithmConverged (v : bool) (p : STO_Handle_t) : STO_Handle_t :=
  {| _Super := _Super p; hC1 := hC1 p; hC2 := hC2 p; hC3 := hC3 p; hC4 := hC4 p; hC5 := hC5 p;
     hC6 := hC6 p; hF1 := hF1 p; hF2 := hF2 p; hF3 := hF3 p; F3POW2 := F3POW2 p; F1LOG := F1LOG p;
     F2LOG := F2LOG p; PIRegulator := PIRegulator p; Ialfa_est := Ialfa_est p; Ibeta_est := Ibeta_est p;
     wBemf_alfa_est := wBemf_alfa_est p; wBemf_beta_est := wBemf_beta_est p;
     hBemf_alfa_est := hBemf_alfa_est p; hBemf_beta_est := hBemf_beta_est p;
     Speed_Buffer := Speed_Buffer p; Speed_Buffer_Index := Speed_Buffer_Index p;
     IsSpeedReliable := IsSpeedReliable p; ConsistencyCounter := ConsistencyCounter p;
     ReliabilityCounter := ReliabilityCounter p; IsAlgorithmConverged := v;
     IsBemfConsistent := IsBemfConsistent p; Obs_Bemf_Level := Obs_Bemf_Level p;
     Est_Bemf_Level := Est_Bemf_Level p; EnableDualCheck := EnableDualCheck p;
     DppBufferSum := DppBufferSum p; SpeedBufferOldestEl := SpeedBufferOldestEl p;
     SpeedBufferSize01Hz := SpeedBufferSize01Hz p; SpeedBufferSizedpp := SpeedBufferSizedpp p;
     SpeedBufferSizedppLOG := SpeedBufferSizedppLOG p; VariancePercentage := VariancePercentage p;
     SpeedValidationBand_H := SpeedValidationBand_H p; SpeedValidationBand_L := SpeedValidationBand_L p;
     MinStartUpValidSpeed := MinStartUpValidSpeed p; StartUpConsistThreshold := StartUpConsistThreshold p;
     Reliability_hysteresys := Reliability_hysteresys p; BemfConsistencyCheck := BemfConsistencyCheck p;
     BemfConsistencyGain := BemfConsistencyGain p;
     MaxAppPositiveMecSpeed01Hz := MaxAppPositiveMecSpeed01Hz p; ForceConvergency := ForceConvergency p;
     ForceConvergency2 := ForceConvergency2 p |}.

Definition set_IsBemfConsistent (v : bool) (p : STO_Handle_t) : STO_Handle_t :=
  {| _Super := _Super p; hC1 := hC1 p; hC2 := hC2 p; hC3 := hC3 p; hC4 := hC4 p; hC5 := hC5 p;
     hC6 := hC6 p; hF1 := hF1 p; hF2 := hF2 p; hF3 := hF3 p; F3POW2 := F3POW2 p; F1LOG := F1LOG p;
     F2LOG := F2LOG p; PIRegulator := PIRegulator p; Ialfa_est := Ialfa_est p; Ibeta_est := Ibeta_est p;
     wBemf_alfa_est := wBemf_alfa_est p; wBemf_beta_est := wBemf_beta_est p;
     hBemf_alfa_est := hBemf_alfa_est p; hBemf_beta_est := hBemf_beta_est p;
     Speed_Buffer := Speed_Buffer p; Speed_Buffer_Index := Speed_Buffer_Index p;
     IsSpeedReliable := IsSpeedReliable p; ConsistencyCounter := ConsistencyCounter p;
     ReliabilityCounter := ReliabilityCounter p; IsAlgorithmConverged := IsAlgorithmConverged p;
     IsBemfConsistent := v; Obs_Bemf_Level := Obs_Bemf_Level p; Est_Bemf_Level := Est_Bemf_Level p;
     EnableDualCheck := EnableDualCheck p; DppBufferSum := DppBufferSum p;
     SpeedBufferOldestEl := SpeedBufferOldestEl p; SpeedBufferSize01Hz := SpeedBufferSize01Hz p;
     SpeedBufferSizedpp := SpeedBufferSizedpp p; SpeedBufferSizedppLOG := SpeedBufferSizedppLOG p;
     VariancePercentage := VariancePercentage p; SpeedValidationBand_H := SpeedValidationBand_H p;
     SpeedValidationBand_L := SpeedValidationBand_L p; MinStartUpValidSpeed := MinStartUpValidSpeed p;
     StartUpConsistThreshold := StartUpConsistThreshold p;
     Reliability_hysteresys := Reliability_hysteresys p; BemfConsistencyCheck := BemfConsistencyCheck p;
     BemfConsistencyGain := BemfConsistencyGain p;
     MaxAppPositiveMecSpeed01Hz := MaxAppPositiveMecSpeed01Hz p; ForceConvergency := ForceConvergency p;
     ForceConvergency2 := ForceConvergency2 p |}.

Definition set_Obs_Bemf_Level (v : Z) (p : STO_Handle_t) : STO_Handle_t :=
  {| _Super := _Super p; hC1 := hC1 p; hC2 := hC2 p; hC3 := hC3 p; hC4 := hC4 p; hC5 := hC5 p;
     hC6 := hC6 p; hF1 := hF1 p; hF2 := hF2 p; hF3 := hF3 p; F3POW2 := F3POW2 p; F1LOG := F1LOG p;
     F2LOG := F2LOG p; PIRegulator := PIRegulator p; Ialfa_est := Ialfa_est p; Ibeta_est := Ibeta_est p;
     wBemf_alfa_est := wBemf_alfa_est p; wBemf_beta_est := wBemf_beta_est p;
     hBemf_alfa_est := hBemf_alfa_est p; hBemf_beta_est := hBemf_beta_est p;
     Speed_Buffer := Speed_Buffer p; Speed_Buffer_Index := Speed_Buffer_Index p;
     IsSpeedReliable := IsSpeedReliable p; ConsistencyCounter := ConsistencyCounter p;
     ReliabilityCounter := ReliabilityCounter p; IsAlgorithmConverged := IsAlgorithmConverged p;
     IsBemfConsistent := IsBemfConsistent p; Obs_Bemf_Level := v; Est_Bemf_Level := Est_Bemf_Level p;
     EnableDualCheck := EnableDualCheck p; DppBufferSum := DppBufferSum p;
     SpeedBufferOldestEl := SpeedBufferOldestEl p; SpeedBufferSize01Hz := SpeedBufferSize01Hz p;
     SpeedBufferSizedpp := SpeedBufferSizedpp p; SpeedBufferSizedppLOG := SpeedBufferSizedppLOG p;
     VariancePercentage := VariancePercentage p; SpeedValidationBand_H := SpeedValidationBand_H p;
     SpeedValidationBand_L := SpeedValidationBand_L p; MinStartUpValidSpeed := MinStartUpValidSpeed p;
     StartUpConsistThreshold := StartUpConsistThreshold p;
     Reliability_hysteresys := Reliability_hysteresys p; BemfConsistencyCheck := BemfConsistencyCheck p;
     BemfConsistencyGain := BemfConsistencyGain p;
     MaxAppPositiveMecSpeed01Hz := MaxAppPositiveMecSpeed01Hz p; ForceConvergency := ForceConvergency p;
     ForceConvergency2 := ForceConvergency2 p |}.

Definition set_Est_Bemf_Level (v : Z) (p : STO_Handle_t) : STO_Handle_t :=
  {| _Super := _Super p; hC1 := hC1 p; hC2 := hC2 p; hC3 := hC3 p; hC4 := hC4 p; hC5 := hC5 p;
     hC6 := hC6 p; hF1 := hF1 p; hF2 := hF2 p; hF3 := hF3 p; F3POW2 := F3POW2 p; F1LOG := F1LOG p;
     F2LOG := F2LOG p; PIRegulator := PIRegulator p; Ialfa_est := Ialfa_est p; Ibeta_est := Ibeta_est p;
     wBemf_alfa_est := wBemf_alfa_est p; wBemf_beta_est := wBemf_beta_est p;
     hBemf_alfa_est := hBemf_alfa_est p; hBemf_beta_est := hBemf_beta_est p;
     Speed_Buffer := Speed_Buffer p; Speed_Buffer_Index := Speed_Buffer_Index p;
     IsSpeedReliable := IsSpeedReliable p; ConsistencyCounter := ConsistencyCounter p;
     ReliabilityCounter := ReliabilityCounter p; IsAlgorithmConverged := IsAlgorithmConverged p;
     IsBemfConsistent := IsBemfConsistent p; Obs_Bemf_Level := Obs_Bemf_Level p; Est_Bemf_Level := v;
     EnableDualCheck := EnableDualCheck p; DppBufferSum := DppBufferSum p;
     SpeedBufferOldestEl := SpeedBufferOldestEl p; SpeedBufferSize01Hz := SpeedBufferSize01Hz p;
     SpeedBufferSizedpp := SpeedBufferSizedpp p; SpeedBufferSizedppLOG := SpeedBufferSizedppLOG p;
     VariancePercentage := VariancePercentage p; SpeedValidationBand_H := SpeedValidationBand_H p;
     SpeedValidationBand_L := SpeedValidationBand_L p; MinStartUpValidSpeed := MinStartUpValidSpeed p;
     StartUpConsistThreshold := StartUpConsistThreshold p;
     Reliability_hysteresys := Reliability_hysteresys p; BemfConsistencyCheck := BemfConsistencyCheck p;
     BemfConsistencyGain := BemfConsistencyGain p;
     MaxAppPositiveMecSpeed01Hz := MaxAppPositiveMecSpeed01Hz p; ForceConvergency := ForceConvergency p;
     ForceConvergency2 := ForceConvergency2 p |}.

Definition set_DppBufferSum (v : Z) (p : STO_Handle_t) : STO_Handle_t :=
  {| _Super := _Super p; hC1 := hC1 p; hC2 := hC2 p; hC3 := hC3 p; hC4 := hC4 p; hC5 := hC5 p;
     hC6 := hC6 p; hF1 := hF1 p; hF2 := hF2 p; hF3 := hF3 p; F3POW2 := F3POW2 p; F1LOG := F1LOG p;
     F2LOG := F2LOG p; PIRegulator := PIRegulator p; Ialfa_est := Ialfa_est p; Ibeta_est := Ibeta_est p;
     wBemf_alfa_est := wBemf_alfa_est p; wBemf_beta_est := wBemf_beta_est p;
     hBemf_alfa_est := hBemf_alfa_est p; hBemf_beta_est := hBemf_beta_est p;
     Speed_Buffer := Speed_Buffer p; Speed_Buffer_Index := Speed_Buffer_Index p;
     IsSpeedReliable := IsSpeedReliable p; ConsistencyCounter := ConsistencyCounter p;
     ReliabilityCounter := ReliabilityCounter p; IsAlgorithmConverged := IsAlgorithmConverged p;
     IsBemfConsistent := IsBemfConsistent p; Obs_Bemf_Level := Obs_Bemf_Level p;
     Est_Bemf_Level := Est_Bemf_Level p; EnableDualCheck := EnableDualCheck p; DppBufferSum := v;
     SpeedBufferOldestEl := SpeedBufferOldestEl p; SpeedBufferSize01Hz := SpeedBufferSize01Hz p;
     SpeedBufferSizedpp := SpeedBufferSizedpp p; SpeedBufferSizedppLOG := SpeedBufferSizedppLOG p;
     VariancePercentage := VariancePercentage p; SpeedValidationBand_H := SpeedValidationBand_H p;
     SpeedValidationBand_L := SpeedValidationBand_L p; MinStartUpValidSpeed := MinStartUpValidSpeed p;
     StartUpConsistThreshold := StartUpConsistThreshold p;
     Reliability_hysteresys := Reliability_hysteresys p; BemfConsistencyCheck := BemfConsistencyCheck p;
     BemfConsistencyGain := BemfConsistencyGain p;
     MaxAppPositiveMecSpeed01Hz := MaxAppPositiveMecSpeed01Hz p; ForceConvergency := ForceConvergency p;
     ForceConvergency2 := ForceConvergency2 p |}.

Definition set_SpeedBufferOldestEl (v : Z) (p : STO_Handle_t) : STO_Handle_t :=
  {| _Super := _Super p; hC1 := hC1 p; hC2 := hC2 p; hC3 := hC3 p; hC4 := hC4 p; hC5 := hC5 p;
     hC6 := hC6 p; hF1 := hF1 p; hF2 := hF2 p; hF3 := hF3 p; F3POW2 := F3POW2 p; F1LOG := F1LOG p;
     F2LOG := F2LOG p; PIRegulator := PIRegulator p; Ialfa_est := Ialfa_est p; Ibeta_est := Ibeta_est p;
     wBemf_alfa_est := wBemf_alfa_est p; wBemf_beta_est := wBemf_beta_est p;
     hBemf_alfa_est := hBemf_alfa_est p; hBemf_beta_est := hBemf_beta_est p;
     Speed_Buffer := Speed_Buffer p; Speed_Buffer_Index := Speed_Buffer_Index p;
     IsSpeedReliable := IsSpeedReliable p; ConsistencyCounter := ConsistencyCounter p;
     ReliabilityCounter := ReliabilityCounter p; IsAlgorithmConverged := IsAlgorithmConverged p;
     IsBemfConsistent := IsBemfConsistent p; Obs_Bemf_Level := Obs_Bemf_Level p;
     Est_Bemf_Level := Est_Bemf_Level p; EnableDualCheck := EnableDualCheck p;
     DppBufferSum := DppBufferSum p; SpeedBufferOldestEl := v;
     SpeedBufferSize01Hz := SpeedBufferSize01Hz p; SpeedBufferSizedpp := SpeedBufferSizedpp p;
     SpeedBufferSizedppLOG := SpeedBufferSizedppLOG p; VariancePercentage := VariancePercentage p;
     SpeedValidationBand_H := SpeedValidationBand_H p; SpeedValidationBand_L := SpeedValidationBand_L p;
     MinStartUpValidSpeed := MinStartUpValidSpeed p; StartUpConsistThreshold := StartUpConsistThreshold p;
     Reliability_hysteresys := Reliability_hysteresys p; BemfConsistencyCheck := BemfConsistencyCheck p;
     BemfConsistencyGain := BemfConsistencyGain p;
     MaxAppPositiveMecSpeed01Hz := MaxAppPositiveMecSpeed01Hz p; ForceConvergency := ForceConvergency p;
     ForceConvergency2 := ForceConvergency2 p |}.

Definition set_ForceConvergency (v : bool) (p : STO_Handle_t) : STO_Handle_t :=
  {| _Super := _Super p; hC1 := hC1 p; hC2 := hC2 p; hC3 := hC3 p; hC4 := hC4 p; hC5 := hC5 p;
     hC6 := hC6 p; hF1 := hF1 p; hF2 := hF2 p; hF3 := hF3 p; F3POW2 := F3POW2 p; F1LOG := F1LOG p;
     F2LOG := F2LOG p; PIRegulator := PIRegulator p; Ialfa_est := Ialfa_est p; Ibeta_est := Ibeta_est p;
     wBemf_alfa_est := wBemf_alfa_est p; wBemf_beta_est := wBemf_beta_est p;
     hBemf_alfa_est := hBemf_alfa_est p; hBemf_beta_est := hBemf_beta_est p;
     Speed_Buffer := Speed_Buffer p; Speed_Buffer_Index := Speed_Buffer_Index p;
     IsSpeedReliable := IsSpeedReliable p; ConsistencyCounter := ConsistencyCounter p;
     ReliabilityCounter := ReliabilityCounter p; IsAlgorithmConverged := IsAlgorithmConverged p;
     IsBemfConsistent := IsBemfConsistent p; Obs_Bemf_Level := Obs_Bemf_Level p;
     Est_Bemf_Level := Est_Bemf_Level p; EnableDualCheck := EnableDualCheck p;
     DppBufferSum := DppBufferSum p; SpeedBufferOldestEl := SpeedBufferOldestEl p;
     SpeedBufferSize01Hz := SpeedBufferSize01Hz p; SpeedBufferSizedpp := SpeedBufferSizedpp p;
     SpeedBufferSizedppLOG := SpeedBufferSizedppLOG p; VariancePercentage := VariancePercentage p;
     SpeedValidationBand_H := SpeedValidationBand_H p; SpeedValidationBand_L := SpeedValidationBand_L p;
     MinStartUpValidSpeed := MinStartUpValidSpeed p; StartUpConsistThreshold := StartUpConsistThreshold p;
     Reliability_hysteresys := Reliability_hysteresys p; BemfConsistencyCheck := BemfConsistencyCheck p;
     BemfConsistencyGain := BemfConsistencyGain p;
     MaxAppPositiveMecSpeed01Hz := MaxAppPositiveMecSpeed01Hz p; ForceConvergency := v;
     ForceConvergency2 := ForceConvergency2 p |}.

Definition set_ForceConvergency2 (v : bool) (p : STO_Handle_t) : STO_Handle_t :=
  {| _Super := _Super p; hC1 := hC1 p; hC2 := hC2 p; hC3 := hC3 p; hC4 := hC4 p; hC5 := hC5 p;
     hC6 := hC6 p; hF1 := hF1 p; hF2 := hF2 p; hF3 := hF3 p; F3POW2 := F3POW2 p; F1LOG := F1LOG p;
     F2LOG := F2LOG p; PIRegulator := PIRegulator p; Ialfa_est := Ialfa_est p; Ibeta_est := Ibeta_est p;
     wBemf_alfa_est := wBemf_alfa_est p; wBemf_beta_est := wBemf_beta_est p;
     hBemf_alfa_est := hBemf_alfa_est p; hBemf_beta_est := hBemf_beta_est p;
     Speed_Buffer := Speed_Buffer p; Speed_Buffer_Index := Speed_Buffer_Index p;
     IsSpeedReliable := IsSpeedReliable p; ConsistencyCounter := ConsistencyCounter p;
     ReliabilityCounter := ReliabilityCounter p; IsAlgorithmConverged := IsAlgorithmConverged p;
     IsBemfConsistent := IsBemfConsistent p; Obs_Bemf_Level := Obs_Bemf_Level p;
     Est_Bemf_Level := Est_Bemf_Level p; EnableDualCheck := EnableDualCheck p;
     DppBufferSum := DppBufferSum p; SpeedBufferOldestEl := SpeedBufferOldestEl p;
     SpeedBufferSize01Hz := SpeedBufferSize01Hz p; SpeedBufferSizedpp := SpeedBufferSizedpp p;
     SpeedBufferSizedppLOG := SpeedBufferSizedppLOG p; VariancePercentage := VariancePercentage p;
     SpeedValidationBand_H := SpeedValidationBand_H p; SpeedValidationBand_L := SpeedValidationBand_L p;
     MinStartUpValidSpeed := MinStartUpValidSpeed p; StartUpConsistThreshold := StartUpConsistThreshold p;
     Reliability_hysteresys := Reliability_hysteresys p; BemfConsistencyCheck := BemfConsistencyCheck p;
     BemfConsistencyGain := BemfConsistencyGain p;
     MaxAppPositiveMecSpeed01Hz := MaxAppPositiveMecSpeed01Hz p; ForceConvergency := ForceConvergency p;
     ForceConvergency2 := v |}.

(** ** Arrays

    [Speed_Buffer] is a C array.  An index outside the array is undefined
    behaviour in C; the embedding reads 0 and writes nothing there, and
    every statement about the buffer assumes the indices in range. *)

Definition buf_get (b : list Z) (i : Z) : Z := nth (Z.to_nat i) b 0.

Fixpoint list_set (b : list Z) (n : nat) (v : Z) : list Z :=
  match b, n with
  | [], _ => []
  | _ :: t, O => v :: t
  | h :: t, S n' => h :: list_set t n' v
  end.

Definition buf_set (b : list Z) (i : Z) (v : Z) : list Z := list_set b (Z.to_nat i) v.

(** [for (i = 0u; i < n; i++) acc = body(acc, i);] *)
Definition for_upto {A : Type} (n : Z) (body : A -> Z -> A) (acc : A) : A :=
  fold_left (fun a i => body a (Z.of_nat i)) (seq 0 (Z.to_nat n)) acc.

(** ** sto_speed_pos_fdbk.c *)

(** static STO_Store_Rotor_Speed *)
Definition STO_Store_Rotor_Speed (pHandle : STO_Handle_t) (hRotor_Speed : Z) : STO_Handle_t :=
  let bBuffer_index := Speed_Buffer_Index pHandle in
  let bBuffer_index := wrap_u8 (bBuffer_index + 1) in
  let bBuffer_index :=
    if bBuffer_index =? SpeedBufferSize01Hz pHandle then 0 else bBuffer_index in
  let pHandle :=
    set_SpeedBufferOldestEl (buf_get (Speed_Buffer pHandle) bBuffer_index) pHandle in
  let pHandle :=
    set_Speed_Buffer (buf_set (Speed_Buffer pHandle) bBuffer_index hRotor_Speed) pHandle in
  set_Speed_Buffer_Index bBuffer_index pHandle.

(** The argument [(int32_t)(hAux1) - hAux2] that STO_ExecutePLL passes to
    PI_Controller. *)
Definition STO_PLL_error (misra : bool) (pHandle : STO_Handle_t)
    (hBemf_alfa_est' hBemf_beta_est' : Z) : Z :=
  let Local_Components := MCM_Trig_Functions (hElAngle (_Super pHandle)) in
  let wAlfa_Sin_tmp := hBemf_alfa_est' * hSin Local_Components in
  let wBeta_Cos_tmp := hBemf_beta_est' * hCos Local_Components in
  let hAux1 :=
    wrap16 (if misra then Z.quot wBeta_Cos_tmp 32768 else Z.shiftr wBeta_Cos_tmp 15) in
  let hAux2 :=
    wrap16 (if misra then Z.quot wAlfa_Sin_tmp 32768 else Z.shiftr wAlfa_Sin_tmp 15) in
  hAux1 - hAux2.

(** static STO_ExecutePLL *)
Definition STO_ExecutePLL (misra : bool) (pHandle : STO_Handle_t)
    (hBemf_alfa_est' hBemf_beta_est' : Z) : STO_Handle_t * Z :=
  let r := PI_Controller (PIRegulator pHandle)
             (STO_PLL_error misra pHandle hBemf_alfa_est' hBemf_beta_est') in
  let hOutput := snd r in
  (set_PIRegulator (fst r) pHandle, hOutput).

(** STO_CalcElAngle: the new handle and the returned electrical angle. *)
Definition STO_CalcElAngle (misra : bool) (pHandle : STO_Handle_t)
    (pInputs : Observer_Inputs_t) : STO_Handle_t * Z :=
  let pHandle :=
    set_wBemf_alfa_est
      (if wBemf_alfa_est pHandle >? hF2 pHandle * INT16_MAX
       then INT16_MAX * hF2 pHandle
       else if wBemf_alfa_est pHandle <=? - INT16_MAX * hF2 pHandle
       then - INT16_MAX * hF2 pHandle
       else wBemf_alfa_est pHandle) pHandle in
  let hAux_Alfa :=
    wrap16 (if misra then Z.quot (wBemf_alfa_est pHandle) (hF2 pHandle)
            else Z.shiftr (wBemf_alfa_est pHandle) (F2LOG pHandle)) in
  let pHandle :=
    set_wBemf_beta_est
      (if wBemf_beta_est pHandle >? INT16_MAX * hF2 pHandle
       then INT16_MAX * hF2 pHandle
       else if wBemf_beta_est pHandle <=? - INT16_MAX * hF2 pHandle
       then - INT16_MAX * hF2 pHandle
       else wBemf_beta_est pHandle) pHandle in
  let hAux_Beta :=
    wrap16 (if misra then Z.quot (wBemf_beta_est pHandle) (hF2 pHandle)
            else Z.shiftr (wBemf_beta_est pHandle) (F2LOG pHandle)) in
  let pHandle :=
    set_Ialfa_est
      (if Ialfa_est pHandle >? INT16_MAX * hF1 pHandle
       then INT16_MAX * hF1 pHandle
       else if Ialfa_est pHandle <=? - INT16_MAX * hF1 pHandle
       then - INT16_MAX * hF1 pHandle
       else Ialfa_est pHandle) pHandle in
  let pHandle :=
    set_Ibeta_est
      (if Ibeta_est pHandle >? INT16_MAX * hF1 pHandle
       then INT16_MAX * hF1 pHandle
       else if Ibeta_est pHandle <=? - INT16_MAX * hF1 pHandle
       then - INT16_MAX * hF1 pHandle
       else Ibeta_est pHandle) pHandle in
  let hIalfa_err :=
    wrap16 (if misra then Z.quot (Ialfa_est pHandle) (hF1 pHandle)
            else Z.shiftr (Ialfa_est pHandle) (F1LOG pHandle)) in
  let hIalfa_err := wrap16 (hIalfa_err - qI_Component1 (Ialfa_beta pInputs)) in
  let hIbeta_err :=
    wrap16 (if misra then Z.quot (Ibeta_est pHandle) (hF1 pHandle)
            else Z.shiftr (Ibeta_est pHandle) (F1LOG pHandle)) in
  let hIbeta_err := wrap16 (hIbeta_err - qI_Component2 (Ialfa_beta pInputs)) in
  let wAux := Vbus pInputs * qV_Component1 (Valfa_beta pInputs) in
  let hValfa := wrap16 (if misra then Z.quot wAux 65536 else Z.shiftr wAux 16) in
  let wAux := Vbus pInputs * qV_Component2 (Valfa_beta pInputs) in
  let hVbeta := wrap16 (if misra then Z.quot wAux 65536 else Z.shiftr wAux 16) in
  (* alfa axes observer *)
  let hAux :=
    wrap16 (if misra then Z.quot (Ialfa_est pHandle) (hF1 pHandle)
            else Z.shiftr (Ialfa_est pHandle) (F1LOG pHandle)) in
  let wAux := hC1 pHandle * hAux in
  let wIalfa_est_Next := wrap32 (Ialfa_est pHandle - wAux) in
  let wAux := hC2 pHandle * hIalfa_err in
  let wIalfa_est_Next := wrap32 (wIalfa_est_Next + wAux) in
  let wAux := hC5 pHandle * hValfa in
  let wIalfa_est_Next := wrap32 (wIalfa_est_Next + wAux) in
  let wAux := hC3 pHandle * hAux_Alfa in
  let wIalfa_est_Next := wrap32 (wIalfa_est_Next - wAux) in
  let wAux := hC4 pHandle * hIalfa_err in
  let wBemf_alfa_est_Next := wrap32 (wBemf_alfa_est pHandle + wAux) in
  let wAux :=
    if misra then Z.quot hAux_Beta (hF3 pHandle) else Z.shiftr hAux_Beta (F3POW2 pHandle) in
  let wAux := wrap32 (wAux * hC6 pHandle) in
  let wAux := wrap32 (hElSpeedDpp (_Super pHandle) * wAux) in
  let wBemf_alfa_est_Next := wrap32 (wBemf_alfa_est_Next + wAux) in
  (* beta axes observer *)
  let hAux :=
    wrap16 (if misra then Z.quot (Ibeta_est pHandle) (hF1 pHandle)
            else Z.shiftr (Ibeta_est pHandle) (F1LOG pHandle)) in
  let wAux := hC1 pHandle * hAux in
  let wIbeta_est_Next := wrap32 (Ibeta_est pHandle - wAux) in
  let wAux := hC2 pHandle * hIbeta_err in
  let wIbeta_est_Next := wrap32 (wIbeta_est_Next + wAux) in
  let wAux := hC5 pHandle * hVbeta in
  let wIbeta_est_Next := wrap32 (wIbeta_est_Next + wAux) in
  let wAux := hC3 pHandle * hAux_Beta in
  let wIbeta_est_Next := wrap32 (wIbeta_est_Next - wAux) in
  let wAux := hC4 pHandle * hIbeta_err in
  let wBemf_beta_est_Next := wrap32 (wBemf_beta_est pHandle + wAux) in
  let wAux :=
    if misra then Z.quot hAux_Alfa (hF3 pHandle) else Z.shiftr hAux_Alfa (F3POW2 pHandle) in
  let wAux := wrap32 (wAux * hC6 pHandle) in
  let wAux := wrap32 (hElSpeedDpp (_Super pHandle) * wAux) in
  let wBemf_beta_est_Next := wrap32 (wBemf_beta_est_Next - wAux) in
  let wDirection := if hElSpeedDpp (_Super pHandle) >=? 0 then 1 else -1 in
  (* Calls the PLL blockset *)
  let pHandle := set_hBemf_alfa_est hAux_Alfa pHandle in
  let pHandle := set_hBemf_beta_est hAux_Beta pHandle in
  let hAux_Alfa := wrap16 (hAux_Alfa * wDirection) in
  let hAux_Beta := wrap16 (hAux_Beta * wDirection) in
  let r := STO_ExecutePLL misra pHandle hAux_Alfa (wrap16 (- hAux_Beta)) in
  let pHandle := fst r in
  let hRotor_Speed := snd r in
  let pHandle := STO_Store_Rotor_Speed pHandle hRotor_Speed in
  let pHandle :=
    set__Super (set_hElAngle (wrap16 (hElAngle (_Super pHandle) + hRotor_Speed))
                  (_Super pHandle)) pHandle in
  (* storing previous values of currents and bemfs *)
  let pHandle := set_Ialfa_est wIalfa_est_Next pHandle in
  let pHandle := set_wBemf_alfa_est wBemf_alfa_est_Next pHandle in
  let pHandle := set_Ibeta_est wIbeta_est_Next pHandle in
  let pHandle := set_wBemf_beta_est wBemf_beta_est_Next pHandle in
  (pHandle, hElAngle (_Super pHandle)).

(** STO_CalcAvrgMecSpeed01Hz: the new handle, the speed written through
    [pMecSpeed01Hz] and the returned reliability verdict. *)
Definition STO_CalcAvrgMecSpeed01Hz (pHandle : STO_Handle_t) : STO_Handle_t * Z * bool :=
  let bSpeedBufferSize01Hz := SpeedBufferSize01Hz pHandle in
  let wAvrSpeed_dpp :=
    for_upto bSpeedBufferSize01Hz
      (fun wAvrSpeed_dpp i => wrap32 (wAvrSpeed_dpp + buf_get (Speed_Buffer pHandle) i)) 0 in
  let wAvrSpeed_dpp := Z.quot wAvrSpeed_dpp bSpeedBufferSize01Hz in
  let wAvrQuadraticError :=
    for_upto bSpeedBufferSize01Hz
      (fun wAvrQuadraticError i =>
         let wError := wrap32 (buf_get (Speed_Buffer pHandle) i - wAvrSpeed_dpp) in
         let wError := wrap32 (wError * wError) in
         wrap32 (wAvrQuadraticError + wError)) 0 in
  (* It computes the measurement variance *)
  let wAvrQuadraticError := Z.quot wAvrQuadraticError bSpeedBufferSize01Hz in
  let wAvrSquareSpeed := wrap32 (wAvrSpeed_dpp * wAvrSpeed_dpp) in
  let wAvrSquareSpeed :=
    wrap32 (Z.quot wAvrSquareSpeed 128 * VariancePercentage pHandle) in
  let bIs_Speed_Reliable := wAvrQuadraticError <? wAvrSquareSpeed in
  (* Computation of Mechanical speed 01Hz *)
  let wAux := wrap32 (wAvrSpeed_dpp * hMeasurementFrequency (_Super pHandle)) in
  let wAux := wrap32 (wAux * 10) in
  let wAux := Z.quot wAux 65536 in
  let wAux := Z.quot wAux (bElToMecRatio (_Super pHandle)) in
  let pMecSpeed01Hz := wrap16 wAux in
  let pHandle := set__Super (set_hAvrMecSpeed01Hz (wrap16 wAux) (_Super pHandle)) pHandle in
  let pHandle := set_IsSpeedReliable bIs_Speed_Reliable pHandle in
  (* Bemf Consistency Check algorithm *)
  let '(pHandle, bIs_Bemf_Consistent) :=
    if EnableDualCheck pHandle then
      let wAux := if wAux <? 0 then wrap32 (- wAux) else wAux in
      let '(wObsBemfSq, wEstBemfSq, bIs_Bemf_Consistent) :=
        if wAux <? MaxAppPositiveMecSpeed01Hz pHandle then
          (* Computation of Observed back-emf *)
          let wObsBemf := hBemf_alfa_est pHandle in
          let wObsBemfSq := wrap32 (wObsBemf * wObsBemf) in
          let wObsBemf := hBemf_beta_est pHandle in
          let wObsBemfSq := wrap32 (wObsBemfSq + wObsBemf * wObsBemf) in
          (* Computation of Estimated back-emf *)
          let wEstBemf :=
            Z.quot (wrap32 (wAux * 32767))
              (wrap16 (hMaxReliableMecSpeed01Hz (_Super pHandle))) in
          let wEstBemfSq :=
            Z.quot (wrap32 (wEstBemf * BemfConsistencyGain pHandle)) 64 in
          let wEstBemfSq := wrap32 (wEstBemfSq * wEstBemf) in
          (* Computation of threshold *)
          let wEstBemfSqLo :=
            wrap32 (wEstBemfSq - Z.quot wEstBemfSq 64 * BemfConsistencyCheck pHandle) in
          (* Check *)
          (wObsBemfSq, wEstBemfSq, wObsBemfSq >? wEstBemfSqLo)
        else (0, 0, false) in
      let pHandle := set_IsBemfConsistent bIs_Bemf_Consistent pHandle in
      let pHandle := set_Obs_Bemf_Level wObsBemfSq pHandle in
      let pHandle := set_Est_Bemf_Level wEstBemfSq pHandle in
      (pHandle, bIs_Bemf_Consistent)
    else (pHandle, true) in
  (* Decision making *)
  if negb (IsAlgorithmConverged pHandle) then
    let r := SPD_IsMecSpeedReliable (_Super pHandle) pMecSpeed01Hz in
    (set__Super (fst r) pHandle, pMecSpeed01Hz, snd r)
  else if negb (IsSpeedReliable pHandle) || negb bIs_Bemf_Consistent then
    let pHandle := set_ReliabilityCounter (wrap_u8 (ReliabilityCounter pHandle + 1)) pHandle in
    if ReliabilityCounter pHandle >=? Reliability_hysteresys pHandle then
      let pHandle := set_ReliabilityCounter 0 pHandle in
      let pHandle :=
        set__Super (set_bSpeedErrorNumber (bMaximumSpeedErrorsNumber (_Super pHandle))
                      (_Super pHandle)) pHandle in
      (pHandle, pMecSpeed01Hz, false)
    else
      let r := SPD_IsMecSpeedReliable (_Super pHandle) pMecSpeed01Hz in
      (set__Super (fst r) pHandle, pMecSpeed01Hz, snd r)
  else
    let pHandle := set_ReliabilityCounter 0 pHandle in
    let r := SPD_IsMecSpeedReliable (_Super pHandle) pMecSpeed01Hz in
    (set__Super (fst r) pHandle, pMecSpeed01Hz, snd r).

(** STO_CalcAvrgElSpeedDpp *)
Definition STO_CalcAvrgElSpeedDpp (misra : bool) (pHandle : STO_Handle_t) : STO_Handle_t :=
  let hIndexNew := wrap16 (Speed_Buffer_Index pHandle) in
  let wSum := DppBufferSum pHandle in
  let hSpeedBufferSizedpp := wrap16 (SpeedBufferSizedpp pHandle) in
  let hSpeedBufferSize01Hz := wrap16 (SpeedBufferSize01Hz pHandle) in
  let hBufferSizeDiff := wrap16 (hSpeedBufferSize01Hz - hSpeedBufferSizedpp) in
  let wSum :=
    if hBufferSizeDiff =? 0 then
      wrap32 (wSum + buf_get (Speed_Buffer pHandle) hIndexNew - SpeedBufferOldestEl pHandle)
    else
      let hIndexOldTemp := wrap16 (hIndexNew + hBufferSizeDiff) in
      let hIndexOld :=
        if hIndexOldTemp >=? hSpeedBufferSize01Hz
        then wrap16 (hIndexOldTemp - hSpeedBufferSize01Hz)
        else hIndexOldTemp in
      wrap32 (wSum + buf_get (Speed_Buffer pHandle) hIndexNew
                   - buf_get (Speed_Buffer pHandle) hIndexOld) in
  let wAvrSpeed_dpp :=
    if misra then Z.quot wSum hSpeedBufferSizedpp
    else Z.shiftr wSum (SpeedBufferSizedppLOG pHandle) in
  let pHandle :=
    set__Super (set_hElSpeedDpp (wrap16 wAvrSpeed_dpp) (_Super pHandle)) pHandle in
  set_DppBufferSum wSum pHandle.

(** static STO_InitSpeedBuffer *)
Definition STO_InitSpeedBuffer (pHandle : STO_Handle_t) : STO_Handle_t :=
  let bSpeedBufferSize01Hz := SpeedBufferSize01Hz pHandle in
  let pHandle :=
    for_upto bSpeedBufferSize01Hz
      (fun pHandle b_i => set_Speed_Buffer (buf_set (Speed_Buffer pHandle) b_i 0) pHandle)
      pHandle in
  let pHandle := set_Speed_Buffer_Index 0 pHandle in
  set_SpeedBufferOldestEl 0 pHandle.

(** STO_Clear *)
Definition STO_Clear (pHandle : STO_Handle_t) : STO_Handle_t :=
  let pHandle := set_Ialfa_est 0 pHandle in
  let pHandle := set_Ibeta_est 0 pHandle in
  let pHandle := set_wBemf_alfa_est 0 pHandle in
  let pHandle := set_wBemf_beta_est 0 pHandle in
  let pHandle := set__Super (set_hElAngle 0 (_Super pHandle)) pHandle in
  let pHandle := set__Super (set_hElSpeedDpp 0 (_Super pHandle)) pHandle in
  let pHandle := set_ConsistencyCounter 0 pHandle in
  let pHandle := set_ReliabilityCounter 0 pHandle in
  let pHandle := set_IsAlgorithmConverged false pHandle in
  let pHandle := set_IsBemfConsistent false pHandle in
  let pHandle := set_Obs_Bemf_Level 0 pHandle in
  let pHandle := set_Est_Bemf_Level 0 pHandle in
  let pHandle := set_DppBufferSum 0 pHandle in
  let pHandle := set_ForceConvergency false pHandle in
  let pHandle := set_ForceConvergency2 false pHandle in
  let pHandle := STO_InitSpeedBuffer pHandle in
  set_PIRegulator (PID_SetIntegralTerm (PIRegulator pHandle) 0) pHandle.

(** STO_IsObserverConverged: the new handle and the returned verdict. *)
Definition STO_IsObserverConverged (pHandle : STO_Handle_t) (hForcedMecSpeed01Hz : Z)
    : STO_Handle_t * bool :=
  let hForcedMecSpeed01Hz :=
    if ForceConvergency2 pHandle then hAvrMecSpeed01Hz (_Super pHandle)
    else hForcedMecSpeed01Hz in
  if ForceConvergency pHandle then
    let pHandle := set_IsAlgorithmConverged true pHandle in
    let pHandle := set__Super (set_bSpeedErrorNumber 0 (_Super pHandle)) pHandle in
    (pHandle, true)
  else
    let hEstimatedSpeed01Hz := hAvrMecSpeed01Hz (_Super pHandle) in
    let wtemp := hEstimatedSpeed01Hz * hForcedMecSpeed01Hz in
    if wtemp >? 0 then
      let hEstimatedSpeed01Hz :=
        if hEstimatedSpeed01Hz <? 0 then wrap16 (- hEstimatedSpeed01Hz)
        else hEstimatedSpeed01Hz in
      let hForcedMecSpeed01Hz :=
        if hForcedMecSpeed01Hz <? 0 then wrap16 (- hForcedMecSpeed01Hz)
        else hForcedMecSpeed01Hz in
      let wAux := hForcedMecSpeed01Hz * wrap16 (SpeedValidationBand_H pHandle) in
      let hUpperThreshold := wrap16 (Z.quot wAux 16) in
      let wAux := hForcedMecSpeed01Hz * wrap16 (SpeedValidationBand_L pHandle) in
      let hLowerThreshold := wrap16 (Z.quot wAux 16) in
      (* If the variance of the estimated speed is low enough... *)
      if IsSpeedReliable pHandle then
        if wrap_u16 hEstimatedSpeed01Hz >? MinStartUpValidSpeed pHandle then
          (* ...and the estimated value is quite close to the expected value... *)
          if hEstimatedSpeed01Hz >=? hLowerThreshold then
            if hEstimatedSpeed01Hz <=? hUpperThreshold then
              let pHandle :=
                set_ConsistencyCounter (wrap_u8 (ConsistencyCounter pHandle + 1)) pHandle in
              (* ... for hConsistencyThreshold consecutive times... *)
              if ConsistencyCounter pHandle >=? StartUpConsistThreshold pHandle then
                (* the algorithm converged. *)
                let pHandle := set_IsAlgorithmConverged true pHandle in
                let pHandle :=
                  set__Super (set_bSpeedErrorNumber 0 (_Super pHandle)) pHandle in
                (pHandle, true)
              else (pHandle, false)
            else (set_ConsistencyCounter 0 pHandle, false)
          else (set_ConsistencyCounter 0 pHandle, false)
        else (set_ConsistencyCounter 0 pHandle, false)
      else (set_ConsistencyCounter 0 pHandle, false)
    else (pHandle, false).

(** STO_GetObserverGains: the values written through [phC2] and [phC4]. *)
Definition STO_GetObserverGains (pHandle : STO_Handle_t) : Z * Z :=
  (hC2 pHandle, hC4 pHandle).

(** STO_SetObserverGains *)
Definition STO_SetObserverGains (pHandle : STO_Handle_t) (hhC1 hhC2 : Z) : STO_Handle_t :=
  let pHandle := set_hC2 hhC1 pHandle in
  set_hC4 hhC2 pHandle.

(** The four conditions of the detector, as STO_IsObserverConverged
    evaluates them on 16-bit values. *)
Definition same_direction (pHandle : STO_Handle_t) (hForced : Z) : bool :=
  hAvrMecSpeed01Hz (_Super pHandle) * hForced >? 0.

Definition abs16 (h : Z) : Z := if h <? 0 then wrap16 (- h) else h.

Definition speed_validated (pHandle : STO_Handle_t) (hForced : Z) : bool :=
  let hEst := abs16 (hAvrMecSpeed01Hz (_Super pHandle)) in
  let hFrc := abs16 hForced in
  IsSpeedReliable pHandle
  && (wrap_u16 hEst >? MinStartUpValidSpeed pHandle)
  && (hEst >=? wrap16 (Z.quot (hFrc * wrap16 (SpeedValidationBand_L pHandle)) 16))
  && (hEst <=? wrap16 (Z.quot (hFrc * wrap16 (SpeedValidationBand_H pHandle)) 16)).

(** *** Quantities named by the properties below *)

(** The pre-step clamp of one stored estimate against its scaling factor. *)
Definition clamp_estimate (w F : Z) : Z :=
  if w >? INT16_MAX * F then INT16_MAX * F
  else if w <=? - INT16_MAX * F then - INT16_MAX * F
  else w.

(** The handle once STO_CalcElAngle has clamped its four stored estimates. *)
Definition STO_clamp_estimates (pHandle : STO_Handle_t) : STO_Handle_t :=
  let pHandle :=
    set_wBemf_alfa_est (clamp_estimate (wBemf_alfa_est pHandle) (hF2 pHandle)) pHandle in
  let pHandle :=
    set_wBemf_beta_est (clamp_estimate (wBemf_beta_est pHandle) (hF2 pHandle)) pHandle in
  let pHandle :=
    set_Ialfa_est (clamp_estimate (Ialfa_est pHandle) (hF1 pHandle)) pHandle in
  set_Ibeta_est (clamp_estimate (Ibeta_est pHandle) (hF1 pHandle)) pHandle.

Definition within_clamp (w F : Z) : Prop := - INT16_MAX * F <= w <= INT16_MAX * F.

(** The direction [wDirection] that STO_CalcElAngle derives from the dpp speed. *)
Definition STO_direction (pHandle : STO_Handle_t) : Z :=
  if hElSpeedDpp (_Super pHandle) >=? 0 then 1 else -1.

(** The PLL detector error as the design document writes it,
    [(e_beta' * cos - e_alfa' * sin) / 32768] with [e' = e * dir]. *)
Definition err_pll_spec (e_alfa e_beta dir : Z) (theta : Trig_Components) : Z :=
  let e_alfa' := e_alfa * dir in
  let e_beta' := e_beta * dir in
  Z.quot (e_beta' * hCos theta - e_alfa' * hSin theta) 32768.

(** The PLL detector error as STO_CalcElAngle and STO_ExecutePLL compute it:
    the beta estimate enters negated, and each product is scaled and cut to
    16 bits on its own before the subtraction. *)
Definition err_pll_code (misra : bool) (e_alfa e_beta dir : Z) (theta : Trig_Components)
    : Z :=
  let e_alfa' := wrap16 (e_alfa * dir) in
  let e_beta' := wrap16 (e_beta * dir) in
  let scale := fun w => if misra then Z.quot w 32768 else Z.shiftr w 15 in
  wrap16 (scale (wrap16 (- e_beta') * hCos theta)) - wrap16 (scale (e_alfa' * hSin theta)).

(** *** The speed buffer seen as a history of samples *)

Definition samples_sum (l : list Z) : Z := fold_right Z.add 0 l.

(** The newest entry of the speed buffer. *)
Definition STO_newest_sample (pHandle : STO_Handle_t) : Z :=
  buf_get (Speed_Buffer pHandle) (Speed_Buffer_Index pHandle).

(** One observer step followed by one averaging call.  The second component
    records the samples stored so far, newest first. *)
Definition STO_tick (misra : bool) (st : STO_Handle_t * list Z)
    (pInputs : Observer_Inputs_t) : STO_Handle_t * list Z :=
  let pHandle := fst (STO_CalcElAngle misra (fst st) pInputs) in
  (STO_CalcAvrgElSpeedDpp misra pHandle, STO_newest_sample pHandle :: snd st).

Definition STO_run (misra : bool) (inputs : list Observer_Inputs_t)
    (st : STO_Handle_t * list Z) : STO_Handle_t * list Z :=
  fold_left (STO_tick misra) inputs st.

(** The buffer holds the history [h] (newest first, zeros before the first
    sample): walking back from the newest index, modulo the size in use, one
    meets the samples in the order they were stored. *)
Definition buffer_holds (pHandle : STO_Handle_t) (h : list Z) : Prop :=
  let n01 := SpeedBufferSize01Hz pHandle in
  1 <= SpeedBufferSizedpp pHandle <= n01 /\
  n01 <= 255 /\
  n01 <= Z.of_nat (length (Speed_Buffer pHandle)) /\
  0 <= Speed_Buffer_Index pHandle < n01 /\
  Forall in_s16 h /\
  forall j, 0 <= j < n01 ->
    buf_get (Speed_Buffer pHandle) ((Speed_Buffer_Index pHandle - j) mod n01)
    = nth (Z.to_nat j) h 0.

(** The rolling sum is the sum of the [SpeedBufferSizedpp] newest samples. *)
Definition sum_holds (pHandle : STO_Handle_t) (h : list Z) : Prop :=
  DppBufferSum pHandle = samples_sum (firstn (Z.to_nat (SpeedBufferSizedpp pHandle)) h).

(** What holds between two ticks: the buffer holds the history, the rolling
    sum is that of its newest samples, and the averaging depth and its
    logarithm are still [d] and [lg]. *)
Definition fifo_inv (d lg : Z) (st : STO_Handle_t * list Z) : Prop :=
  buffer_holds (fst st) (snd st) /\ sum_holds (fst st) (snd st) /\
  SpeedBufferSizedpp (fst st) = d /\ SpeedBufferSizedppLOG (fst st) = lg.

(** The published dpp speed is the rolling sum divided by the depth. *)
Definition published (misra : bool) (d : Z) (st : STO_Handle_t * list Z) : Prop :=
  hElSpeedDpp (_Super (fst st)) =
    let S := samples_sum (firstn (Z.to_nat d) (snd st)) in
    if misra then Z.quot S d else S / d.

(** *** Operands of the dual-path operations *)

(** An operand on which the division by 2^k and the shift by k agree: it is
    non-negative, or a multiple of 2^k. *)
Definition shift_exact (x k : Z) : Prop := 0 <= x \/ (2 ^ k | x).

(** The scaling factors are the powers of two that their logarithms name. *)
Definition STO_pow2_scaling (pHandle : STO_Handle_t) : Prop :=
  (0 <= F1LOG pHandle /\ hF1 pHandle = 2 ^ F1LOG pHandle) /\
  (0 <= F2LOG pHandle /\ hF2 pHandle = 2 ^ F2LOG pHandle) /\
  (0 <= F3POW2 pHandle /\ hF3 pHandle = 2 ^ F3POW2 pHandle).

(** Every operand of a dual-path operation of STO_CalcElAngle and
    STO_ExecutePLL is exact for its shift: the four clamped estimates, the
    two voltage products, the two 16-bit back-EMF estimates scaled by F3, and
    the two products of the PLL detector. *)
Definition STO_CalcElAngle_exact (pHandle : STO_Handle_t) (pInputs : Observer_Inputs_t)
    : Prop :=
  let c := STO_clamp_estimates pHandle in
  let hAux_Alfa := wrap16 (Z.shiftr (wBemf_alfa_est c) (F2LOG c)) in
  let hAux_Beta := wrap16 (Z.shiftr (wBemf_beta_est c) (F2LOG c)) in
  let Local_Components := MCM_Trig_Functions (hElAngle (_Super c)) in
  let wDirection := STO_direction c in
  shift_exact (wBemf_alfa_est c) (F2LOG c) /\
  shift_exact (wBemf_beta_est c) (F2LOG c) /\
  shift_exact (Ialfa_est c) (F1LOG c) /\
  shift_exact (Ibeta_est c) (F1LOG c) /\
  shift_exact (Vbus pInputs * qV_Component1 (Valfa_beta pInputs)) 16 /\
  shift_exact (Vbus pInputs * qV_Component2 (Valfa_beta pInputs)) 16 /\
  shift_exact hAux_Beta (F3POW2 c) /\
  shift_exact hAux_Alfa (F3POW2 c) /\
  shift_exact (wrap16 (- wrap16 (hAux_Beta * wDirection)) * hCos Local_Components) 15 /\
  shift_exact (wrap16 (hAux_Alfa * wDirection) * hSin Local_Components) 15.

(** The averaging depth is a power of two that fits its 8-bit field, and the
    new rolling sum is exact for the shift. *)
Definition STO_CalcAvrgElSpeedDpp_exact (pHandle : STO_Handle_t) : Prop :=
  0 <= SpeedBufferSizedppLOG pHandle /\
  SpeedBufferSizedpp pHandle = 2 ^ SpeedBufferSizedppLOG pHandle /\
  SpeedBufferSizedpp pHandle <= 255 /\
  shift_exact (DppBufferSum (STO_CalcAvrgElSpeedDpp false pHandle))
    (SpeedBufferSizedppLOG pHandle).

(** *** Initialisation and services *)

Definition set_hC6 (v : Z) (p : STO_Handle_t) : STO_Handle_t :=
  {| _Super := _Super p; hC1 := hC1 p; hC2 := hC2 p; hC3 := hC3 p; hC4 := hC4 p; hC5 := hC5 p; hC6 := v;
     hF1 := hF1 p; hF2 := hF2 p; hF3 := hF3 p; F3POW2 := F3POW2 p; F1LOG := F1LOG p; F2LOG := F2LOG p;
     PIRegulator := PIRegulator p; Ialfa_est := Ialfa_est p; Ibeta_est := Ibeta_est p;
     wBemf_alfa_est := wBemf_alfa_est p; wBemf_beta_est := wBemf_beta_est p;
     hBemf_alfa_est := hBemf_alfa_est p; hBemf_beta_est := hBemf_beta_est p;
     Speed_Buffer := Speed_Buffer p; Speed_Buffer_Index := Speed_Buffer_Index p;
     IsSpeedReliable := IsSpeedReliable p; ConsistencyCounter := ConsistencyCounter p;
     ReliabilityCounter := ReliabilityCounter p; IsAlgorithmConverged := IsAlgorithmConverged p;
     IsBemfConsistent := IsBemfConsistent p; Obs_Bemf_Level := Obs_Bemf_Level p;
     Est_Bemf_Level := Est_Bemf_Level p; EnableDualCheck := EnableDualCheck p;
     DppBufferSum := DppBufferSum p; SpeedBufferOldestEl := SpeedBufferOldestEl p;
     SpeedBufferSize01Hz := SpeedBufferSize01Hz p; SpeedBufferSizedpp := SpeedBufferSizedpp p;
     SpeedBufferSizedppLOG := SpeedBufferSizedppLOG p; VariancePercentage := VariancePercentage p;
     SpeedValidationBand_H := SpeedValidationBand_H p; SpeedValidationBand_L := SpeedValidationBand_L p;
     MinStartUpValidSpeed := MinStartUpValidSpeed p; StartUpConsistThreshold := StartUpConsistThreshold p;
     Reliability_hysteresys := Reliability_hysteresys p; BemfConsistencyCheck := BemfConsistencyCheck p;
     BemfConsistencyGain := BemfConsistencyGain p;
     MaxAppPositiveMecSpeed01Hz := MaxAppPositiveMecSpeed01Hz p; ForceConvergency := ForceConvergency p;
     ForceConvergency2 := ForceConvergency2 p |}.

Definition set_hF3 (v : Z) (p : STO_Handle_t) : STO_Handle_t :=
  {| _Super := _Super p; hC1 := hC1 p; hC2 := hC2 p; hC3 := hC3 p; hC4 := hC4 p; hC5 := hC5 p;
     hC6 := hC6 p; hF1 := hF1 p; hF2 := hF2 p; hF3 := v; F3POW2 := F3POW2 p; F1LOG := F1LOG p;
     F2LOG := F2LOG p; PIRegulator := PIRegulator p; Ialfa_est := Ialfa_est p; Ibeta_est := Ibeta_est p;
     wBemf_alfa_est := wBemf_alfa_est p; wBemf_beta_est := wBemf_beta_est p;
     hBemf_alfa_est := hBemf_alfa_est p; hBemf_beta_est := hBemf_beta_est p;
     Speed_Buffer := Speed_Buffer p; Speed_Buffer_Index := Speed_Buffer_Index p;
     IsSpeedReliable := IsSpeedReliable p; ConsistencyCounter := ConsistencyCounter p;
     ReliabilityCounter := ReliabilityCounter p; IsAlgorithmConverged := IsAlgorithmConverged p;
     IsBemfConsistent := IsBemfConsistent p; Obs_Bemf_Level := Obs_Bemf_Level p;
     Est_Bemf_Level := Est_Bemf_Level p; EnableDualCheck := EnableDualCheck p;
     DppBufferSum := DppBufferSum p; SpeedBufferOldestEl := SpeedBufferOldestEl p;
     SpeedBufferSize01Hz := SpeedBufferSize01Hz p; SpeedBufferSizedpp := SpeedBufferSizedpp p;
     SpeedBufferSizedppLOG := SpeedBufferSizedppLOG p; VariancePercentage := VariancePercentage p;
     SpeedValidationBand_H := SpeedValidationBand_H p; SpeedValidationBand_L := SpeedValidationBand_L p;
     MinStartUpValidSpeed := MinStartUpValidSpeed p; StartUpConsistThreshold := StartUpConsistThreshold p;
     Reliability_hysteresys := Reliability_hysteresys p; BemfConsistencyCheck := BemfConsistencyCheck p;
     BemfConsistencyGain := BemfConsistencyGain p;
     MaxAppPositiveMecSpeed01Hz := MaxAppPositiveMecSpeed01Hz p; ForceConvergency := ForceConvergency p;
     ForceConvergency2 := ForceConvergency2 p |}.

Definition set_F3POW2 (v : Z) (p : STO_Handle_t) : STO_Handle_t :=
  {| _Super := _Super p; hC1 := hC1 p; hC2 := hC2 p; hC3 := hC3 p; hC4 := hC4 p; hC5 := hC5 p;
     hC6 := hC6 p; hF1 := hF1 p; hF2 := hF2 p; hF3 := hF3 p; F3POW2 := v; F1LOG := F1LOG p;
     F2LOG := F2LOG p; PIRegulator := PIRegulator p; Ialfa_est := Ialfa_est p; Ibeta_est := Ibeta_est p;
     wBemf_alfa_est := wBemf_alfa_est p; wBemf_beta_est := wBemf_beta_est p;
     hBemf_alfa_est := hBemf_alfa_est p; hBemf_beta_est := hBemf_beta_est p;
     Speed_Buffer := Speed_Buffer p; Speed_Buffer_Index := Speed_Buffer_Index p;
     IsSpeedReliable := IsSpeedReliable p; ConsistencyCounter := ConsistencyCounter p;
     ReliabilityCounter := ReliabilityCounter p; IsAlgorithmConverged := IsAlgorithmConverged p;
     IsBemfConsistent := IsBemfConsistent p; Obs_Bemf_Level := Obs_Bemf_Level p;
     Est_Bemf_Level := Est_Bemf_Level p; EnableDualCheck := EnableDualCheck p;
     DppBufferSum := DppBufferSum p; SpeedBufferOldestEl := SpeedBufferOldestEl p;
     SpeedBufferSize01Hz := SpeedBufferSize01Hz p; SpeedBufferSizedpp := SpeedBufferSizedpp p;
     SpeedBufferSizedppLOG := SpeedBufferSizedppLOG p; VariancePercentage := VariancePercentage p;
     SpeedValidationBand_H := SpeedValidationBand_H p; SpeedValidationBand_L := SpeedValidationBand_L p;
     MinStartUpValidSpeed := MinStartUpValidSpeed p; StartUpConsistThreshold := StartUpConsistThreshold p;
     Reliability_hysteresys := Reliability_hysteresys p; BemfConsistencyCheck := BemfConsistencyCheck p;
     BemfConsistencyGain := BemfConsistencyGain p;
     MaxAppPositiveMecSpeed01Hz := MaxAppPositiveMecSpeed01Hz p; ForceConvergency := ForceConvergency p;
     ForceConvergency2 := ForceConvergency2 p |}.

Definition set_EnableDualCheck (v : bool) (p : STO_Handle_t) : STO_Handle_t :=
  {| _Super := _Super p; hC1 := hC1 p; hC2 := hC2 p; hC3 := hC3 p; hC4 := hC4 p; hC5 := hC5 p;
     hC6 := hC6 p; hF1 := hF1 p; hF2 := hF2 p; hF3 := hF3 p; F3POW2 := F3POW2 p; F1LOG := F1LOG p;
     F2LOG := F2LOG p; PIRegulator := PIRegulator p; Ialfa_est := Ialfa_est p; Ibeta_est := Ibeta_est p;
     wBemf_alfa_est := wBemf_alfa_est p; wBemf_beta_est := wBemf_beta_est p;
     hBemf_alfa_est := hBemf_alfa_est p; hBemf_beta_est := hBemf_beta_est p;
     Speed_Buffer := Speed_Buffer p; Speed_Buffer_Index := Speed_Buffer_Index p;
     IsSpeedReliable := IsSpeedReliable p; ConsistencyCounter := ConsistencyCounter p;
     ReliabilityCounter := ReliabilityCounter p; IsAlgorithmConverged := IsAlgorithmConverged p;
     IsBemfConsistent := IsBemfConsistent p; Obs_Bemf_Level := Obs_Bemf_Level p;
     Est_Bemf_Level := Est_Bemf_Level p; EnableDualCheck := v; DppBufferSum := DppBufferSum p;
     SpeedBufferOldestEl := SpeedBufferOldestEl p; SpeedBufferSize01Hz := SpeedBufferSize01Hz p;
     SpeedBufferSizedpp := SpeedBufferSizedpp p; SpeedBufferSizedppLOG := SpeedBufferSizedppLOG p;
     VariancePercentage := VariancePercentage p; SpeedValidationBand_H := SpeedValidationBand_H p;
     SpeedValidationBand_L := SpeedValidationBand_L p; MinStartUpValidSpeed := MinStartUpValidSpeed p;
     StartUpConsistThreshold := StartUpConsistThreshold p;
     Reliability_hysteresys := Reliability_hysteresys p; BemfConsistencyCheck := BemfConsistencyCheck p;
     BemfConsistencyGain := BemfConsistencyGain p;
     MaxAppPositiveMecSpeed01Hz := MaxAppPositiveMecSpeed01Hz p; ForceConvergency := ForceConvergency p;
     ForceConvergency2 := ForceConvergency2 p |}.

Definition set_MinStartUpValidSpeed (v : Z) (p : STO_Handle_t) : STO_Handle_t :=
  {| _Super := _Super p; hC1 := hC1 p; hC2 := hC2 p; hC3 := hC3 p; hC4 := hC4 p; hC5 := hC5 p;
     hC6 := hC6 p; hF1 := hF1 p; hF2 := hF2 p; hF3 := hF3 p; F3POW2 := F3POW2 p; F1LOG := F1LOG p;
     F2LOG := F2LOG p; PIRegulator := PIRegulator p; Ialfa_est := Ialfa_est p; Ibeta_est := Ibeta_est p;
     wBemf_alfa_est := wBemf_alfa_est p; wBemf_beta_est := wBemf_beta_est p;
     hBemf_alfa_est := hBemf_alfa_est p; hBemf_beta_est := hBemf_beta_est p;
     Speed_Buffer := Speed_Buffer p; Speed_Buffer_Index := Speed_Buffer_Index p;
     IsSpeedReliable := IsSpeedReliable p; ConsistencyCounter := ConsistencyCounter p;
     ReliabilityCounter := ReliabilityCounter p; IsAlgorithmConverged := IsAlgorithmConverged p;
     IsBemfConsistent := IsBemfConsistent p; Obs_Bemf_Level := Obs_Bemf_Level p;
     Est_Bemf_Level := Est_Bemf_Level p; EnableDualCheck := EnableDualCheck p;
     DppBufferSum := DppBufferSum p; SpeedBufferOldestEl := SpeedBufferOldestEl p;
     SpeedBufferSize01Hz := SpeedBufferSize01Hz p; SpeedBufferSizedpp := SpeedBufferSizedpp p;
     SpeedBufferSizedppLOG := SpeedBufferSizedppLOG p; VariancePercentage := VariancePercentage p;
     SpeedValidationBand_H := SpeedValidationBand_H p; SpeedValidationBand_L := SpeedValidationBand_L p;
     MinStartUpValidSpeed := v; StartUpConsistThreshold := StartUpConsistThreshold p;
     Reliability_hysteresys := Reliability_hysteresys p; BemfConsistencyCheck := BemfConsistencyCheck p;
     BemfConsistencyGain := BemfConsistencyGain p;
     MaxAppPositiveMecSpeed01Hz := MaxAppPositiveMecSpeed01Hz p; ForceConvergency := ForceConvergency p;
     ForceConvergency2 := ForceConvergency2 p |}.
(** [while (cond) body], run for at most [fuel] rounds: [None] when the
    condition still holds once the rounds are used up. *)
Fixpoint while_do {S : Type} (fuel : nat) (cond : S -> bool) (body : S -> S) (s : S)
    : option S :=
  if cond s then
    match fuel with
    | O => None
    | Datatypes.S fuel' => while_do fuel' cond body (body s)
    end
  else Some s.

Definition C6_COMP_CONST1 : Z := 1043038.
Definition C6_COMP_CONST2 : Z := 10430.

Section Services.
Context {pidlib : PIDLib}.

(** The loop of STO_Init on its three variables: the 16-bit [htempk], the
    32-bit [wAux] and the handle, whose F3POW2 it counts up. *)
Definition STO_Init_loop (fuel : nat) (htempk wAux : Z) (pHandle : STO_Handle_t)
    : option (Z * Z * STO_Handle_t) :=
  while_do fuel
    (fun '(htempk, wAux, pHandle) => negb (htempk =? 0))
    (fun '(htempk, wAux, pHandle) =>
       let htempk := wrap16 (Z.quot htempk 2) in
       let wAux := wrap32 (wAux * 2) in
       let pHandle := set_F3POW2 (wrap_u16 (F3POW2 pHandle + 1)) pHandle in
       (htempk, wAux, pHandle))
    (htempk, wAux, pHandle).

(** STO_Init.  [htempk] is a 16-bit value that the loop halves, so that 16
    rounds bring it to zero; the loop is given that many. *)
Definition STO_Init (pHandle : STO_Handle_t) : option STO_Handle_t :=
  let pHandle := set_ConsistencyCounter (StartUpConsistThreshold pHandle) pHandle in
  let pHandle := set_EnableDualCheck true pHandle in
  let wAux := 1 in
  let pHandle := set_F3POW2 0 pHandle in
  let htempk := wrap16 (Z.quot C6_COMP_CONST1 (hF2 pHandle)) in
  match STO_Init_loop 16 htempk wAux pHandle with
  | None => None
  | Some (htempk, wAux, pHandle) =>
      let pHandle := set_hF3 (wrap16 wAux) pHandle in
      let wAux := hF2 pHandle * hF3 pHandle in
      let pHandle := set_hC6 (wrap16 (Z.quot wAux C6_COMP_CONST2)) pHandle in
      let pHandle := STO_Clear pHandle in
      let pHandle := set_PIRegulator (PID_HandleInit (PIRegulator pHandle)) pHandle in
      let pHandle := set__Super (set_hMecAccel01HzP 0 (_Super pHandle)) pHandle in
      Some pHandle
  end.

(** STO_Return *)
Definition STO_Return (pHandle : STO_Handle_t) (flag : Z) : STO_Handle_t :=
  pHandle.

(** STO_GetEstimatedBemf *)
Definition STO_GetEstimatedBemf (pHandle : STO_Handle_t) : Volt_Components :=
  {| qV_Component1 := hBemf_alfa_est pHandle; qV_Component2 := hBemf_beta_est pHandle |}.

(** STO_GetEstimatedCurrent *)
Definition STO_GetEstimatedCurrent (misra : bool) (pHandle : STO_Handle_t)
    : Curr_Components :=
  {| qI_Component1 :=
       wrap16 (if misra then Z.quot (Ialfa_est pHandle) (hF1 pHandle)
               else Z.shiftr (Ialfa_est pHandle) (F1LOG pHandle));
     qI_Component2 :=
       wrap16 (if misra then Z.quot (Ibeta_est pHandle) (hF1 pHandle)
               else Z.shiftr (Ibeta_est pHandle) (F1LOG pHandle)) |}.

(** STO_GetPLLGains: the values written through [pPgain] and [pIgain]. *)
Definition STO_GetPLLGains (pHandle : STO_Handle_t) : Z * Z :=
  (wrap16 (PID_GetKP (PIRegulator pHandle)), wrap16 (PID_GetKI (PIRegulator pHandle))).

(** STO_SetPLLGains *)
Definition STO_SetPLLGains (pHandle : STO_Handle_t) (hPgain hIgain : Z) : STO_Handle_t :=
  let pHandle := set_PIRegulator (PID_SetKP (PIRegulator pHandle) hPgain) pHandle in
  set_PIRegulator (PID_SetKI (PIRegulator pHandle) hIgain) pHandle.

(** STO_SetMecAngle *)
Definition STO_SetMecAngle (pHandle : STO_Handle_t) (hMecAngle : Z) : STO_Handle_t :=
  pHandle.

(** STO_ResetPLL *)
Definition STO_ResetPLL (pHandle : STO_Handle_t) : STO_Handle_t :=
  set_PIRegulator (PID_SetIntegralTerm (PIRegulator pHandle) 0) pHandle.

(** STO_SetPLL *)
Definition STO_SetPLL (pHandle : STO_Handle_t) (hElSpeedDpp' hElAngle' : Z) : STO_Handle_t :=
  let pHandle :=
    set_PIRegulator
      (PID_SetIntegralTerm (PIRegulator pHandle)
         (wrap32 (hElSpeedDpp' * PID_GetKIDivisor (PIRegulator pHandle)))) pHandle in
  set__Super (set_hElAngle hElAngle' (_Super pHandle)) pHandle.

End Services.

(** STO_GetEstimatedBemfLevel *)
Definition STO_GetEstimatedBemfLevel (pHandle : STO_Handle_t) : Z :=
  Est_Bemf_Level pHandle.

(** STO_GetObservedBemfLevel *)
Definition STO_GetObservedBemfLevel (pHandle : STO_Handle_t) : Z :=
  Obs_Bemf_Level pHandle.

(** STO_BemfConsistencyCheckSwitch *)
Definition STO_BemfConsistencyCheckSwitch (pHandle : STO_Handle_t) (bSel : bool)
    : STO_Handle_t :=
  set_EnableDualCheck bSel pHandle.

(** STO_IsBemfConsistent *)
Definition STO_IsBemfConsistent (pHandle : STO_Handle_t) : bool :=
  IsBemfConsistent pHandle.

(** STO_IsVarianceTight *)
Definition STO_IsVarianceTight (pHandle : STO_Handle_t) : bool :=
  IsSpeedReliable pHandle.

(** STO_ForceConvergency1 *)
Definition STO_ForceConvergency1 (pHandle : STO_Handle_t) : STO_Handle_t :=
  set_ForceConvergency true pHandle.

(** STO_ForceConvergency2 *)
Definition STO_ForceConvergency2 (pHandle : STO_Handle_t) : STO_Handle_t :=
  set_ForceConvergency2 true pHandle.

(** STO_SetMinStartUpValidSpeed01HZ *)
Definition STO_SetMinStartUpValidSpeed01HZ (pHandle : STO_Handle_t)
    (hMinStartUpValidSpeed : Z) : STO_Handle_t :=
  set_MinStartUpValidSpeed hMinStartUpValidSpeed pHandle.

(** *** Quantities named by the further properties *)

(** [n] successive calls of STO_IsObserverConverged with the same forced
    speed: the handle they leave and the verdict of the last one. *)
Fixpoint STO_IsObserverConverged_n (n : nat) (pHandle : STO_Handle_t)
    (hForcedMecSpeed01Hz : Z) : STO_Handle_t * bool :=
  match n with
  | O => (pHandle, false)
  | S k =>
      STO_IsObserverConverged (fst (STO_IsObserverConverged_n k pHandle hForcedMecSpeed01Hz))
        hForcedMecSpeed01Hz
  end.

(** Every entry in use of the speed buffer holds the same speed [v]. *)
Definition steady_buffer (pHandle : STO_Handle_t) (v : Z) : Prop :=
  forall i, 0 <= i < SpeedBufferSize01Hz pHandle -> buf_get (Speed_Buffer pHandle) i = v.

(** The average dpp speed [wAvrSpeed_dpp] that STO_CalcAvrgMecSpeed01Hz takes
    over the entries in use of the buffer. *)
Definition STO_avr_speed_dpp (pHandle : STO_Handle_t) : Z :=
  let bSpeedBufferSize01Hz := SpeedBufferSize01Hz pHandle in
  Z.quot
    (for_upto bSpeedBufferSize01Hz
       (fun wAvrSpeed_dpp i => wrap32 (wAvrSpeed_dpp + buf_get (Speed_Buffer pHandle) i)) 0)
    bSpeedBufferSize01Hz.

(** Its verdict [bIs_Speed_Reliable] on the variance of those entries. *)
Definition STO_variance_check (pHandle : STO_Handle_t) : bool :=
  let bSpeedBufferSize01Hz := SpeedBufferSize01Hz pHandle in
  let wAvrSpeed_dpp := STO_avr_speed_dpp pHandle in
  let wAvrQuadraticError :=
    for_upto bSpeedBufferSize01Hz
      (fun wAvrQuadraticError i =>
         let wError := wrap32 (buf_get (Speed_Buffer pHandle) i - wAvrSpeed_dpp) in
         let wError := wrap32 (wError * wError) in
         wrap32 (wAvrQuadraticError + wError)) 0 in
  let wAvrQuadraticError := Z.quot wAvrQuadraticError bSpeedBufferSize01Hz in
  let wAvrSquareSpeed := wrap32 (wAvrSpeed_dpp * wAvrSpeed_dpp) in
  let wAvrSquareSpeed :=
    wrap32 (Z.quot wAvrSquareSpeed 128 * VariancePercentage pHandle) in
  wAvrQuadraticError <? wAvrSquareSpeed.

(** The conversion of a dpp speed into a mechanical speed in 0.1 Hz that
    STO_CalcAvrgMecSpeed01Hz performs: the 32-bit [wAux], of which the
    function reports the low 16 bits. *)
Definition STO_mec_speed_of_dpp (pHandle : STO_Handle_t) (wAvrSpeed_dpp : Z) : Z :=
  let wAux := wrap32 (wAvrSpeed_dpp * hMeasurementFrequency (_Super pHandle)) in
  let wAux := wrap32 (wAux * 10) in
  let wAux := Z.quot wAux 65536 in
  Z.quot wAux (bElToMecRatio (_Super pHandle)).

(** The back-EMF consistency check on the mechanical speed [wAux]: the
    observed level, the estimated level and the verdict. *)
Definition STO_bemf_check (pHandle : STO_Handle_t) (wAux : Z) : Z * Z * bool :=
  let wAux := if wAux <? 0 then wrap32 (- wAux) else wAux in
  if wAux <? MaxAppPositiveMecSpeed01Hz pHandle then
    let wObsBemf := hBemf_alfa_est pHandle in
    let wObsBemfSq := wrap32 (wObsBemf * wObsBemf) in
    let wObsBemf := hBemf_beta_est pHandle in
    let wObsBemfSq := wrap32 (wObsBemfSq + wObsBemf * wObsBemf) in
    let wEstBemf :=
      Z.quot (wrap32 (wAux * 32767))
        (wrap16 (hMaxReliableMecSpeed01Hz (_Super pHandle))) in
    let wEstBemfSq :=
      Z.quot (wrap32 (wEstBemf * BemfConsistencyGain pHandle)) 64 in
    let wEstBemfSq := wrap32 (wEstBemfSq * wEstBemf) in
    let wEstBemfSqLo :=
      wrap32 (wEstBemfSq - Z.quot wEstBemfSq 64 * BemfConsistencyCheck pHandle) in
    (wObsBemfSq, wEstBemfSq, wObsBemfSq >? wEstBemfSqLo)
  else (0, 0, false).

(** The verdict of one call of STO_CalcAvrgMecSpeed01Hz on its own two
    checks, read off the handle [p'] that the call on [pHandle] left: the
    variance is too wide, or the dual check is enabled and failed. *)
Definition STO_tick_is_bad (pHandle p' : STO_Handle_t) : bool :=
  negb (IsSpeedReliable p') || (EnableDualCheck pHandle && negb (IsBemfConsistent p')).

(** The sum of the entries in use of the speed buffer. *)
Definition STO_buffer_total (pHandle : STO_Handle_t) : Z :=
  samples_sum (firstn (Z.to_nat (SpeedBufferSize01Hz pHandle)) (Speed_Buffer pHandle)).

(** The index of the speed buffer is inside the entries in use, which are
    inside the array. *)
Definition index_in_range (pHandle : STO_Handle_t) : Prop :=
  1 <= SpeedBufferSize01Hz pHandle <= 255 /\
  SpeedBufferSize01Hz pHandle <= Z.of_nat (length (Speed_Buffer pHandle)) /\
  0 <= Speed_Buffer_Index pHandle < SpeedBufferSize01Hz pHandle.

(** The two averages are taken over the same entries, which are 16-bit
    values; the rolling sum is the sum of these entries, and the dpp speed
    is the rolling sum divided by their number (division form). *)
Definition speeds_in_sync (pHandle : STO_Handle_t) : Prop :=
  SpeedBufferSizedpp pHandle = SpeedBufferSize01Hz pHandle /\
  Forall in_s16
    (firstn (Z.to_nat (SpeedBufferSize01Hz pHandle)) (Speed_Buffer pHandle)) /\
  DppBufferSum pHandle = STO_buffer_total pHandle /\
  hElSpeedDpp (_Super pHandle)
  = wrap16 (Z.quot (DppBufferSum pHandle) (SpeedBufferSizedpp pHandle)).

End Observer.

(** ** feed_forward_ctrl.c *)

Definition set_qV_Component1 (v : Z) (p : Volt_Components) : Volt_Components :=
  {| qV_Component1 := v; qV_Component2 := qV_Component2 p |}.

Definition set_qV_Component2 (v : Z) (p : Volt_Components) : Volt_Components :=
  {| qV_Component1 := qV_Component1 p; qV_Component2 := v |}.

Module FF.
Section FeedForward.
Context {lib : MCLib}.

(** r_divider_bus_voltage_sensor.h: the resistor-divider sensor extends the
    generic bus voltage sensor.  A C pointer to a collaborator that the
    component only reads is modelled by the collaborator it points to. *)
Record RDivider_Handle_t : Type := Build_RDivider {
  _Super : BusVoltageSensor_Handle_t
}.

Record FF_Params_t : Type := Build_FF_Params {
  hVqdLowPassFilterBW : Z  (* int16_t *)
}.

Record FF_Handle_t : Type := Build_FF {
  wConstant_1D : Z;  (* int32_t *)
  wConstant_1Q : Z;  (* int32_t *)
  wConstant_2 : Z;  (* int32_t *)
  wDefConstant_1D : Z;  (* int32_t *)
  wDefConstant_1Q : Z;  (* int32_t *)
  wDefConstant_2 : Z;  (* int32_t *)
  pBus_Sensor : BusVoltageSensor_Handle_t;  (* the handle stored at FF_Init *)
  pPID_d : PID_Handle_t;
  pPID_q : PID_Handle_t;
  Vqdff : Volt_Components;  (* feed-forward contribution *)
  VqdPIout : Volt_Components;  (* last output of the current regulators *)
  VqdAvPIout : Volt_Components;  (* its low-pass average *)
  pParams_str : FF_Params_t;
  hVqdLowPassFilterBWLOG : Z  (* uint16_t *)
}.

Definition set_wConstant_1D (v : Z) (p : FF_Handle_t) : FF_Handle_t :=
  {| wConstant_1D := v; wConstant_1Q := wConstant_1Q p; wConstant_2 := wConstant_2 p;
     wDefConstant_1D := wDefConstant_1D p; wDefConstant_1Q := wDefConstant_1Q p;
     wDefConstant_2 := wDefConstant_2 p; pBus_Sensor := pBus_Sensor p; pPID_d := pPID_d p;
     pPID_q := pPID_q p; Vqdff := Vqdff p; VqdPIout := VqdPIout p; VqdAvPIout := VqdAvPIout p;
     pParams_str := pParams_str p; hVqdLowPassFilterBWLOG := hVqdLowPassFilterBWLOG p |}.

Definition set_wConstant_1Q (v : Z) (p : FF_Handle_t) : FF_Handle_t :=
  {| wConstant_1D := wConstant_1D p; wConstant_1Q := v; wConstant_2 := wConstant_2 p;
     wDefConstant_1D := wDefConstant_1D p; wDefConstant_1Q := wDefConstant_1Q p;
     wDefConstant_2 := wDefConstant_2 p; pBus_Sensor := pBus_Sensor p; pPID_d := pPID_d p;
     pPID_q := pPID_q p; Vqdff := Vqdff p; VqdPIout := VqdPIout p; VqdAvPIout := VqdAvPIout p;
     pParams_str := pParams_str p; hVqdLowPassFilterBWLOG := hVqdLowPassFilterBWLOG p |}.

Definition set_wConstant_2 (v : Z) (p : FF_Handle_t) : FF_Handle_t :=
  {| wConstant_1D := wConstant_1D p; wConstant_1Q := wConstant_1Q p; wConstant_2 := v;
     wDefConstant_1D := wDefConstant_1D p; wDefConstant_1Q := wDefConstant_1Q p;
     wDefConstant_2 := wDefConstant_2 p; pBus_Sensor := pBus_Sensor p; pPID_d := pPID_d p;
     pPID_q := pPID_q p; Vqdff := Vqdff p; VqdPIout := VqdPIout p; VqdAvPIout := VqdAvPIout p;
     pParams_str := pParams_str p; hVqdLowPassFilterBWLOG := hVqdLowPassFilterBWLOG p |}.

Definition set_pBus_Sensor (v : BusVoltageSensor_Handle_t) (p : FF_Handle_t) : FF_Handle_t :=
  {| wConstant_1D := wConstant_1D p; wConstant_1Q := wConstant_1Q p; wConstant_2 := wConstant_2 p;
     wDefConstant_1D := wDefConstant_1D p; wDefConstant_1Q := wDefConstant_1Q p;
     wDefConstant_2 := wDefConstant_2 p; pBus_Sensor := v; pPID_d := pPID_d p; pPID_q := pPID_q p;
     Vqdff := Vqdff p; VqdPIout := VqdPIout p; VqdAvPIout := VqdAvPIout p; pParams_str := pParams_str p;
     hVqdLowPassFilterBWLOG := hVqdLowPassFilterBWLOG p |}.

Definition set_pPID_d (v : PID_Handle_t) (p : FF_Handle_t) : FF_Handle_t :=
  {| wConstant_1D := wConstant_1D p; wConstant_1Q := wConstant_1Q p; wConstant_2 := wConstant_2 p;
     wDefConstant_1D := wDefConstant_1D p; wDefConstant_1Q := wDefConstant_1Q p;
     wDefConstant_2 := wDefConstant_2 p; pBus_Sensor := pBus_Sensor p; pPID_d := v; pPID_q := pPID_q p;
     Vqdff := Vqdff p; VqdPIout := VqdPIout p; VqdAvPIout := VqdAvPIout p; pParams_str := pParams_str p;
     hVqdLowPassFilterBWLOG := hVqdLowPassFilterBWLOG p |}.

Definition set_pPID_q (v : PID_Handle_t) (p : FF_Handle_t) : FF_Handle_t :=
  {| wConstant_1D := wConstant_1D p; wConstant_1Q := wConstant_1Q p; wConstant_2 := wConstant_2 p;
     wDefConstant_1D := wDefConstant_1D p; wDefConstant_1Q := wDefConstant_1Q p;
     wDefConstant_2 := wDefConstant_2 p; pBus_Sensor := pBus_Sensor p; pPID_d := pPID_d p; pPID_q := v;
     Vqdff := Vqdff p; VqdPIout := VqdPIout p; VqdAvPIout := VqdAvPIout p; pParams_str := pParams_str p;
     hVqdLowPassFilterBWLOG := hVqdLowPassFilterBWLOG p |}.

Definition set_Vqdff (v : Volt_Components) (p : FF_Handle_t) : FF_Handle_t :=
  {| wConstant_1D := wConstant_1D p; wConstant_1Q := wConstant_1Q p; wConstant_2 := wConstant_2 p;
     wDefConstant_1D := wDefConstant_1D p; wDefConstant_1Q := wDefConstant_1Q p;
     wDefConstant_2 := wDefConstant_2 p; pBus_Sensor := pBus_Sensor p; pPID_d := pPID_d p;
     pPID_q := pPID_q p; Vqdff := v; VqdPIout := VqdPIout p; VqdAvPIout := VqdAvPIout p;
     pParams_str := pParams_str p; hVqdLowPassFilterBWLOG := hVqdLowPassFilterBWLOG p |}.

Definition set_VqdPIout (v : Volt_Components) (p : FF_Handle_t) : FF_Handle_t :=
  {| wConstant_1D := wConstant_1D p; wConstant_1Q := wConstant_1Q p; wConstant_2 := wConstant_2 p;
     wDefConstant_1D := wDefConstant_1D p; wDefConstant_1Q := wDefConstant_1Q p;
     wDefConstant_2 := wDefConstant_2 p; pBus_Sensor := pBus_Sensor p; pPID_d := pPID_d p;
     pPID_q := pPID_q p; Vqdff := Vqdff p; VqdPIout := v; VqdAvPIout := VqdAvPIout p;
     pParams_str := pParams_str p; hVqdLowPassFilterBWLOG := hVqdLowPassFilterBWLOG p |}.

Definition set_VqdAvPIout (v : Volt_Components) (p : FF_Handle_t) : FF_Handle_t :=
  {| wConstant_1D := wConstant_1D p; wConstant_1Q := wConstant_1Q p; wConstant_2 := wConstant_2 p;
     wDefConstant_1D := wDefConstant_1D p; wDefConstant_1Q := wDefConstant_1Q p;
     wDefConstant_2 := wDefConstant_2 p; pBus_Sensor := pBus_Sensor p; pPID_d := pPID_d p;
     pPID_q := pPID_q p; Vqdff := Vqdff p; VqdPIout := VqdPIout p; VqdAvPIout := v;
     pParams_str := pParams_str p; hVqdLowPassFilterBWLOG := hVqdLowPassFilterBWLOG p |}.

(** The macro SATURATION_TO_S16, as the value it leaves in its argument. *)
Definition SATURATION_TO_S16 (a : Z) : Z :=
  if a >? 32767 then 32767
  else if a <? -32767 then -32767
  else a.

(** FF_Init *)
Definition FF_Init (pHandle : FF_Handle_t) (pBusSensor : BusVoltageSensor_Handle_t)
    (pPIDId pPIDIq : PID_Handle_t) : FF_Handle_t :=
  let pHandle := set_wConstant_1D (wDefConstant_1D pHandle) pHandle in
  let pHandle := set_wConstant_1Q (wDefConstant_1Q pHandle) pHandle in
  let pHandle := set_wConstant_2 (wDefConstant_2 pHandle) pHandle in
  let pHandle := set_pBus_Sensor pBusSensor pHandle in
  let pHandle := set_pPID_d pPIDId pHandle in
  set_pPID_q pPIDIq pHandle.

(** FF_Clear *)
Definition FF_Clear (pHandle : FF_Handle_t) : FF_Handle_t :=
  let pHandle := set_Vqdff (set_qV_Component1 0 (Vqdff pHandle)) pHandle in
  set_Vqdff (set_qV_Component2 0 (Vqdff pHandle)) pHandle.

(** FF_VqdffComputation.  [pBusSensorM1] is the file's extern global. *)
Definition FF_VqdffComputation (pBusSensorM1 : RDivider_Handle_t) (pHandle : FF_Handle_t)
    (Iqdref : Curr_Components) (pSTC : SpeednTorqCtrl_Handle_t) : FF_Handle_t :=
  let SpeedSensor := STC_GetSpeedSensor pSTC in
  let hSpeed_dpp := SPD_GetElSpeedDpp SpeedSensor in
  let hAvBusVoltage_d :=
    wrap_u16 (Z.quot (VBS_GetAvBusVoltage_d (_Super pBusSensorM1)) 2) in
  (* q-axes ff voltage calculation *)
  let wtemp1 := Z.quot (hSpeed_dpp * qI_Component2 Iqdref) 32768 in
  let wtemp2 := Z.quot (wrap32 (wtemp1 * wConstant_1D pHandle)) hAvBusVoltage_d in
  let wtemp2 := wrap32 (wtemp2 * 2) in
  let wtemp1 :=
    wrap32 (Z.quot (wrap32 (wConstant_2 pHandle * hSpeed_dpp)) hAvBusVoltage_d * 16) in
  let wtemp2 := wrap32 (wtemp1 + wtemp2 + qV_Component1 (VqdAvPIout pHandle)) in
  let wtemp2 := SATURATION_TO_S16 wtemp2 in
  let pHandle := set_Vqdff (set_qV_Component1 (wrap16 wtemp2) (Vqdff pHandle)) pHandle in
  (* d-axes ff voltage calculation *)
  let wtemp1 := Z.quot (hSpeed_dpp * qI_Component1 Iqdref) 32768 in
  let wtemp2 := Z.quot (wrap32 (wtemp1 * wConstant_1Q pHandle)) hAvBusVoltage_d in
  let wtemp2 := wrap32 (wtemp2 * 2) in
  let wtemp2 := wrap32 (qV_Component2 (VqdAvPIout pHandle) - wtemp2) in
  let wtemp2 := SATURATION_TO_S16 wtemp2 in
  set_Vqdff (set_qV_Component2 (wrap16 wtemp2) (Vqdff pHandle)) pHandle.

(** FF_VqdConditioning: the new handle and the conditioned voltages. *)
Definition FF_VqdConditioning (pHandle : FF_Handle_t) (Vqd : Volt_Components)
    : FF_Handle_t * Volt_Components :=
  let pHandle := set_VqdPIout Vqd pHandle in
  let wtemp := qV_Component1 Vqd + qV_Component1 (Vqdff pHandle) in
  let wtemp := SATURATION_TO_S16 wtemp in
  let Vqd := set_qV_Component1 (wrap16 wtemp) Vqd in
  let wtemp := qV_Component2 Vqd + qV_Component2 (Vqdff pHandle) in
  let wtemp := SATURATION_TO_S16 wtemp in
  let Vqd := set_qV_Component2 (wrap16 wtemp) Vqd in
  (pHandle, Vqd).

(** FF_DataProcess *)
Definition FF_DataProcess (misra : bool) (pHandle : FF_Handle_t) : FF_Handle_t :=
  if misra then
    let wAux :=
      qV_Component1 (VqdAvPIout pHandle) * (hVqdLowPassFilterBW (pParams_str pHandle) - 1) in
    let wAux := wrap32 (wAux + qV_Component1 (VqdPIout pHandle)) in
    let pHandle :=
      set_VqdAvPIout
        (set_qV_Component1 (wrap16 (Z.quot wAux (hVqdLowPassFilterBW (pParams_str pHandle))))
           (VqdAvPIout pHandle)) pHandle in
    let wAux :=
      qV_Component2 (VqdAvPIout pHandle) * (hVqdLowPassFilterBW (pParams_str pHandle) - 1) in
    let wAux := wrap32 (wAux + qV_Component2 (VqdPIout pHandle)) in
    set_VqdAvPIout
      (set_qV_Component2 (wrap16 (Z.quot wAux (hVqdLowPassFilterBW (pParams_str pHandle))))
         (VqdAvPIout pHandle)) pHandle
  else
    let wAux :=
      wrap32 (Z.shiftl (qV_Component1 (VqdAvPIout pHandle)) (hVqdLowPassFilterBWLOG pHandle)) in
    let wAux :=
      wrap32 (wAux - qV_Component1 (VqdAvPIout pHandle) + qV_Component1 (VqdPIout pHandle)) in
    let pHandle :=
      set_VqdAvPIout
        (set_qV_Component1 (wrap16 (Z.shiftr wAux (hVqdLowPassFilterBWLOG pHandle)))
           (VqdAvPIout pHandle)) pHandle in
    let wAux :=
      wrap32 (Z.shiftl (qV_Component2 (VqdAvPIout pHandle)) (hVqdLowPassFilterBWLOG pHandle)) in
    let wAux :=
      wrap32 (wAux - qV_Component2 (VqdAvPIout pHandle) + qV_Component2 (VqdPIout pHandle)) in
    set_VqdAvPIout
      (set_qV_Component2 (wrap16 (Z.shiftr wAux (hVqdLowPassFilterBWLOG pHandle)))
         (VqdAvPIout pHandle)) pHandle.

(** FF_GetVqdff *)
Definition FF_GetVqdff (pHandle : FF_Handle_t) : Volt_Components :=
  Vqdff pHandle.

(** FF_GetVqdAvPIout *)
Definition FF_GetVqdAvPIout (pHandle : FF_Handle_t) : Volt_Components :=
  Vqdff pHandle.

(** The bandwidth N of the low-pass filter: the divisor of the MISRA form,
    and the power of two that the shift form shifts by. *)
Definition FF_bandwidth (misra : bool) (pHandle : FF_Handle_t) : Z :=
  if misra then hVqdLowPassFilterBW (pParams_str pHandle)
  else 2 ^ hVqdLowPassFilterBWLOG pHandle.

(** The average [a'] lies between its previous value [a] and the input [v]. *)
Definition moves_toward (a a' v : Z) : Prop := a <= a' <= v \/ v <= a' <= a.

(** The error to [v] is multiplied by the factor (N-1)/N, up to the rounding
    of the integer division by N: N times the new error lies within N - 1 of
    N - 1 times the old one, from below and from above. *)
Definition decays (N a a' v : Z) : Prop :=
  (N - 1) * (Z.abs (v - a) - 1) <= N * Z.abs (v - a') <= (N - 1) * (Z.abs (v - a) + 1).

(** [n] successive calls of FF_DataProcess. *)
Fixpoint FF_DataProcess_n (misra : bool) (n : nat) (pHandle : FF_Handle_t) : FF_Handle_t :=
  match n with
  | O => pHandle
  | S k => FF_DataProcess misra (FF_DataProcess_n misra k pHandle)
  end.

(** The bandwidth is the power of two that its logarithm names, and both
    accumulators of the shift form are exact for the shift. *)
Definition FF_DataProcess_exact (pHandle : FF_Handle_t) : Prop :=
  let lg := hVqdLowPassFilterBWLOG pHandle in
  let acc := fun av pi => wrap32 (wrap32 (Z.shiftl av lg) - av + pi) in
  0 <= lg /\ hVqdLowPassFilterBW (pParams_str pHandle) = 2 ^ lg /\
  shift_exact (acc (qV_Component1 (VqdAvPIout pHandle)) (qV_Component1 (VqdPIout pHandle))) lg
  /\
  shift_exact (acc (qV_Component2 (VqdAvPIout pHandle)) (qV_Component2 (VqdPIout pHandle))) lg.

(** feed_forward_ctrl.h: the constants that a tuning tool reads and writes. *)
Record FF_TuningStruct_t : Type := Build_FF_Tuning {
  wConst_1D : Z;  (* int32_t *)
  wConst_1Q : Z;  (* int32_t *)
  wConst_2 : Z  (* int32_t *)
}.

(** FF_InitFOCAdditionalMethods.  The two current regulators that the handle
    points to are kept in place in the handle. *)
Definition FF_InitFOCAdditionalMethods (pHandle : FF_Handle_t) : FF_Handle_t :=
  let pHandle := set_VqdAvPIout (set_qV_Component1 0 (VqdAvPIout pHandle)) pHandle in
  let pHandle := set_VqdAvPIout (set_qV_Component2 0 (VqdAvPIout pHandle)) pHandle in
  let pHandle := set_pPID_q (PID_SetIntegralTerm (pPID_q pHandle) 0) pHandle in
  set_pPID_d (PID_SetIntegralTerm (pPID_d pHandle) 0) pHandle.

(** FF_SetFFConstants *)
Definition FF_SetFFConstants (pHandle : FF_Handle_t) (sNewConstants : FF_TuningStruct_t)
    : FF_Handle_t :=
  let pHandle := set_wConstant_1D (wConst_1D sNewConstants) pHandle in
  let pHandle := set_wConstant_1Q (wConst_1Q sNewConstants) pHandle in
  set_wConstant_2 (wConst_2 sNewConstants) pHandle.

(** FF_GetFFConstants *)
Definition FF_GetFFConstants (pHandle : FF_Handle_t) : FF_TuningStruct_t :=
  {| wConst_1D := wConstant_1D pHandle;
     wConst_1Q := wConstant_1Q pHandle;
     wConst_2 := wConstant_2 pHandle |}.

End FeedForward.
End FF.

(** ** Sample collaborators and handles

    A concrete instance of the collaborators, on which the embedding can be
    evaluated: a regulator whose state is the last error it was given and
    whose output is that error saturated to 16 bits; sine and cosine exact at
    the four quadrant angles (and held from the quadrant angle below
    elsewhere); a base speed sensor that always reports reliable; a bus sensor
    that is its own average voltage. *)
Definition probe_lib : MCLib := {|
  PID_Handle_t := Z;
  PI_Controller := fun _ wProcessVarError =>
    (wProcessVarError, FF.SATURATION_TO_S16 wProcessVarError);
  PID_SetIntegralTerm := fun _ wIntegralTermValue => wIntegralTermValue;
  MCM_Trig_Functions := fun hAngle =>
    if hAngle <? -16384 then {| hCos := -32767; hSin := 0 |}
    else if hAngle <? 0 then {| hCos := 0; hSin := -32767 |}
    else if hAngle <? 16384 then {| hCos := 32767; hSin := 0 |}
    else {| hCos := 0; hSin := 32767 |};
  SPD_IsMecSpeedReliable := fun pHandle _ => (pHandle, true);
  BusVoltageSensor_Handle_t := Z;
  VBS_GetAvBusVoltage_d := fun pHandle => pHandle;
  SpeednTorqCtrl_Handle_t := SpeednPosFdbk_Handle_t;
  STC_GetSpeedSensor := fun pSTC => pSTC;
  SPD_GetElSpeedDpp := hElSpeedDpp
|}.

(** An observer handle at rest: F1 = F2 = 2^14, a speed buffer of capacity 8
    of which [bSize01Hz] entries are in use, [bSizedpp = 2^bSizedppLOG]
    entries averaged for the dpp speed, consistency check [bCheck]. *)
Definition sample_handle (bSize01Hz bSizedpp bSizedppLOG bCheck : Z)
    : @STO_Handle_t probe_lib :=
  {| _Super :=
       {| hElAngle := 0; hElSpeedDpp := 0; hAvrMecSpeed01Hz := 0; hMecAccel01HzP := 0;
          bSpeedErrorNumber := 0; bMaximumSpeedErrorsNumber := 3;
          hMeasurementFrequency := 10000; bElToMecRatio := 10;
          hMaxReliableMecSpeed01Hz := 1000 |};
     hC1 := 1000; hC2 := -2000; hC3 := 500; hC4 := 3000; hC5 := 1500; hC6 := 100;
     hF1 := 16384; hF2 := 16384; hF3 := 64; F3POW2 := 6; F1LOG := 14; F2LOG := 14;
     PIRegulator := (0 : @PID_Handle_t probe_lib);
     Ialfa_est := 0; Ibeta_est := 0; wBemf_alfa_est := 0; wBemf_beta_est := 0;
     hBemf_alfa_est := 0; hBemf_beta_est := 0;
     Speed_Buffer := [0; 0; 0; 0; 0; 0; 0; 0]; Speed_Buffer_Index := 0;
     IsSpeedReliable := false; ConsistencyCounter := 0; ReliabilityCounter := 0;
     IsAlgorithmConverged := false; IsBemfConsistent := false;
     Obs_Bemf_Level := 0; Est_Bemf_Level := 0; EnableDualCheck := true;
     DppBufferSum := 0; SpeedBufferOldestEl := 0;
     SpeedBufferSize01Hz := bSize01Hz; SpeedBufferSizedpp := bSizedpp;
     SpeedBufferSizedppLOG := bSizedppLOG;
     VariancePercentage := 10; SpeedValidationBand_H := 18; SpeedValidationBand_L := 14;
     MinStartUpValidSpeed := 50; StartUpConsistThreshold := 64;
     Reliability_hysteresys := 5;
     BemfConsistencyCheck := bCheck; BemfConsistencyGain := 64;
     MaxAppPositiveMecSpeed01Hz := 1000;
     ForceConvergency := false; ForceConvergency2 := false |}.

(** Start-up scenario: the estimated speed is 100 (0.1 Hz units) and judged
    reliable, and 63 consecutive ticks have already been counted towards
    the threshold of 64. *)
Definition startup_handle : @STO_Handle_t probe_lib :=
  set_ConsistencyCounter 63
    (set_IsSpeedReliable true
       (set__Super (set_hAvrMecSpeed01Hz 100 (_Super (sample_handle 8 8 3 32)))
          (sample_handle 8 8 3 32))).

(** Speed-loop scenario: dual check on, both 16-bit back-EMF estimates zero,
    four buffered dpp speeds of 3277, which the 10 kHz / 10 pole-pair
    conversion turns into a mechanical speed of 500; maximum reliable speed
    1000, consistency gain 64 and consistency check [bCheck]. *)
Definition zero_bemf_handle (bCheck : Z) : @STO_Handle_t probe_lib :=
  set_Speed_Buffer [3277; 3277; 3277; 3277; 0; 0; 0; 0] (sample_handle 4 4 2 bCheck).

(** One observer tick with zero measured currents and zero applied voltage. *)
Definition idle_inputs : Observer_Inputs_t :=
  {| Valfa_beta := {| qV_Component1 := 0; qV_Component2 := 0 |};
     Ialfa_beta := {| qI_Component1 := 0; qI_Component2 := 0 |};
     Vbus := 16384 |}.

(** PLL scenario: angle 0 (cosine 32767, sine 0), non-negative speed, stored
    back-EMF estimates (0, 100 * F2), i.e. 16-bit estimates (0, 100). *)
Definition pll_handle : @STO_Handle_t probe_lib :=
  set_wBemf_beta_est (100 * 16384) (sample_handle 8 8 3 32).

(** Clamp scenario: the alfa back-EMF estimate sits exactly on its upper
    clamp INT16_MAX * F2, everything else at rest; the measured alfa current
    is -1000. *)
Definition saturated_handle : @STO_Handle_t probe_lib :=
  set_wBemf_alfa_est (INT16_MAX * 16384) (sample_handle 8 8 3 32).

Definition braking_inputs : Observer_Inputs_t :=
  {| Valfa_beta := {| qV_Component1 := 0; qV_Component2 := 0 |};
     Ialfa_beta := {| qI_Component1 := -1000; qI_Component2 := 0 |};
     Vbus := 16384 |}.

(** A feed-forward handle with low-pass bandwidth 4 = 2^2, regulator output
    [pi] and averaged output [av]. *)
Definition ff_handle (pi av : Volt_Components) : @FF.FF_Handle_t probe_lib :=
  {| FF.wConstant_1D := 0; FF.wConstant_1Q := 0; FF.wConstant_2 := 0;
     FF.wDefConstant_1D := 100; FF.wDefConstant_1Q := 100; FF.wDefConstant_2 := 50;
     FF.pBus_Sensor := (20000 : @BusVoltageSensor_Handle_t probe_lib);
     FF.pPID_d := (0 : @PID_Handle_t probe_lib);
     FF.pPID_q := (0 : @PID_Handle_t probe_lib);
     FF.Vqdff := {| qV_Component1 := 0; qV_Component2 := 0 |};
     FF.VqdPIout := pi; FF.VqdAvPIout := av;
     FF.pParams_str := {| FF.hVqdLowPassFilterBW := 4 |};
     FF.hVqdLowPassFilterBWLOG := 2 |}.

(** The filter settling from rest towards (1000, -1000), and the filter at
    rest three counts below its input. *)
Definition settling_ff_handle : @FF.FF_Handle_t probe_lib :=
  ff_handle {| qV_Component1 := 1000; qV_Component2 := -1000 |}
    {| qV_Component1 := 0; qV_Component2 := 0 |}.

Definition stalled_ff_handle : @FF.FF_Handle_t probe_lib :=
  ff_handle {| qV_Component1 := 3; qV_Component2 := 3 |}
    {| qV_Component1 := 0; qV_Component2 := 0 |}.

(** Dual-path scenarios.  A handle all of whose shifted operands are exact:
    the beta back-EMF estimate is -128 * F2, a multiple of F2 whose 16-bit
    value -128 is a multiple of F3 = 64.  And a cleared handle into which the
    observer has stored one speed sample of -1. *)
Definition exact_handle : @STO_Handle_t probe_lib :=
  set_wBemf_beta_est (-128 * 16384) (sample_handle 8 4 2 32).

Definition odd_sum_handle : @STO_Handle_t probe_lib :=
  STO_Store_Rotor_Speed (STO_Clear (sample_handle 8 4 2 32)) (-1).

(** The low-pass filter at rest with the regulator output at (-1, -1). *)
Definition odd_ff_handle : @FF.FF_Handle_t probe_lib :=
  ff_handle {| qV_Component1 := -1; qV_Component2 := -1 |}
    {| qV_Component1 := 0; qV_Component2 := 0 |}.

(** One observer tick with a measured beta current of -1000, which makes
    the beta back-EMF estimate, and with it the speed, move off zero. *)
Definition load_inputs : Observer_Inputs_t :=
  {| Valfa_beta := {| qV_Component1 := 0; qV_Component2 := 0 |};
     Ialfa_beta := {| qI_Component1 := 0; qI_Component2 := -1000 |};
     Vbus := 16384 |}.

(** Feed-forward scenario: the handle initialised with a bus sensor that reads
    12345, a speed sensor at 1000 dpp, reference currents (1000, 1000). *)
Definition initialised_ff_handle : @FF.FF_Handle_t probe_lib :=
  FF.FF_Init
    (ff_handle {| qV_Component1 := 0; qV_Component2 := 0 |}
       {| qV_Component1 := 0; qV_Component2 := 0 |})
    (12345 : @BusVoltageSensor_Handle_t probe_lib)
    (0 : @PID_Handle_t probe_lib) (0 : @PID_Handle_t probe_lib).

Definition running_sensor : @SpeednTorqCtrl_Handle_t probe_lib :=
  set_hElSpeedDpp 1000 (_Super (sample_handle 8 4 2 32)).

Definition reference_currents : Curr_Components :=
  {| qI_Component1 := 1000; qI_Component2 := 1000 |}.

(** The sample regulator completed: initialising it clears its state, and it
    has unit gains that cannot be changed. *)
Definition probe_pid : @PIDLib probe_lib := {|
  PID_HandleInit := fun _ => (0 : @PID_Handle_t probe_lib);
  PID_GetKP := fun _ => 1;
  PID_GetKI := fun _ => 1;
  PID_SetKP := fun pHandle _ => pHandle;
  PID_SetKI := fun pHandle _ => pHandle;
  PID_GetKIDivisor := fun _ => 1
|}.

(** A handle as the parameter file leaves it before STO_Init, with a factor
    F2 of 32 = 2^5: below 64, where C6_COMP_CONST1 / F2 needs 15 binary digits. *)
Definition coarse_handle : @STO_Handle_t probe_lib :=
  let p := sample_handle 8 8 3 32 in
  {| _Super := _Super p; hC1 := hC1 p; hC2 := hC2 p; hC3 := hC3 p; hC4 := hC4 p; hC5 := hC5 p;
     hC6 := 0; hF1 := hF1 p; hF2 := 32; hF3 := 0; F3POW2 := 0; F1LOG := F1LOG p; F2LOG := 5;
     PIRegulator := PIRegulator p; Ialfa_est := Ialfa_est p; Ibeta_est := Ibeta_est p;
     wBemf_alfa_est := wBemf_alfa_est p; wBemf_beta_est := wBemf_beta_est p;
     hBemf_alfa_est := hBemf_alfa_est p; hBemf_beta_est := hBemf_beta_est p;
     Speed_Buffer := Speed_Buffer p; Speed_Buffer_Index := Speed_Buffer_Index p;
     IsSpeedReliable := IsSpeedReliable p; ConsistencyCounter := ConsistencyCounter p;
     ReliabilityCounter := ReliabilityCounter p; IsAlgorithmConverged := IsAlgorithmConverged p;
     IsBemfConsistent := IsBemfConsistent p; Obs_Bemf_Level := Obs_Bemf_Level p;
     Est_Bemf_Level := Est_Bemf_Level p; EnableDualCheck := EnableDualCheck p;
     DppBufferSum := DppBufferSum p; SpeedBufferOldestEl := SpeedBufferOldestEl p;
     SpeedBufferSize01Hz := SpeedBufferSize01Hz p; SpeedBufferSizedpp := SpeedBufferSizedpp p;
     SpeedBufferSizedppLOG := SpeedBufferSizedppLOG p; VariancePercentage := VariancePercentage p;
     SpeedValidationBand_H := SpeedValidationBand_H p;
     SpeedValidationBand_L := SpeedValidationBand_L p;
     MinStartUpValidSpeed := MinStartUpValidSpeed p;
     StartUpConsistThreshold := StartUpConsistThreshold p;
     Reliability_hysteresys := Reliability_hysteresys p;
     BemfConsistencyCheck := BemfConsistencyCheck p; BemfConsistencyGain := BemfConsistencyGain p;
     MaxAppPositiveMecSpeed01Hz := MaxAppPositiveMecSpeed01Hz p;
     ForceConvergency := ForceConvergency p; ForceConvergency2 := ForceConvergency2 p |}.

(** Over-speed scenario: four buffered dpp speeds of 6554, which the
    conversion turns into a mechanical speed of 1000, the maximum speed of
    the application. *)
Definition overspeed_handle : @STO_Handle_t probe_lib :=
  set_Speed_Buffer [6554; 6554; 6554; 6554; 0; 0; 0; 0] (sample_handle 4 4 2 32).

(** Hysteresis scenario: the algorithm has converged and four bad calls in
    a row have been counted, against a hysteresis of 5; the back-EMF
    estimates are zero, so that the next check fails too. *)
Definition tripping_handle : @STO_Handle_t probe_lib :=
  set_ReliabilityCounter 4 (set_IsAlgorithmConverged true (zero_bemf_handle 32)).

(** A stored alfa current estimate of 32768 * F1, one scaled unit above the
    clamp range. *)
Definition overshoot_handle : @STO_Handle_t probe_lib :=
  set_Ialfa_est (32768 * 16384) (sample_handle 8 8 3 32).

(** Feed-forward at standstill: averaged regulator outputs (1000, -2000), a
    speed sensor at 0 dpp and a bus sensor that reads 20000. *)
Definition standstill_ff_handle : @FF.FF_Handle_t probe_lib :=
  ff_handle {| qV_Component1 := 0; qV_Component2 := 0 |}
    {| qV_Component1 := 1000; qV_Component2 := -2000 |}.

Definition resting_sensor : @SpeednTorqCtrl_Handle_t probe_lib :=
  _Super (sample_handle 8 4 2 32).

Definition bus_sensor_M1 : @FF.RDivider_Handle_t probe_lib :=
  FF.Build_RDivider (20000 : @BusVoltageSensor_Handle_t probe_lib).

(** A feed-forward handle that carries feed-forward voltages of
    (30000, -30000). *)
Definition loaded_ff_handle : @FF.FF_Handle_t probe_lib :=
  FF.set_Vqdff {| qV_Component1 := 30000; qV_Component2 := -30000 |}
    (ff_handle {| qV_Component1 := 0; qV_Component2 := 0 |}
       {| qV_Component1 := 0; qV_Component2 := 0 |}).

(** A handle whose speed buffer holds 1..8, of which four entries are in
    use. *)
Definition numbered_handle : @STO_Handle_t probe_lib :=
  set_Speed_Buffer [1; 2; 3; 4; 5; 6; 7; 8] (sample_handle 4 4 2 32).

(** Clamp scenario with estimates outside their ranges: a stored alfa
    back-EMF of 40000 * F2 and a stored beta current of -40000 * F1. *)
Definition overdriven_handle : @STO_Handle_t probe_lib :=
  set_Ibeta_est (-40000 * 16384) (set_wBemf_alfa_est (40000 * 16384) (sample_handle 8 8 3 32)).

(** Feed-forward with a constant that drives the q-axis voltage beyond 16
    bits: speed 1000 dpp, halved bus voltage 10000, second constant 100000. *)
Definition stiff_ff_handle : @FF.FF_Handle_t probe_lib :=
  FF.FF_SetFFConstants
    (ff_handle {| qV_Component1 := 0; qV_Component2 := 0 |}
       {| qV_Component1 := 0; qV_Component2 := 0 |})
    {| FF.wConst_1D := 0; FF.wConst_1Q := 0; FF.wConst_2 := 100000 |}.

(** * Properties *)

(** ** Machine-integer facts *)

(** A conversion to a type that already holds the value changes nothing. *)
Lemma wrap16_small (x : Z) : in_s16 x -> wrap16 x = x.
Proof.
  unfold in_s16, wrap16; intros H.
  rewrite Z.mod_small by lia. lia.
Qed.

Lemma wrap32_small (x : Z) : in_s32 x -> wrap32 x = x.
Proof.
  unfold in_s32, wrap32; intros H.
  rewrite Z.mod_small by lia. lia.
Qed.

(** A converted value lies in the range of its type. *)
Lemma wrap16_range (x : Z) : in_s16 (wrap16 x).
Proof.
  unfold in_s16, wrap16.
  pose proof (Z.mod_pos_bound (x + 32768) 65536 ltac:(lia)). lia.
Qed.

Lemma wrap_u8_small (x : Z) : 0 <= x < 256 -> wrap_u8 x = x.
Proof. intros H; unfold wrap_u8; apply Z.mod_small; lia. Qed.

Lemma wrap32_range (x : Z) : in_s32 (wrap32 x).
Proof.
  unfold in_s32, wrap32.
  pose proof (Z.mod_pos_bound (x + 2147483648) 4294967296 ltac:(lia)). lia.
Qed.

(** Bounds of a C quotient by a positive divisor. *)
Lemma quot_bounds (a b lo hi : Z) :
  0 < b -> lo <= 0 <= hi -> lo * b <= a <= hi * b + (b - 1) -> lo <= Z.quot a b <= hi.
Proof.
  intros Hb Hz Ha.
  destruct (Z_le_gt_dec 0 a) as [Hp | Hn].
  - rewrite Z.quot_div_nonneg by lia. split.
    + pose proof (Z.div_pos a b Hp Hb). lia.
    + apply Z.lt_succ_r. apply Z.div_lt_upper_bound; lia.
  - replace a with (- (- a)) by lia. rewrite Z.quot_opp_l by lia.
    rewrite Z.quot_div_nonneg by lia. split.
    + assert ((- a) / b <= - lo); [|lia].
      apply Z.lt_succ_r. apply Z.div_lt_upper_bound; nia.
    + pose proof (Z.div_pos (- a) b ltac:(lia) Hb). lia.
Qed.

(** Reduction of the projections of a handle over the setters applied to it,
    leaving the arithmetic as it stands. *)
Ltac sto_simpl :=
  cbn [fst snd
       hElAngle hElSpeedDpp hAvrMecSpeed01Hz hMecAccel01HzP bSpeedErrorNumber
       bMaximumSpeedErrorsNumber hMeasurementFrequency bElToMecRatio hMaxReliableMecSpeed01Hz
       _Super hC1 hC2 hC3 hC4 hC5 hC6 hF1 hF2 hF3 F3POW2 F1LOG F2LOG PIRegulator Ialfa_est
       Ibeta_est wBemf_alfa_est wBemf_beta_est hBemf_alfa_est hBemf_beta_est Speed_Buffer
       Speed_Buffer_Index IsSpeedReliable ConsistencyCounter ReliabilityCounter
       IsAlgorithmConverged IsBemfConsistent Obs_Bemf_Level Est_Bemf_Level EnableDualCheck
       DppBufferSum SpeedBufferOldestEl SpeedBufferSize01Hz SpeedBufferSizedpp
       SpeedBufferSizedppLOG VariancePercentage SpeedValidationBand_H SpeedValidationBand_L
       MinStartUpValidSpeed StartUpConsistThreshold Reliability_hysteresys BemfConsistencyCheck
       BemfConsistencyGain MaxAppPositiveMecSpeed01Hz ForceConvergency ForceConvergency2
       set_hElAngle set_hElSpeedDpp set_hAvrMecSpeed01Hz set_bSpeedErrorNumber set__Super
       set_hC2 set_hC4 set_PIRegulator set_Ialfa_est set_Ibeta_est set_wBemf_alfa_est
       set_wBemf_beta_est set_hBemf_alfa_est set_hBemf_beta_est set_Speed_Buffer
       set_Speed_Buffer_Index set_IsSpeedReliable set_ConsistencyCounter set_ReliabilityCounter
       set_IsAlgorithmConverged set_IsBemfConsistent set_Obs_Bemf_Level set_Est_Bemf_Level
       set_DppBufferSum set_SpeedBufferOldestEl set_ForceConvergency set_ForceConvergency2].

Ltac sto_simpl_in H := revert H; sto_simpl; intro H.

(** The same by call-by-need evaluation, which also unfolds the observer
    functions themselves: for goals on STO_CalcElAngle, whose let-bound
    handle would otherwise be copied at each of its uses. *)
Ltac sto_eval :=
  lazy beta iota zeta delta
    [STO_CalcElAngle STO_ExecutePLL STO_PLL_error STO_Store_Rotor_Speed
       STO_CalcAvrgElSpeedDpp STO_clamp_estimates clamp_estimate err_pll_code STO_direction
       fst snd
       hElAngle hElSpeedDpp hAvrMecSpeed01Hz hMecAccel01HzP bSpeedErrorNumber
       bMaximumSpeedErrorsNumber hMeasurementFrequency bElToMecRatio hMaxReliableMecSpeed01Hz
       _Super hC1 hC2 hC3 hC4 hC5 hC6 hF1 hF2 hF3 F3POW2 F1LOG F2LOG PIRegulator Ialfa_est
       Ibeta_est wBemf_alfa_est wBemf_beta_est hBemf_alfa_est hBemf_beta_est Speed_Buffer
       Speed_Buffer_Index IsSpeedReliable ConsistencyCounter ReliabilityCounter
       IsAlgorithmConverged IsBemfConsistent Obs_Bemf_Level Est_Bemf_Level EnableDualCheck
       DppBufferSum SpeedBufferOldestEl SpeedBufferSize01Hz SpeedBufferSizedpp
       SpeedBufferSizedppLOG VariancePercentage SpeedValidationBand_H SpeedValidationBand_L
       MinStartUpValidSpeed StartUpConsistThreshold Reliability_hysteresys BemfConsistencyCheck
       BemfConsistencyGain MaxAppPositiveMecSpeed01Hz ForceConvergency ForceConvergency2
       set_hElAngle set_hElSpeedDpp set_hAvrMecSpeed01Hz set_bSpeedErrorNumber set__Super
       set_hC2 set_hC4 set_PIRegulator set_Ialfa_est set_Ibeta_est set_wBemf_alfa_est
       set_wBemf_beta_est set_hBemf_alfa_est set_hBemf_beta_est set_Speed_Buffer
       set_Speed_Buffer_Index set_IsSpeedReliable set_ConsistencyCounter set_ReliabilityCounter
       set_IsAlgorithmConverged set_IsBemfConsistent set_Obs_Bemf_Level set_Est_Bemf_Level
       set_DppBufferSum set_SpeedBufferOldestEl set_ForceConvergency set_ForceConvergency2].

(** ** Accessors and setters *)

Section Accessors.
Context {lib : MCLib}.

(** C10.  STO_SetObserverGains (g1, g2) stores g1 in gain C2 and g2 in gain
    C4 and leaves every other field of the observer handle as it was (the
    other gains C1, C3, C5, C6, the scaling factors F1, F2, F3, the
    regulator and all dynamic estimates included); STO_GetObserverGains
    then returns exactly (g1, g2). *)
Theorem STO_SetObserverGains_frame (pHandle : STO_Handle_t) (g1 g2 : Z) :
  let p' := STO_SetObserverGains pHandle g1 g2 in
  hC2 p' = g1 /\ hC4 p' = g2 /\
  STO_GetObserverGains p' = (g1, g2) /\
  hC1 p' = hC1 pHandle /\ hC3 p' = hC3 pHandle /\ hC5 p' = hC5 pHandle /\
  hC6 p' = hC6 pHandle /\
  hF1 p' = hF1 pHandle /\ hF2 p' = hF2 pHandle /\ hF3 p' = hF3 pHandle /\
  F3POW2 p' = F3POW2 pHandle /\ F1LOG p' = F1LOG pHandle /\ F2LOG p' = F2LOG pHandle /\
  _Super p' = _Super pHandle /\ PIRegulator p' = PIRegulator pHandle /\
  Ialfa_est p' = Ialfa_est pHandle /\ Ibeta_est p' = Ibeta_est pHandle /\
  wBemf_alfa_est p' = wBemf_alfa_est pHandle /\
  wBemf_beta_est p' = wBemf_beta_est pHandle /\
  hBemf_alfa_est p' = hBemf_alfa_est pHandle /\
  hBemf_beta_est p' = hBemf_beta_est pHandle /\
  Speed_Buffer p' = Speed_Buffer pHandle /\
  Speed_Buffer_Index p' = Speed_Buffer_Index pHandle /\
  SpeedBufferOldestEl p' = SpeedBufferOldestEl pHandle /\
  DppBufferSum p' = DppBufferSum pHandle /\
  IsSpeedReliable p' = IsSpeedReliable pHandle /\
  IsBemfConsistent p' = IsBemfConsistent pHandle /\
  IsAlgorithmConverged p' = IsAlgorithmConverged pHandle /\
  ConsistencyCounter p' = ConsistencyCounter pHandle /\
  ReliabilityCounter p' = ReliabilityCounter pHandle /\
  Obs_Bemf_Level p' = Obs_Bemf_Level pHandle /\
  Est_Bemf_Level p' = Est_Bemf_Level pHandle /\
  EnableDualCheck p' = EnableDualCheck pHandle /\
  ForceConvergency p' = ForceConvergency pHandle /\
  ForceConvergency2 p' = ForceConvergency2 pHandle /\
  SpeedBufferSize01Hz p' = SpeedBufferSize01Hz pHandle /\
  SpeedBufferSizedpp p' = SpeedBufferSizedpp pHandle /\
  SpeedBufferSizedppLOG p' = SpeedBufferSizedppLOG pHandle /\
  VariancePercentage p' = VariancePercentage pHandle /\
  SpeedValidationBand_H p' = SpeedValidationBand_H pHandle /\
  SpeedValidationBand_L p' = SpeedValidationBand_L pHandle /\
  MinStartUpValidSpeed p' = MinStartUpValidSpeed pHandle /\
  StartUpConsistThreshold p' = StartUpConsistThreshold pHandle /\
  Reliability_hysteresys p' = Reliability_hysteresys pHandle /\
  BemfConsistencyCheck p' = BemfConsistencyCheck pHandle /\
  BemfConsistencyGain p' = BemfConsistencyGain pHandle /\
  MaxAppPositiveMecSpeed01Hz p' = MaxAppPositiveMecSpeed01Hz pHandle.
Proof.
  intros p'; subst p'; unfold STO_SetObserverGains, STO_GetObserverGains.
  repeat split.
Qed.

(** C9.  FF_GetVqdAvPIout returns the feed-forward pair Vqdff of the handle,
    the same value as FF_GetVqdff: it follows every change of Vqdff and is
    blind to every change of the averaged regulator output VqdAvPIout. *)
Theorem FF_GetVqdAvPIout_returns_Vqdff :
  (forall pHandle : FF.FF_Handle_t,
      FF.FF_GetVqdAvPIout pHandle = FF.Vqdff pHandle /\
      FF.FF_GetVqdAvPIout pHandle = FF.FF_GetVqdff pHandle) /\
  (forall (pHandle : FF.FF_Handle_t) (v : Volt_Components),
      FF.FF_GetVqdAvPIout (FF.set_Vqdff v pHandle) = v) /\
  (forall (pHandle : FF.FF_Handle_t) (v : Volt_Components),
      FF.FF_GetVqdAvPIout (FF.set_VqdAvPIout v pHandle) = FF.FF_GetVqdAvPIout pHandle).
Proof.
  repeat split.
Qed.

(** C8.  The voltage that FF_VqdffComputation computes does not depend on
    the bus-sensor handle kept in the FF handle: two handles that differ
    only in [pBus_Sensor] (set directly, or through FF_Init with different
    sensors) give the same Vqdff under the same global pBusSensorM1, and
    indeed the same handle up to that field. *)
Theorem FF_VqdffComputation_ignores_stored_bus_sensor
    (pBusSensorM1 : FF.RDivider_Handle_t) (pHandle : FF.FF_Handle_t)
    (b1 b2 : BusVoltageSensor_Handle_t) (Iqdref : Curr_Components)
    (pSTC : SpeednTorqCtrl_Handle_t) (pPIDId pPIDIq : PID_Handle_t) :
  FF.Vqdff (FF.FF_VqdffComputation pBusSensorM1 (FF.set_pBus_Sensor b1 pHandle) Iqdref pSTC)
  = FF.Vqdff (FF.FF_VqdffComputation pBusSensorM1 (FF.set_pBus_Sensor b2 pHandle) Iqdref pSTC)
  /\
  FF.Vqdff (FF.FF_VqdffComputation pBusSensorM1 (FF.FF_Init pHandle b1 pPIDId pPIDIq)
              Iqdref pSTC)
  = FF.Vqdff (FF.FF_VqdffComputation pBusSensorM1 (FF.FF_Init pHandle b2 pPIDId pPIDIq)
                Iqdref pSTC)
  /\
  FF.set_pBus_Sensor b2
    (FF.FF_VqdffComputation pBusSensorM1 (FF.set_pBus_Sensor b1 pHandle) Iqdref pSTC)
  = FF.FF_VqdffComputation pBusSensorM1 (FF.set_pBus_Sensor b2 pHandle) Iqdref pSTC.
Proof.
  repeat split.
Qed.

End Accessors.

(** The voltage does follow the global: with the stored sensor reading 12345
    throughout, a global sensor at 20000 gives a q-axis voltage of 80 and one
    at 10000 gives 160. *)
Lemma FF_VqdffComputation_reads_global :
  FF.pBus_Sensor initialised_ff_handle = 12345 /\
  FF.Vqdff (FF.FF_VqdffComputation
              (FF.Build_RDivider (20000 : @BusVoltageSensor_Handle_t probe_lib))
              initialised_ff_handle reference_currents running_sensor)
  = {| qV_Component1 := 80; qV_Component2 := 0 |} /\
  FF.Vqdff (FF.FF_VqdffComputation
              (FF.Build_RDivider (10000 : @BusVoltageSensor_Handle_t probe_lib))
              initialised_ff_handle reference_currents running_sensor)
  = {| qV_Component1 := 160; qV_Component2 := 0 |}.
Proof.
  repeat split.
Qed.

(** ** Convergence detector *)

Section Convergence.
Context {lib : MCLib}.

(** What one call does when neither force flag is set: a tick that meets
    all four conditions counts; a tick in the right direction that misses
    one of the other three resets the counter; a tick in the wrong direction
    (or with a zero speed) leaves the handle as it is. *)
Lemma STO_IsObserverConverged_cases (pHandle : STO_Handle_t) (hForced : Z) :
  ForceConvergency pHandle = false ->
  ForceConvergency2 pHandle = false ->
  let r := STO_IsObserverConverged pHandle hForced in
  (same_direction pHandle hForced = true ->
   speed_validated pHandle hForced = true ->
   ConsistencyCounter (fst r) = wrap_u8 (ConsistencyCounter pHandle + 1) /\
   snd r = (wrap_u8 (ConsistencyCounter pHandle + 1) >=? StartUpConsistThreshold pHandle))
  /\
  (same_direction pHandle hForced = true ->
   speed_validated pHandle hForced = false ->
   r = (set_ConsistencyCounter 0 pHandle, false))
  /\
  (same_direction pHandle hForced = false -> r = (pHandle, false)).
Proof.
  intros F1 F2 r; subst r.
  unfold STO_IsObserverConverged, same_direction, speed_validated, abs16.
  rewrite F1, F2.
  destruct (hAvrMecSpeed01Hz (_Super pHandle) * hForced >? 0); cbv zeta.
  - split; [intros _ Hv | split; [intros _ Hv | discriminate]].
    + apply andb_prop in Hv as [Hv H4]. apply andb_prop in Hv as [Hv H3].
      apply andb_prop in Hv as [H1 H2].
      rewrite H1, H2, H3, H4.
      destruct (ConsistencyCounter _ >=? StartUpConsistThreshold _) eqn:E;
        cbn in *; rewrite E; auto.
    + destruct (IsSpeedReliable pHandle); [|reflexivity].
      destruct (wrap_u16 _ >? _); [|reflexivity].
      destruct (_ >=? _); [|reflexivity].
      destruct (_ <=? _); [discriminate Hv | reflexivity].
  - split; [discriminate | split; [discriminate | reflexivity]].
Qed.

End Convergence.

(** C3.  With both force flags clear, a tick on which the estimated and the
    forced speed have opposite directions does not reset the consistency
    counter, although one of the four conditions fails: on the start-up
    handle (estimate 100, counter 63, threshold 64) a call with forced speed
    -100 returns false and leaves the counter at 63, and the next call, with
    forced speed 100, counts to 64 and declares convergence. *)
Theorem STO_IsObserverConverged_direction_miss_keeps_counter :
  ForceConvergency startup_handle = false /\
  ForceConvergency2 startup_handle = false /\
  same_direction startup_handle (-100) = false /\
  STO_IsObserverConverged startup_handle (-100) = (startup_handle, false) /\
  ConsistencyCounter (fst (STO_IsObserverConverged startup_handle (-100))) = 63 /\
  snd (STO_IsObserverConverged (fst (STO_IsObserverConverged startup_handle (-100))) 100)
  = true.
Proof.
  repeat split.
Qed.

(** ** Back-EMF consistency check *)

Section BemfConsistency.
Context {lib : MCLib}.

(** C7 (as amended).  Dual check enabled, both 16-bit back-EMF estimates
    zero, the computed mechanical speed of magnitude below
    MaxAppPositiveMecSpeed01Hz and not above the maximum reliable speed, the
    latter in (0, 32767], the consistency gain in [0, 128] and the consistency
    check in [0, 64]: STO_CalcAvrgMecSpeed01Hz sets IsBemfConsistent to false,
    because the observed level 0 is not greater than the threshold, which is
    then non-negative. *)
Theorem STO_zero_bemf_is_inconsistent (pHandle : STO_Handle_t) :
  EnableDualCheck pHandle = true ->
  hBemf_alfa_est pHandle = 0 ->
  hBemf_beta_est pHandle = 0 ->
  0 < bElToMecRatio (_Super pHandle) ->
  0 < hMaxReliableMecSpeed01Hz (_Super pHandle) <= 32767 ->
  0 <= BemfConsistencyGain pHandle <= 128 ->
  0 <= BemfConsistencyCheck pHandle <= 64 ->
  let r := STO_CalcAvrgMecSpeed01Hz pHandle in
  let w := snd (fst r) in
  Z.abs w < MaxAppPositiveMecSpeed01Hz pHandle ->
  Z.abs w <= hMaxReliableMecSpeed01Hz (_Super pHandle) ->
  IsBemfConsistent (fst (fst r)) = false.
Proof.
  intros HD Ha Hb HR HM HG HC r w; subst r w.
  cbv beta zeta delta [STO_CalcAvrgMecSpeed01Hz].
  set (wAux := Z.quot (Z.quot (wrap32 (wrap32 (_ * hMeasurementFrequency _) * 10)) 65536) _).
  set (rel := Z.ltb _ (wrap32 _)).
  assert (Hw : in_s16 wAux).
  { subst wAux. unfold in_s16.
    match goal with |- _ <= Z.quot (Z.quot (wrap32 ?X) _) _ <= _ =>
      pose proof (wrap32_range X) as W;
      assert (-32768 <= Z.quot (wrap32 X) 65536 <= 32767)
        by (unfold in_s32 in W; apply quot_bounds; lia)
    end.
    apply quot_bounds; nia. }
  sto_simpl. rewrite HD, Ha, Hb.
  set (wAbs := if wAux <? 0 then wrap32 (- wAux) else wAux).
  assert (HwAbs : wAbs = Z.abs wAux).
  { subst wAbs. unfold in_s16 in Hw. destruct (Z.ltb_spec wAux 0).
    - rewrite wrap32_small by (unfold in_s32; lia). lia.
    - lia. }
  set (wEstBemf := Z.quot (wrap32 (wAbs * 32767)) _).
  set (wEstBemfSq := wrap32 (Z.quot (wrap32 (wEstBemf * _)) 64 * wEstBemf)).
  set (wLo := wrap32 (wEstBemfSq - _)).
  rewrite (wrap16_small wAux Hw).
  assert (K : Z.abs wAux <= hMaxReliableMecSpeed01Hz (_Super pHandle) ->
              (wrap32 (wrap32 (0 * 0) + 0 * 0) >? wLo) = false).
  { intros Hle. change (wrap32 (wrap32 (0 * 0) + 0 * 0)) with 0.
    set (M := hMaxReliableMecSpeed01Hz (_Super pHandle)) in *.
    set (G := BemfConsistencyGain pHandle) in *.
    set (C := BemfConsistencyCheck pHandle) in *.
    assert (HE : 0 <= wEstBemf <= 32767).
    { subst wEstBemf. rewrite (wrap16_small M) by (unfold in_s16; lia).
      unfold in_s16 in Hw.
      rewrite wrap32_small by (unfold in_s32; lia).
      apply quot_bounds; nia. }
    assert (HQ : 0 <= Z.quot (wrap32 (wEstBemf * G)) 64 <= 65534).
    { rewrite wrap32_small by (unfold in_s32; nia). apply quot_bounds; nia. }
    assert (HS : 0 <= wEstBemfSq <= 2147483647).
    { subst wEstBemfSq. rewrite wrap32_small by (unfold in_s32; nia). nia. }
    assert (HL : 0 <= wLo).
    { subst wLo.
      assert (0 <= Z.quot wEstBemfSq 64 /\ Z.quot wEstBemfSq 64 * 64 <= wEstBemfSq).
      { rewrite Z.quot_div_nonneg by lia.
        pose proof (Z.mul_div_le wEstBemfSq 64 ltac:(lia)).
        pose proof (Z.div_pos wEstBemfSq 64 ltac:(lia) ltac:(lia)). lia. }
      rewrite wrap32_small by (unfold in_s32; nia). nia. }
    rewrite Z.gtb_ltb. apply Z.ltb_ge. exact HL. }
  destruct (wAbs <? MaxAppPositiveMecSpeed01Hz pHandle) eqn:E1;
  destruct (IsAlgorithmConverged pHandle) eqn:E2; destruct rel eqn:E3;
  sto_simpl; rewrite ?E2, ?E3; sto_simpl; cbn [negb orb];
  repeat match goal with |- context [if ?c then _ else _] => destruct c end;
  sto_simpl; intros H1 H2; auto.
Qed.

End BemfConsistency.

(** The scenario of the design document: speed 500, maximum reliable speed
    1000, gain 64, check 32. *)
Lemma STO_zero_bemf_is_inconsistent_witness :
  snd (fst (STO_CalcAvrgMecSpeed01Hz (zero_bemf_handle 32))) = 500 /\
  IsBemfConsistent (fst (fst (STO_CalcAvrgMecSpeed01Hz (zero_bemf_handle 32)))) = false.
Proof.
  split; [vm_compute; reflexivity |].
  apply (STO_zero_bemf_is_inconsistent (zero_bemf_handle 32));
    try reflexivity; vm_compute; try split; congruence.
Defined.

(** C7 as first stated fails once the consistency check exceeds 64: with
    check 128 and everything else as in the scenario above (dual check on,
    zero back-EMF estimates, speed 500 below the application maximum 1000)
    the threshold is negative and IsBemfConsistent is set to true. *)
Lemma STO_zero_bemf_consistent_with_check_128 :
  EnableDualCheck (zero_bemf_handle 128) = true /\
  hBemf_alfa_est (zero_bemf_handle 128) = 0 /\
  hBemf_beta_est (zero_bemf_handle 128) = 0 /\
  snd (fst (STO_CalcAvrgMecSpeed01Hz (zero_bemf_handle 128))) = 500 /\
  500 < MaxAppPositiveMecSpeed01Hz (zero_bemf_handle 128) /\
  IsBemfConsistent (fst (fst (STO_CalcAvrgMecSpeed01Hz (zero_bemf_handle 128)))) = true.
Proof.
  repeat split.
Qed.

(** ** Observer step: pre-step clamp and PLL detector *)

(** The clamp lands in its range and is idempotent, for a positive factor. *)
Lemma clamp_estimate_within (w F : Z) : 0 < F -> within_clamp (clamp_estimate w F) F.
Proof.
  unfold within_clamp, clamp_estimate; intros HF.
  destruct (Z.gtb_spec w (INT16_MAX * F));
    destruct (Z.leb_spec w (- INT16_MAX * F)); unfold INT16_MAX in *; lia.
Qed.

Lemma clamp_estimate_idem (w F : Z) :
  0 < F -> clamp_estimate (clamp_estimate w F) F = clamp_estimate w F.
Proof.
  intros HF. pose proof (clamp_estimate_within w F HF) as W.
  unfold within_clamp in W.
  unfold clamp_estimate at 1.
  destruct (Z.gtb_spec (clamp_estimate w F) (INT16_MAX * F));
    destruct (Z.leb_spec (clamp_estimate w F) (- INT16_MAX * F));
    unfold INT16_MAX in *; lia.
Qed.

Section ObserverStep.
Context {lib : MCLib}.

(** C2 (as amended).  In every call of STO_CalcElAngle the regulator of the
    PLL is run on the error
      [wrap16 (scale (- e_beta' * cos)) - wrap16 (scale (e_alfa' * sin))],
    where e_alfa' and e_beta' are the 16-bit estimates of this tick multiplied
    by the direction of the dpp speed, the beta one entering negated, [scale]
    is the shift by 15 (the division by 32768 in the MISRA form) applied to
    each product on its own, and cos, sin are taken at the angle before its
    update: the regulator state, the speed pushed into the buffer and the new
    angle of the handle are those that PI_Controller gives on that error. *)
Theorem STO_CalcElAngle_PLL_error (misra : bool) (pHandle : STO_Handle_t)
    (pInputs : Observer_Inputs_t) :
  let p' := fst (STO_CalcElAngle misra pHandle pInputs) in
  let err :=
    err_pll_code misra (hBemf_alfa_est p') (hBemf_beta_est p') (STO_direction pHandle)
      (MCM_Trig_Functions (hElAngle (_Super pHandle))) in
  let r := PI_Controller (PIRegulator pHandle) err in
  PIRegulator p' = fst r /\
  Speed_Buffer p' = buf_set (Speed_Buffer pHandle) (Speed_Buffer_Index p') (snd r) /\
  hElAngle (_Super p') = wrap16 (hElAngle (_Super pHandle) + snd r) /\
  snd (STO_CalcElAngle misra pHandle pInputs) = hElAngle (_Super p').
Proof.
  intros p' err r; subst p' err r.
  sto_eval. repeat split.
Qed.

(** C1 (as amended).  With positive scaling factors, STO_CalcElAngle clamps
    the four stored estimates on entry and consumes the clamped values, which
    lie within +-INT16_MAX*F1 (currents) and +-INT16_MAX*F2 (back-EMFs): the
    16-bit back-EMFs it publishes are the clamped back-EMFs scaled down by F2,
    and the four next-state values it stores are the observer update of the
    clamped values (the clamped estimate, minus and plus the gain terms on
    the scaled clamped values); hence the step gives the same handle and
    angle from the stored estimates as from their clamped values.  (The
    next-state values it stores on return are clamped by the following step
    only.) *)
Theorem STO_CalcElAngle_clamps_on_entry (misra : bool) (pHandle : STO_Handle_t)
    (pInputs : Observer_Inputs_t) :
  0 < hF1 pHandle -> 0 < hF2 pHandle ->
  let c := STO_clamp_estimates pHandle in
  let p' := fst (STO_CalcElAngle misra pHandle pInputs) in
  let scale := fun w F L => wrap16 (if misra then Z.quot w F else Z.shiftr w L) in
  let hIalfa := scale (Ialfa_est c) (hF1 c) (F1LOG c) in
  let hIbeta := scale (Ibeta_est c) (hF1 c) (F1LOG c) in
  let hIalfa_err := wrap16 (hIalfa - qI_Component1 (Ialfa_beta pInputs)) in
  let hIbeta_err := wrap16 (hIbeta - qI_Component2 (Ialfa_beta pInputs)) in
  let hValfa := scale (Vbus pInputs * qV_Component1 (Valfa_beta pInputs)) 65536 16 in
  let hVbeta := scale (Vbus pInputs * qV_Component2 (Valfa_beta pInputs)) 65536 16 in
  let cross := fun h =>
    wrap32 (hElSpeedDpp (_Super c)
            * wrap32 ((if misra then Z.quot h (hF3 c) else Z.shiftr h (F3POW2 c)) * hC6 c)) in
  (within_clamp (Ialfa_est c) (hF1 c) /\ within_clamp (Ibeta_est c) (hF1 c) /\
   within_clamp (wBemf_alfa_est c) (hF2 c) /\ within_clamp (wBemf_beta_est c) (hF2 c)) /\
  (hBemf_alfa_est p' = scale (wBemf_alfa_est c) (hF2 c) (F2LOG c) /\
   hBemf_beta_est p' = scale (wBemf_beta_est c) (hF2 c) (F2LOG c)) /\
  (Ialfa_est p'
   = wrap32 (wrap32 (wrap32 (wrap32 (Ialfa_est c - hC1 c * hIalfa) + hC2 c * hIalfa_err)
                     + hC5 c * hValfa) - hC3 c * hBemf_alfa_est p') /\
   Ibeta_est p'
   = wrap32 (wrap32 (wrap32 (wrap32 (Ibeta_est c - hC1 c * hIbeta) + hC2 c * hIbeta_err)
                     + hC5 c * hVbeta) - hC3 c * hBemf_beta_est p') /\
   wBemf_alfa_est p'
   = wrap32 (wrap32 (wBemf_alfa_est c + hC4 c * hIalfa_err) + cross (hBemf_beta_est p')) /\
   wBemf_beta_est p'
   = wrap32 (wrap32 (wBemf_beta_est c + hC4 c * hIbeta_err) - cross (hBemf_alfa_est p'))) /\
  STO_CalcElAngle misra pHandle pInputs = STO_CalcElAngle misra c pInputs.
Proof.
  intros H1 H2 c p' scale hIalfa hIbeta hIalfa_err hIbeta_err hValfa hVbeta cross.
  subst c p' scale hIalfa hIbeta hIalfa_err hIbeta_err hValfa hVbeta cross. cbv beta.
  split.
  { repeat split; unfold STO_clamp_estimates; sto_simpl;
      apply clamp_estimate_within; assumption. }
  destruct pHandle as [sup c1 c2 c3 c4 c5 c6 f1 f2 f3 f3p f1l f2l pid ia ib ea eb].
  cbn [hF1 hF2] in H1, H2.
  pose proof (clamp_estimate_idem ea f2 H2) as Ea.
  pose proof (clamp_estimate_idem eb f2 H2) as Eb.
  pose proof (clamp_estimate_idem ia f1 H1) as Ia.
  pose proof (clamp_estimate_idem ib f1 H1) as Ib.
  unfold clamp_estimate in Ea, Eb, Ia, Ib.
  split; [| split].
  - unfold STO_clamp_estimates, clamp_estimate. sto_eval.
    rewrite (Z.mul_comm f2 INT16_MAX). split; reflexivity.
  - unfold STO_clamp_estimates, clamp_estimate. sto_eval.
    rewrite (Z.mul_comm f2 INT16_MAX). repeat split; reflexivity.
  - sto_eval. rewrite (Z.mul_comm f2 INT16_MAX).
    rewrite !Ea, !Eb, !Ia, !Ib.
    reflexivity.
Qed.

End ObserverStep.

(** The clamp at work: with both scaling factors 2^14 and a stored alfa
    back-EMF of 40000 * F2, above the clamp, the step consumes 32767 * F2
    and publishes 32767 (the unclamped value would give -25536). *)
Lemma STO_CalcElAngle_clamps_on_entry_witness :
  0 < hF1 overdriven_handle /\ 0 < hF2 overdriven_handle /\
  wBemf_alfa_est overdriven_handle = 40000 * 16384 /\
  wBemf_alfa_est (STO_clamp_estimates overdriven_handle) = 32767 * 16384 /\
  hBemf_alfa_est (fst (STO_CalcElAngle false overdriven_handle braking_inputs)) = 32767 /\
  STO_CalcElAngle false overdriven_handle braking_inputs
  = STO_CalcElAngle false (STO_clamp_estimates overdriven_handle) braking_inputs.
Proof.
  split; [reflexivity | split; [reflexivity |]].
  split; [reflexivity | split; [reflexivity |]].
  destruct (STO_CalcElAngle_clamps_on_entry false overdriven_handle braking_inputs)
    as (_ & (A & _) & _ & E); [reflexivity .. |].
  split; [exact A | exact E].
Defined.

(** C1 as first stated fails: from a handle whose estimates are all within
    their clamp ranges (the alfa back-EMF exactly on its upper clamp), one
    step with measured alfa current -1000 stores an alfa back-EMF estimate
    above INT16_MAX*F2. *)
Lemma STO_CalcElAngle_stores_unclamped :
  within_clamp (wBemf_alfa_est saturated_handle) (hF2 saturated_handle) /\
  wBemf_alfa_est (fst (STO_CalcElAngle false saturated_handle braking_inputs)) = 539854528 /\
  INT16_MAX * hF2 (fst (STO_CalcElAngle false saturated_handle braking_inputs)) = 536854528 /\
  ~ within_clamp
      (wBemf_alfa_est (fst (STO_CalcElAngle false saturated_handle braking_inputs)))
      (hF2 (fst (STO_CalcElAngle false saturated_handle braking_inputs))).
Proof.
  split; [vm_compute; split; discriminate |].
  split; [vm_compute; reflexivity |].
  split; [vm_compute; reflexivity |].
  vm_compute. intros [_ H]. apply H. reflexivity.
Qed.

(** C2 as first stated fails: at angle 0 (cosine 32767, sine 0), direction
    +1 and 16-bit estimates (0, 100), the regulator (whose state records the
    error it was given) receives -100 in the shift form and -99 in the MISRA
    form, where the formula of the design document gives 99. *)
Lemma STO_CalcElAngle_PLL_error_sign :
  hBemf_alfa_est (fst (STO_CalcElAngle false pll_handle idle_inputs)) = 0 /\
  hBemf_beta_est (fst (STO_CalcElAngle false pll_handle idle_inputs)) = 100 /\
  STO_direction pll_handle = 1 /\
  @MCM_Trig_Functions probe_lib (hElAngle (_Super pll_handle))
  = {| hCos := 32767; hSin := 0 |} /\
  PIRegulator (fst (STO_CalcElAngle false pll_handle idle_inputs)) = -100 /\
  PIRegulator (fst (STO_CalcElAngle true pll_handle idle_inputs)) = -99 /\
  err_pll_spec 0 100 1 {| hCos := 32767; hSin := 0 |} = 99.
Proof.
  repeat split.
Qed.

(** ** Feed-forward low-pass filter *)

Ltac ff_simpl :=
  cbn [FF.wConstant_1D FF.wConstant_1Q FF.wConstant_2 FF.wDefConstant_1D FF.wDefConstant_1Q
       FF.wDefConstant_2 FF.pBus_Sensor FF.pPID_d FF.pPID_q FF.Vqdff FF.VqdPIout FF.VqdAvPIout
       FF.pParams_str FF.hVqdLowPassFilterBWLOG FF.hVqdLowPassFilterBW
       FF.set_wConstant_1D FF.set_wConstant_1Q FF.set_wConstant_2 FF.set_pBus_Sensor
       FF.set_pPID_d FF.set_pPID_q FF.set_Vqdff FF.set_VqdPIout FF.set_VqdAvPIout
       qV_Component1 qV_Component2 set_qV_Component1 set_qV_Component2 fst snd].

(** One step of the single-pole filter on one component, division form. *)
Lemma lowpass_quot (N a v : Z) :
  1 <= N <= 32767 -> in_s16 a -> in_s16 v ->
  let a' := wrap16 (Z.quot (wrap32 (a * (N - 1) + v)) N) in
  FF.moves_toward a a' v /\ FF.decays N a a' v.
Proof.
  intros HN Ha Hv a'; subst a'; unfold in_s16, FF.moves_toward, FF.decays in *.
  rewrite wrap32_small by (unfold in_s32; nia).
  set (S := a * (N - 1) + v).
  pose proof (Z.quot_rem' S N) as E.
  assert (HR : Z.abs (Z.rem S N) < N /\ 0 <= Z.rem S N * S).
  { pose proof (Z.rem_bound_abs S N ltac:(lia)).
    pose proof (Z.rem_sign_mul S N ltac:(lia)). lia. }
  set (q := Z.quot S N) in *. set (r := Z.rem S N) in *.
  assert (Hq : (a <= q <= v \/ v <= q <= a)) by (subst S; nia).
  rewrite wrap16_small by (unfold in_s16; lia).
  split; [exact Hq|].
  assert (K : N * (v - q) = (N - 1) * (v - a) + r) by (subst S; lia).
  assert (Kr : - (N - 1) <= r <= N - 1) by lia.
  clear E HR.
  destruct (Z.abs_spec (v - q)) as [[? ->] | [? ->]];
    destruct (Z.abs_spec (v - a)) as [[? ->] | [? ->]]; nia.
Qed.

(** The same step, shift form. *)
Lemma lowpass_shift (L a v : Z) :
  0 <= L -> 1 <= 2 ^ L <= 32767 -> in_s16 a -> in_s16 v ->
  let N := 2 ^ L in
  let a' := wrap16 (Z.shiftr (wrap32 (wrap32 (Z.shiftl a L) - a + v)) L) in
  FF.moves_toward a a' v /\ FF.decays N a a' v.
Proof.
  intros HL HN Ha Hv N a'; subst a'; unfold in_s16, FF.moves_toward, FF.decays in *.
  rewrite Z.shiftl_mul_pow2 by assumption. fold N.
  rewrite (wrap32_small (a * N)) by (unfold in_s32; nia).
  rewrite wrap32_small by (unfold in_s32; nia).
  rewrite Z.shiftr_div_pow2 by assumption. fold N.
  set (S := a * N - a + v).
  pose proof (Z.div_mod S N ltac:(lia)) as E.
  pose proof (Z.mod_pos_bound S N ltac:(lia)) as HR.
  set (q := S / N) in *. set (r := S mod N) in *.
  assert (Hq : (a <= q <= v \/ v <= q <= a)) by (subst S; nia).
  rewrite wrap16_small by (unfold in_s16; lia).
  split; [exact Hq|].
  assert (K : N * (v - q) = (N - 1) * (v - a) + r) by (subst S; lia).
  assert (Kr : - (N - 1) <= r <= N - 1) by lia.
  clear E HR.
  destruct (Z.abs_spec (v - q)) as [[? ->] | [? ->]];
    destruct (Z.abs_spec (v - a)) as [[? ->] | [? ->]]; nia.
Qed.

(** A value between two 16-bit values is a 16-bit value. *)
Lemma moves_toward_s16 (a a' v : Z) :
  in_s16 a -> in_s16 v -> FF.moves_toward a a' v -> in_s16 a'.
Proof. unfold in_s16, FF.moves_toward; lia. Qed.

Section LowPass.
Context {lib : MCLib}.

(** What FF_DataProcess leaves alone, and what it does to each component. *)
Lemma FF_DataProcess_step (misra : bool) (pHandle : FF.FF_Handle_t) :
  1 <= FF.FF_bandwidth misra pHandle <= 32767 ->
  0 <= FF.hVqdLowPassFilterBWLOG pHandle ->
  in_s16 (qV_Component1 (FF.VqdPIout pHandle)) ->
  in_s16 (qV_Component2 (FF.VqdPIout pHandle)) ->
  in_s16 (qV_Component1 (FF.VqdAvPIout pHandle)) ->
  in_s16 (qV_Component2 (FF.VqdAvPIout pHandle)) ->
  let p' := FF.FF_DataProcess misra pHandle in
  FF.pParams_str p' = FF.pParams_str pHandle /\
  FF.hVqdLowPassFilterBWLOG p' = FF.hVqdLowPassFilterBWLOG pHandle /\
  FF.VqdPIout p' = FF.VqdPIout pHandle /\
  (FF.moves_toward (qV_Component1 (FF.VqdAvPIout pHandle))
     (qV_Component1 (FF.VqdAvPIout p')) (qV_Component1 (FF.VqdPIout pHandle)) /\
   FF.decays (FF.FF_bandwidth misra pHandle) (qV_Component1 (FF.VqdAvPIout pHandle))
     (qV_Component1 (FF.VqdAvPIout p')) (qV_Component1 (FF.VqdPIout pHandle))) /\
  (FF.moves_toward (qV_Component2 (FF.VqdAvPIout pHandle))
     (qV_Component2 (FF.VqdAvPIout p')) (qV_Component2 (FF.VqdPIout pHandle)) /\
   FF.decays (FF.FF_bandwidth misra pHandle) (qV_Component2 (FF.VqdAvPIout pHandle))
     (qV_Component2 (FF.VqdAvPIout p')) (qV_Component2 (FF.VqdPIout pHandle))).
Proof.
  intros HN HL Hp1 Hp2 Ha1 Ha2 p'; subst p'.
  unfold FF.FF_bandwidth in *. destruct misra; unfold FF.FF_DataProcess; ff_simpl.
  - repeat split; try reflexivity; apply lowpass_quot; assumption.
  - repeat split; try reflexivity; apply lowpass_shift; assumption.
Qed.

(** C6 (as amended).  For a bandwidth N in [1, 32767] (N = 2^LOG in the shift
    form) and 16-bit values, with VqdPIout held at v, every further call of
    FF_DataProcess leaves each component of VqdAvPIout between its previous
    value and v, so that it never moves away from v nor past it, and the
    error obeys
      (N - 1) * (|v - V_avg| - 1) <= N * |v - V_avg'| <= (N - 1) * (|v - V_avg| + 1):
    it is multiplied by the factor (N-1)/N up to the rounding of the integer
    division, no more and no less. *)
Theorem FF_DataProcess_decay (misra : bool) (pHandle : FF.FF_Handle_t) (n : nat) :
  1 <= FF.FF_bandwidth misra pHandle <= 32767 ->
  0 <= FF.hVqdLowPassFilterBWLOG pHandle ->
  in_s16 (qV_Component1 (FF.VqdPIout pHandle)) ->
  in_s16 (qV_Component2 (FF.VqdPIout pHandle)) ->
  in_s16 (qV_Component1 (FF.VqdAvPIout pHandle)) ->
  in_s16 (qV_Component2 (FF.VqdAvPIout pHandle)) ->
  let N := FF.FF_bandwidth misra pHandle in
  let v := FF.VqdPIout pHandle in
  let p := FF.FF_DataProcess_n misra n pHandle in
  let p' := FF.FF_DataProcess misra p in
  FF.VqdPIout p = v /\ FF.VqdPIout p' = v /\
  FF.moves_toward (qV_Component1 (FF.VqdAvPIout p)) (qV_Component1 (FF.VqdAvPIout p'))
    (qV_Component1 v) /\
  FF.decays N (qV_Component1 (FF.VqdAvPIout p)) (qV_Component1 (FF.VqdAvPIout p'))
    (qV_Component1 v) /\
  FF.moves_toward (qV_Component2 (FF.VqdAvPIout p)) (qV_Component2 (FF.VqdAvPIout p'))
    (qV_Component2 v) /\
  FF.decays N (qV_Component2 (FF.VqdAvPIout p)) (qV_Component2 (FF.VqdAvPIout p'))
    (qV_Component2 v).
Proof.
  intros HN HL Hp1 Hp2 Ha1 Ha2 N v p p'.
  assert (Inv : FF.pParams_str p = FF.pParams_str pHandle /\
                FF.hVqdLowPassFilterBWLOG p = FF.hVqdLowPassFilterBWLOG pHandle /\
                FF.VqdPIout p = FF.VqdPIout pHandle /\
                in_s16 (qV_Component1 (FF.VqdAvPIout p)) /\
                in_s16 (qV_Component2 (FF.VqdAvPIout p))).
  { subst p. induction n as [|k IH]; [cbn; auto|].
    destruct IH as (I1 & I2 & I3 & I4 & I5).
    cbn [FF.FF_DataProcess_n].
    set (q := FF.FF_DataProcess_n misra k pHandle) in *.
    assert (HNq : FF.FF_bandwidth misra q = FF.FF_bandwidth misra pHandle)
      by (unfold FF.FF_bandwidth; rewrite I1, I2; reflexivity).
    destruct (FF_DataProcess_step misra q) as (S1 & S2 & S3 & (S4 & _) & (S5 & _));
      rewrite ?HNq, ?I2, ?I3; auto.
    rewrite S1, S2, S3, I1, I2, I3. repeat (split; [reflexivity|]). split.
    - eapply moves_toward_s16; [exact I4 | | exact S4]. rewrite I3. exact Hp1.
    - eapply moves_toward_s16; [exact I5 | | exact S5]. rewrite I3. exact Hp2. }
  destruct Inv as (I1 & I2 & I3 & I4 & I5).
  assert (HNp : FF.FF_bandwidth misra p = FF.FF_bandwidth misra pHandle)
    by (unfold FF.FF_bandwidth; rewrite I1, I2; reflexivity).
  destruct (FF_DataProcess_step misra p) as (S1 & S2 & S3 & (S4 & S4') & (S5 & S5'));
    rewrite ?HNp, ?I2, ?I3; auto.
  subst p' N v. rewrite HNp, I3 in *. rewrite S3. tauto.
Qed.

End LowPass.

(** The filter of bandwidth 4 settling towards (1000, -1000): its fourth
    call takes the first component from 577 to 682, the error from 423 to
    318, where 3 * 422 <= 4 * 318 <= 3 * 424. *)
Lemma FF_DataProcess_decay_witness :
  FF.FF_bandwidth false settling_ff_handle = 4 /\
  qV_Component1 (FF.VqdAvPIout (FF.FF_DataProcess_n false 3 settling_ff_handle)) = 577 /\
  qV_Component1
    (FF.VqdAvPIout (FF.FF_DataProcess false (FF.FF_DataProcess_n false 3 settling_ff_handle)))
  = 682 /\
  FF.moves_toward
    (qV_Component1 (FF.VqdAvPIout (FF.FF_DataProcess_n false 3 settling_ff_handle)))
    (qV_Component1
       (FF.VqdAvPIout (FF.FF_DataProcess false (FF.FF_DataProcess_n false 3 settling_ff_handle))))
    1000 /\
  FF.decays 4
    (qV_Component1 (FF.VqdAvPIout (FF.FF_DataProcess_n false 3 settling_ff_handle)))
    (qV_Component1
       (FF.VqdAvPIout (FF.FF_DataProcess false (FF.FF_DataProcess_n false 3 settling_ff_handle))))
    1000.
Proof.
  split; [reflexivity |]. split; [reflexivity |]. split; [reflexivity |].
  destruct (FF_DataProcess_decay false settling_ff_handle 3) as (_ & _ & M & D & _);
    [vm_compute; try split; congruence .. |].
  split; [exact M | exact D].
Defined.

(** C6 as first stated fails: with bandwidth 4 and the regulator output held
    at (3, 3), an average of (0, 0) is a fixed point of FF_DataProcess in
    both forms: the error stays 3, does not shrink by 3/4 and never reaches
    0, however often the filter is called. *)
Lemma FF_DataProcess_stalls :
  FF.FF_bandwidth false stalled_ff_handle = 4 /\
  FF.FF_bandwidth true stalled_ff_handle = 4 /\
  FF.FF_DataProcess false stalled_ff_handle = stalled_ff_handle /\
  FF.FF_DataProcess true stalled_ff_handle = stalled_ff_handle /\
  (forall n : nat, FF.FF_DataProcess_n false n stalled_ff_handle = stalled_ff_handle) /\
  (forall n : nat, FF.FF_DataProcess_n true n stalled_ff_handle = stalled_ff_handle) /\
  qV_Component1 (FF.VqdPIout stalled_ff_handle)
  - qV_Component1 (FF.VqdAvPIout stalled_ff_handle) = 3.
Proof.
  assert (F : FF.FF_DataProcess false stalled_ff_handle = stalled_ff_handle)
    by reflexivity.
  assert (T : FF.FF_DataProcess true stalled_ff_handle = stalled_ff_handle)
    by reflexivity.
  repeat (split; [first [ reflexivity | assumption ] |]).
  split; [| split; [| reflexivity]].
  - induction n as [|k IH]; [reflexivity |].
    cbn [FF.FF_DataProcess_n]. rewrite IH. exact F.
  - induction n as [|k IH]; [reflexivity |].
    cbn [FF.FF_DataProcess_n]. rewrite IH. exact T.
Qed.

(** ** Speed buffer and rolling sum *)

(** Reads and writes of the array. *)
Lemma list_set_length (b : list Z) (n : nat) (v : Z) : length (list_set b n v) = length b.
Proof.
  revert n; induction b as [|x t IH]; intros [|n]; cbn; auto.
Qed.

Lemma nth_list_set_same (b : list Z) (n : nat) (v : Z) :
  (n < length b)%nat -> nth n (list_set b n v) 0 = v.
Proof.
  revert n; induction b as [|x t IH]; intros [|n] H; cbn in *; try lia; auto.
  apply IH; lia.
Qed.

Lemma nth_list_set_other (b : list Z) (n m : nat) (v : Z) :
  n <> m -> nth m (list_set b n v) 0 = nth m b 0.
Proof.
  revert n m; induction b as [|x t IH]; intros [|n] [|m] H; cbn; auto; try lia.
Qed.

Lemma buf_set_length (b : list Z) (i v : Z) : length (buf_set b i v) = length b.
Proof. apply list_set_length. Qed.

Lemma buf_get_set_same (b : list Z) (i v : Z) :
  0 <= i < Z.of_nat (length b) -> buf_get (buf_set b i v) i = v.
Proof.
  intros H; unfold buf_get, buf_set. apply nth_list_set_same. lia.
Qed.

Lemma buf_get_set_other (b : list Z) (i j v : Z) :
  0 <= i -> 0 <= j -> i <> j -> buf_get (buf_set b i v) j = buf_get b j.
Proof.
  intros Hi Hj H; unfold buf_get, buf_set. apply nth_list_set_other. lia.
Qed.

(** The sum of the newest samples, one sample more or one sample newer. *)
Lemma samples_sum_firstn_succ (k : nat) (h : list Z) :
  samples_sum (firstn (S k) h) = samples_sum (firstn k h) + nth k h 0.
Proof.
  revert h; induction k as [|k IH]; intros [|x t].
  - reflexivity.
  - cbn. lia.
  - reflexivity.
  - change (samples_sum (firstn (S (S k)) (x :: t))) with (x + samples_sum (firstn (S k) t)).
    change (samples_sum (firstn (S k) (x :: t))) with (x + samples_sum (firstn k t)).
    change (nth (S k) (x :: t) 0) with (nth k t 0).
    rewrite IH. lia.
Qed.

Lemma samples_sum_firstn_cons (k : nat) (x : Z) (h : list Z) :
  samples_sum (firstn (S k) (x :: h)) = x + samples_sum (firstn k h).
Proof. reflexivity. Qed.

(** [n] 16-bit samples sum to at most [n] times a 16-bit bound. *)
Lemma samples_sum_firstn_bounds (n : nat) (h : list Z) :
  Forall in_s16 h ->
  -32768 * Z.of_nat n <= samples_sum (firstn n h) <= 32767 * Z.of_nat n.
Proof.
  revert h; induction n as [|n IH]; intros h Hh.
  - cbn. lia.
  - destruct h as [|x t]; [cbn; lia|].
    rewrite samples_sum_firstn_cons. inversion Hh as [|? ? Hx Ht]; subst.
    specialize (IH t Ht). unfold in_s16 in Hx. lia.
Qed.

(** Once the index has stepped forward in the ring, walking back [j >= 1]
    entries from it leads where walking back [j - 1] entries led before, and
    never to the new index itself. *)
Lemma mod_back (n i j : Z) :
  0 < n -> 0 <= i < n -> 1 <= j < n ->
  let i' := if i + 1 =? n then 0 else i + 1 in
  (i' - j) mod n = (i - (j - 1)) mod n /\ (i - (j - 1)) mod n <> i'.
Proof.
  intros Hn Hi Hj i'.
  assert (E : (i' - j) mod n = (i - (j - 1)) mod n).
  { subst i'. destruct (Z.eqb_spec (i + 1) n) as [e|e].
    - replace (0 - j) with (i - (j - 1) + (-1) * n) by lia.
      apply Z.mod_add. lia.
    - f_equal. lia. }
  split; [exact E|].
  rewrite <- E. intros C.
  pose proof (Z.div_mod (i' - j) n ltac:(lia)) as D. rewrite C in D.
  assert (0 <= i' < n) by (subst i'; destruct (Z.eqb_spec (i + 1) n); lia).
  set (q := (i' - j) / n) in *.
  assert (Hq : - j = n * q) by lia.
  assert (q < 0) by nia. assert (-1 < q) by nia. lia.
Qed.

Section SpeedBuffer.
Context {lib : MCLib}.

(** Storing a sample keeps the buffer in step with the history, and the
    snapshot taken is the entry that the sample replaced. *)
Lemma STO_Store_Rotor_Speed_holds (pHandle : STO_Handle_t) (h : list Z) (x : Z) :
  buffer_holds pHandle h -> in_s16 x ->
  let p1 := STO_Store_Rotor_Speed pHandle x in
  buffer_holds p1 (x :: h) /\
  SpeedBufferOldestEl p1 = nth (Z.to_nat (SpeedBufferSize01Hz pHandle - 1)) h 0 /\
  STO_newest_sample p1 = x.
Proof.
  intros (Hn & H255 & Hlen & Hidx & Hh & Hb) Hx p1; subst p1.
  unfold STO_Store_Rotor_Speed, buffer_holds, STO_newest_sample in *. sto_simpl.
  set (n := SpeedBufferSize01Hz pHandle) in *.
  set (i := Speed_Buffer_Index pHandle) in *.
  rewrite (wrap_u8_small (i + 1)) by lia.
  set (i' := if i + 1 =? n then 0 else i + 1).
  assert (Hi' : 0 <= i' < n) by (subst i'; destruct (Z.eqb_spec (i + 1) n); lia).
  assert (Hold : buf_get (Speed_Buffer pHandle) i' = nth (Z.to_nat (n - 1)) h 0).
  { rewrite <- (Hb (n - 1)) by lia. f_equal.
    subst i'. destruct (Z.eqb_spec (i + 1) n) as [e|e].
    - replace (i - (n - 1)) with 0 by lia. symmetry; apply Z.mod_0_l; lia.
    - replace (i - (n - 1)) with (i + 1 + (-1) * n) by lia.
      rewrite Z.mod_add by lia. symmetry; apply Z.mod_small; lia. }
  repeat split; try lia; auto.
  - rewrite buf_set_length. exact Hlen.
  - intros j Hj. destruct (Z.eq_dec j 0) as [->|Hj0].
    + rewrite Z.sub_0_r, Z.mod_small by lia. cbn [Z.to_nat nth].
      apply buf_get_set_same. lia.
    + destruct (mod_back n i j ltac:(lia) Hidx ltac:(lia)) as [E NE].
      fold i' in E, NE. rewrite E.
      rewrite buf_get_set_other; try lia.
      * rewrite Hb by lia.
        replace (Z.to_nat j) with (S (Z.to_nat (j - 1))) by lia. reflexivity.
      * apply Z.mod_pos_bound; lia.
  - apply buf_get_set_same. lia.
Qed.


(** The averaging call right after a store brings the rolling sum up to date
    and publishes its quotient by the depth. *)
Lemma STO_CalcAvrgElSpeedDpp_holds (misra : bool) (pHandle : STO_Handle_t) (x : Z) (h : list Z) :
  buffer_holds pHandle (x :: h) ->
  SpeedBufferOldestEl pHandle = nth (Z.to_nat (SpeedBufferSize01Hz pHandle - 1)) h 0 ->
  sum_holds pHandle h ->
  (misra = false ->
   0 <= SpeedBufferSizedppLOG pHandle /\
   SpeedBufferSizedpp pHandle = 2 ^ SpeedBufferSizedppLOG pHandle) ->
  let p2 := STO_CalcAvrgElSpeedDpp misra pHandle in
  let S := samples_sum (firstn (Z.to_nat (SpeedBufferSizedpp pHandle)) (x :: h)) in
  buffer_holds p2 (x :: h) /\ sum_holds p2 (x :: h) /\
  hElSpeedDpp (_Super p2) =
    (if misra then Z.quot S (SpeedBufferSizedpp pHandle) else S / SpeedBufferSizedpp pHandle) /\
  SpeedBufferSizedpp p2 = SpeedBufferSizedpp pHandle /\
  SpeedBufferSizedppLOG p2 = SpeedBufferSizedppLOG pHandle.
Proof.
  intros Hbuf Hold Hsum Hshift p2 S; subst p2.
  pose proof Hbuf as (Hn & H255 & Hlen & Hidx & Hh & Hb).
  unfold buffer_holds, sum_holds in *.
  unfold STO_CalcAvrgElSpeedDpp. sto_simpl.
  set (n := SpeedBufferSize01Hz pHandle) in *.
  set (d := SpeedBufferSizedpp pHandle) in *.
  set (i := Speed_Buffer_Index pHandle) in *.
  rewrite (wrap16_small i), (wrap16_small d), (wrap16_small n) by (unfold in_s16; lia).
  rewrite (wrap16_small (n - d)) by (unfold in_s16; lia).
  assert (Hx : in_s16 x /\ Forall in_s16 h) by (inversion Hh; auto).
  destruct Hx as [Hx Hh'].
  assert (Hnew : buf_get (Speed_Buffer pHandle) i = x).
  { specialize (Hb 0 ltac:(lia)). rewrite Z.sub_0_r, Z.mod_small in Hb by lia. exact Hb. }
  assert (HS : S = DppBufferSum pHandle + x - nth (Z.to_nat (d - 1)) h 0).
  { subst S. replace (Z.to_nat d) with (Datatypes.S (Z.to_nat (d - 1))) by lia.
    rewrite samples_sum_firstn_cons. rewrite Hsum.
    replace (Z.to_nat d) with (Datatypes.S (Z.to_nat (d - 1))) by lia.
    rewrite samples_sum_firstn_succ. lia. }
  assert (HSb : -32768 * d <= S <= 32767 * d).
  { subst S. pose proof (samples_sum_firstn_bounds (Z.to_nat d) (x :: h) Hh). lia. }
  set (wSum := if n - d =? 0 then _ else _).
  assert (HwSum : wSum = S).
  { subst wSum. rewrite HS in *. rewrite Hnew.
    destruct (Z.eqb_spec (n - d) 0) as [e|e].
    - rewrite Hold. replace (n - 1) with (d - 1) by lia.
      apply wrap32_small. unfold in_s32. lia.
    - rewrite (wrap16_small (i + (n - d))) by (unfold in_s16; lia).
      assert (Ho : buf_get (Speed_Buffer pHandle)
                     (if i + (n - d) >=? n then wrap16 (i + (n - d) - n) else i + (n - d))
                   = nth (Z.to_nat (d - 1)) h 0).
      { assert (E1 : nth (Z.to_nat d) (x :: h) 0 = nth (Z.to_nat (d - 1)) h 0)
          by (replace (Z.to_nat d) with (Datatypes.S (Z.to_nat (d - 1))) by lia;
              reflexivity).
        rewrite <- E1, <- (Hb d) by lia. f_equal.
        destruct (Z.geb_spec (i + (n - d)) n).
        - rewrite wrap16_small by (unfold in_s16; lia).
          replace (i + (n - d) - n) with (i - d) by lia.
          symmetry. apply Z.mod_small. lia.
        - replace (i - d) with (i + (n - d) + (-1) * n) by lia.
          rewrite Z.mod_add by lia. symmetry. apply Z.mod_small. lia. }
      rewrite Ho. apply wrap32_small. unfold in_s32. lia. }
  rewrite HwSum.
  repeat split; auto; try lia.
  destruct misra.
  - apply wrap16_small. unfold in_s16. apply quot_bounds; lia.
  - destruct (Hshift eq_refl) as [Hlog Hpow].
    fold d in Hpow. rewrite Z.shiftr_div_pow2 by assumption. rewrite <- Hpow.
    apply wrap16_small. unfold in_s16. split.
    + apply Z.div_le_lower_bound; lia.
    + apply Z.lt_succ_r. apply Z.div_lt_upper_bound; lia.
Qed.

(** The speed buffer after an observer step is the buffer after storing
    the output of the regulator. *)
Lemma STO_CalcElAngle_stores (misra : bool) (pHandle : STO_Handle_t)
    (pInputs : Observer_Inputs_t) :
  let p1 := fst (STO_CalcElAngle misra pHandle pInputs) in
  let x :=
    snd (PI_Controller (PIRegulator pHandle)
           (err_pll_code misra (hBemf_alfa_est p1) (hBemf_beta_est p1)
              (STO_direction pHandle) (MCM_Trig_Functions (hElAngle (_Super pHandle))))) in
  let q1 := STO_Store_Rotor_Speed pHandle x in
  Speed_Buffer p1 = Speed_Buffer q1 /\
  Speed_Buffer_Index p1 = Speed_Buffer_Index q1 /\
  SpeedBufferOldestEl p1 = SpeedBufferOldestEl q1 /\
  SpeedBufferSize01Hz p1 = SpeedBufferSize01Hz pHandle /\
  SpeedBufferSizedpp p1 = SpeedBufferSizedpp pHandle /\
  SpeedBufferSizedppLOG p1 = SpeedBufferSizedppLOG pHandle /\
  DppBufferSum p1 = DppBufferSum pHandle.
Proof.
  intros p1 x q1; subst p1 x q1. sto_eval. repeat split.
Qed.

(** [buffer_holds] reads four fields of the handle only. *)
Lemma buffer_holds_ext (p q : STO_Handle_t) (h : list Z) :
  Speed_Buffer p = Speed_Buffer q ->
  Speed_Buffer_Index p = Speed_Buffer_Index q ->
  SpeedBufferSize01Hz p = SpeedBufferSize01Hz q ->
  SpeedBufferSizedpp p = SpeedBufferSizedpp q ->
  buffer_holds q h -> buffer_holds p h.
Proof.
  unfold buffer_holds; intros -> -> -> ->; auto.
Qed.

(** The loop of STO_InitSpeedBuffer zeroes the entries it visits and leaves
    the other entries, the length and the sizes alone. *)
Lemma init_loop_spec (l : list nat) (p : STO_Handle_t) :
  let p' := fold_left
              (fun a i => set_Speed_Buffer (buf_set (Speed_Buffer a) (Z.of_nat i) 0) a) l p in
  length (Speed_Buffer p') = length (Speed_Buffer p) /\
  (forall i, In i l -> (i < length (Speed_Buffer p))%nat -> nth i (Speed_Buffer p') 0 = 0) /\
  (forall i, nth i (Speed_Buffer p) 0 = 0 -> nth i (Speed_Buffer p') 0 = 0) /\
  SpeedBufferSize01Hz p' = SpeedBufferSize01Hz p /\
  SpeedBufferSizedpp p' = SpeedBufferSizedpp p /\
  SpeedBufferSizedppLOG p' = SpeedBufferSizedppLOG p /\
  DppBufferSum p' = DppBufferSum p.
Proof.
  revert p; induction l as [|a l IH]; intros p; cbn [fold_left].
  - repeat split; auto. intros i [].
  - set (p1 := set_Speed_Buffer (buf_set (Speed_Buffer p) (Z.of_nat a) 0) p).
    destruct (IH p1) as (L & Z1 & Z2 & F1 & F2 & F3 & F4).
    assert (Lp : length (Speed_Buffer p1) = length (Speed_Buffer p))
      by (subst p1; sto_simpl; apply buf_set_length).
    assert (Keep : forall i, nth i (Speed_Buffer p) 0 = 0 -> nth i (Speed_Buffer p1) 0 = 0).
    { intros i Hi. subst p1; sto_simpl. unfold buf_set. rewrite Nat2Z.id.
      destruct (Nat.eq_dec a i) as [->|ne].
      - destruct (Nat.lt_ge_cases i (length (Speed_Buffer p))).
        + apply nth_list_set_same; assumption.
        + apply nth_overflow. rewrite list_set_length. assumption.
      - rewrite nth_list_set_other; assumption. }
    split; [rewrite L; exact Lp |].
    split; [| split; [| rewrite F1, F2, F3, F4; subst p1; sto_simpl; repeat split]].
    + intros i [->|Hin] Hi.
      * apply Z2. subst p1; sto_simpl. unfold buf_set. rewrite Nat2Z.id.
        apply nth_list_set_same; assumption.
      * apply Z1; [assumption | rewrite Lp; assumption].
    + intros i Hi. apply Z2, Keep, Hi.
Qed.

(** A cleared handle holds the empty history. *)
Lemma STO_Clear_holds (pHandle : STO_Handle_t) :
  1 <= SpeedBufferSizedpp pHandle <= SpeedBufferSize01Hz pHandle ->
  SpeedBufferSize01Hz pHandle <= 255 ->
  SpeedBufferSize01Hz pHandle <= Z.of_nat (length (Speed_Buffer pHandle)) ->
  let c := STO_Clear pHandle in
  buffer_holds c [] /\ sum_holds c [] /\
  SpeedBufferSizedpp c = SpeedBufferSizedpp pHandle /\
  SpeedBufferSizedppLOG c = SpeedBufferSizedppLOG pHandle.
Proof.
  intros Hn H255 Hlen c; subst c.
  unfold STO_Clear, STO_InitSpeedBuffer, for_upto. sto_simpl.
  match goal with |- context [fold_left ?f ?l ?p] =>
    pose proof (init_loop_spec l p) as (L & Z1 & _ & F1 & F2 & F3 & F4);
    set (p' := fold_left f l p) in *
  end.
  sto_simpl_in L; sto_simpl_in Z1; sto_simpl_in F1; sto_simpl_in F2; sto_simpl_in F3;
  sto_simpl_in F4.
  unfold buffer_holds, sum_holds. sto_simpl. rewrite F1, F2, F3, F4, L.
  repeat split; try lia; auto.
  - intros j Hj. unfold buf_get.
    pose proof (Z.mod_pos_bound (0 - j) (SpeedBufferSize01Hz pHandle) ltac:(lia)).
    rewrite Z1.
    + destruct (Z.to_nat j); reflexivity.
    + apply in_seq. lia.
    + lia.
  - rewrite firstn_nil. reflexivity.
Qed.

Section Run.
Hypothesis PI_s16 : forall pid e, in_s16 (snd (PI_Controller pid e)).
Variables (misra : bool) (d lg : Z).
Hypothesis Hshift : misra = false -> 0 <= lg /\ d = 2 ^ lg.

(** One tick keeps the invariant and publishes the new average. *)
Lemma STO_tick_holds (st : STO_Handle_t * list Z) (pInputs : Observer_Inputs_t) :
  fifo_inv d lg st ->
  let st' := STO_tick misra st pInputs in
  fifo_inv d lg st' /\ published misra d st' /\
  length (snd st') = S (length (snd st)).
Proof.
  destruct st as [p h]. unfold fifo_inv, published, STO_tick; cbn [fst snd].
  intros (Hb & Hs & Hd & Hl).
  pose proof (STO_CalcElAngle_stores misra p pInputs) as F. cbv zeta in F.
  set (p1 := fst (STO_CalcElAngle misra p pInputs)) in *.
  set (x := snd (PI_Controller _ _)) in F.
  assert (Hx : in_s16 x) by apply PI_s16.
  destruct F as (F1 & F2 & F3 & F4 & F5 & F6 & F7).
  destruct (STO_Store_Rotor_Speed_holds p h x Hb Hx) as (Q1 & Q2 & Q3).
  set (q1 := STO_Store_Rotor_Speed p x) in *.
  assert (Q4 : SpeedBufferSize01Hz q1 = SpeedBufferSize01Hz p) by reflexivity.
  assert (Q5 : SpeedBufferSizedpp q1 = SpeedBufferSizedpp p) by reflexivity.
  assert (B1 : buffer_holds p1 (x :: h)).
  { apply (buffer_holds_ext p1 q1); congruence. }
  assert (N1 : STO_newest_sample p1 = x).
  { unfold STO_newest_sample in *. rewrite F1, F2. exact Q3. }
  assert (O1 : SpeedBufferOldestEl p1
               = nth (Z.to_nat (SpeedBufferSize01Hz p1 - 1)) h 0)
    by (rewrite F3, F4; exact Q2).
  assert (S1 : sum_holds p1 h) by (unfold sum_holds in *; rewrite F7, F5; exact Hs).
  destruct (STO_CalcAvrgElSpeedDpp_holds misra p1 x h B1 O1 S1) as (A1 & A2 & A3 & A4 & A5).
  { rewrite F5, F6, Hd, Hl. exact Hshift. }
  rewrite N1. rewrite A4, A5, A3, F5, F6, Hd.
  split; [split; [exact A1 | split; [exact A2 | split; [reflexivity | exact Hl]]] |].
  split; reflexivity.
Qed.

(** So does any number of ticks. *)
Lemma STO_run_holds (inputs : list Observer_Inputs_t) (st : STO_Handle_t * list Z) :
  fifo_inv d lg st ->
  let st' := STO_run misra inputs st in
  fifo_inv d lg st' /\
  length (snd st') = (length inputs + length (snd st))%nat /\
  (inputs <> [] -> published misra d st').
Proof.
  revert st; induction inputs as [|i rest IH]; intros st Hinv; cbn [STO_run fold_left].
  - split; [exact Hinv | split; [reflexivity | congruence]].
  - destruct (STO_tick_holds st i Hinv) as (T1 & T2 & T3).
    specialize (IH _ T1). cbv zeta in IH. unfold STO_run in IH.
    destruct IH as (I1 & I2 & I3).
    split; [exact I1 | split].
    + rewrite I2, T3. cbn [length]. lia.
    + intros _. destruct rest as [|j rest']; [exact T2 | apply I3; discriminate].
Qed.
End Run.

(** C5.  From a cleared handle with buffer sizes 1 <= Ndpp <= N01Hz <= 255
    inside the array (and Ndpp = 2^LOG where the shift form is compiled), and
    a regulator whose output is a 16-bit value: after k >= Ndpp ticks, each an observer step (which stores one
    speed sample) followed by an averaging call, the k stored samples are in
    the buffer in the order they were stored, DppBufferSum is the sum of the
    Ndpp newest of them, and hElSpeedDpp is that sum divided by Ndpp (by
    truncating division in the MISRA form, by the shift, i.e. flooring
    division, otherwise).  The size hypotheses cover N01Hz = Ndpp, where the
    sample that leaves the window is the oldest-element snapshot, as well as
    N01Hz > Ndpp, where it is read from the buffer. *)
Theorem STO_rolling_sum (misra : bool) (pHandle : STO_Handle_t)
    (inputs : list Observer_Inputs_t) :
  (forall pid e, in_s16 (snd (PI_Controller pid e))) ->
  1 <= SpeedBufferSizedpp pHandle <= SpeedBufferSize01Hz pHandle ->
  SpeedBufferSize01Hz pHandle <= 255 ->
  SpeedBufferSize01Hz pHandle <= Z.of_nat (length (Speed_Buffer pHandle)) ->
  (misra = false ->
   0 <= SpeedBufferSizedppLOG pHandle /\
   SpeedBufferSizedpp pHandle = 2 ^ SpeedBufferSizedppLOG pHandle) ->
  (Z.to_nat (SpeedBufferSizedpp pHandle) <= length inputs)%nat ->
  let st := STO_run misra inputs (STO_Clear pHandle, []) in
  let recent := firstn (Z.to_nat (SpeedBufferSizedpp pHandle)) (snd st) in
  length (snd st) = length inputs /\
  length recent = Z.to_nat (SpeedBufferSizedpp pHandle) /\
  buffer_holds (fst st) (snd st) /\
  DppBufferSum (fst st) = samples_sum recent /\
  hElSpeedDpp (_Super (fst st)) =
    (if misra then Z.quot (samples_sum recent) (SpeedBufferSizedpp pHandle)
     else samples_sum recent / SpeedBufferSizedpp pHandle).
Proof.
  intros HPI Hn H255 Hlen Hshift Hk st recent.
  destruct (STO_Clear_holds pHandle Hn H255 Hlen) as (C1 & C2 & C3 & C4).
  assert (Hinv : fifo_inv (SpeedBufferSizedpp pHandle) (SpeedBufferSizedppLOG pHandle)
                   (STO_Clear pHandle, [])) by (unfold fifo_inv; cbn [fst snd]; auto).
  destruct (STO_run_holds HPI misra _ _ Hshift inputs _ Hinv)
    as ((I1 & I2 & I3 & I4) & L & P).
  fold st in I1, I2, I3, I4, L, P. cbn [length] in L. rewrite Nat.add_0_r in L.
  assert (Hne : inputs <> []) by (intros ->; cbn in Hk; lia).
  specialize (P Hne). unfold published in P. cbv zeta in P.
  unfold sum_holds in I2. rewrite I3 in I2.
  subst recent.
  split; [exact L | split; [apply firstn_length_le; lia |]].
  split; [exact I1 | split; [exact I2 | exact P]].
Qed.
End SpeedBuffer.

(** The sample regulator saturates its output to 16 bits. *)
Lemma probe_PI_s16 (pid : @PID_Handle_t probe_lib) (e : Z) :
  in_s16 (snd (@PI_Controller probe_lib pid e)).
Proof.
  cbn [PI_Controller probe_lib snd]. unfold FF.SATURATION_TO_S16, in_s16.
  destruct (Z.gtb_spec e 32767); [lia |].
  destruct (Z.ltb_spec e (-32767)); lia.
Qed.

(** Seven ticks from a cleared handle, with a buffer of 8 averaged over 4
    (shift form) and with a buffer of 4 averaged over 4 (MISRA form). *)
Lemma STO_rolling_sum_witness :
  (let st := STO_run false (repeat load_inputs 7) (STO_Clear (sample_handle 8 4 2 32), []) in
   snd st = [-8; 6; 4; 2; 0; -183; 0] /\
   DppBufferSum (fst st) = samples_sum (firstn 4 (snd st))) /\
  (let st := STO_run true (repeat load_inputs 7) (STO_Clear (sample_handle 4 4 2 32), []) in
   DppBufferSum (fst st) = samples_sum (firstn 4 (snd st))).
Proof.
  split.
  - split; [vm_compute; reflexivity |].
    apply (STO_rolling_sum false (sample_handle 8 4 2 32) (repeat load_inputs 7));
      first [ exact probe_PI_s16 | vm_compute; try split; congruence | cbn; lia
            | intros _; vm_compute; repeat split; congruence ].
  - apply (STO_rolling_sum true (sample_handle 4 4 2 32) (repeat load_inputs 7));
      first [ exact probe_PI_s16 | vm_compute; try split; congruence | cbn; lia
            | intros _; vm_compute; repeat split; congruence ].
Defined.


(** ** The two arithmetic forms *)

(** C's division by 2^k against the arithmetic shift by k: equal on an exact
    operand, one apart otherwise. *)
Lemma quot_shiftr_exact (x k : Z) :
  0 <= k -> shift_exact x k -> Z.quot x (2 ^ k) = Z.shiftr x k.
Proof.
  intros Hk [Hx | [q ->]]; rewrite Z.shiftr_div_pow2 by assumption.
  - apply Z.quot_div_nonneg; [assumption | apply Z.pow_pos_nonneg; lia].
  - assert (0 < 2 ^ k) by (apply Z.pow_pos_nonneg; lia).
    rewrite Z.quot_mul, Z.div_mul by lia. reflexivity.
Qed.

Lemma quot_shiftr_inexact (x k : Z) :
  0 <= k -> ~ shift_exact x k -> Z.quot x (2 ^ k) = Z.shiftr x k + 1.
Proof.
  intros Hk Hn. unfold shift_exact in Hn.
  assert (Hp : 0 < 2 ^ k) by (apply Z.pow_pos_nonneg; lia).
  assert (Hx : x < 0) by lia.
  assert (Hd : x mod 2 ^ k <> 0).
  { intros E. apply Hn. right. apply Z.mod_divide; [lia | exact E]. }
  rewrite Z.shiftr_div_pow2 by assumption.
  replace x with (- (- x)) at 1 by lia. rewrite Z.quot_opp_l by lia.
  rewrite Z.quot_div_nonneg by lia.
  pose proof (Z.div_mod x (2 ^ k) ltac:(lia)) as E1.
  pose proof (Z.mod_pos_bound x (2 ^ k) Hp) as B1.
  pose proof (Z.div_mod (- x) (2 ^ k) ltac:(lia)) as E2.
  pose proof (Z.mod_pos_bound (- x) (2 ^ k) Hp) as B2.
  nia.
Qed.

(** Wrapping an intermediate 32-bit sum does not change the wrapped total. *)
Lemma wrap32_add_l (a b : Z) : wrap32 (wrap32 a + b) = wrap32 (a + b).
Proof.
  unfold wrap32. f_equal.
  replace (((a + 2147483648) mod 4294967296 - 2147483648 + b + 2147483648))
    with ((a + 2147483648) mod 4294967296 + b) by lia.
  rewrite Zplus_mod_idemp_l. f_equal. lia.
Qed.

Section DualPath.
Context {lib : MCLib}.

(** The two forms of each of the three functions agree on exact operands. *)
Lemma STO_CalcAvrgElSpeedDpp_forms (pHandle : STO_Handle_t) :
  STO_CalcAvrgElSpeedDpp_exact pHandle ->
  STO_CalcAvrgElSpeedDpp true pHandle = STO_CalcAvrgElSpeedDpp false pHandle.
Proof.
  intros (Hk & Hp & H255 & Hx).
  assert (Hd : 1 <= SpeedBufferSizedpp pHandle)
    by (rewrite Hp; pose proof (Z.pow_pos_nonneg 2 (SpeedBufferSizedppLOG pHandle)); lia).
  unfold STO_CalcAvrgElSpeedDpp in *. sto_simpl_in Hx. cbv zeta in *.
  rewrite (wrap16_small (SpeedBufferSizedpp pHandle)) in * by (unfold in_s16; lia).
  set (wSum := if _ =? 0 then _ else _) in *.
  assert (E : Z.quot wSum (SpeedBufferSizedpp pHandle)
              = Z.shiftr wSum (SpeedBufferSizedppLOG pHandle))
    by (rewrite Hp; apply quot_shiftr_exact; assumption).
  rewrite E. reflexivity.
Qed.

Lemma FF_DataProcess_forms (pHandle : FF.FF_Handle_t) :
  FF.FF_DataProcess_exact pHandle ->
  FF.FF_DataProcess true pHandle = FF.FF_DataProcess false pHandle.
Proof.
  unfold FF.FF_DataProcess_exact. cbv zeta. intros (Hk & Hp & H1 & H2).
  unfold FF.FF_DataProcess. cbv zeta. ff_simpl.
  set (lg := FF.hVqdLowPassFilterBWLOG pHandle) in *.
  assert (E : forall av pi,
             wrap32 (av * (2 ^ lg - 1) + pi) = wrap32 (wrap32 (Z.shiftl av lg) - av + pi)).
  { intros av pi. rewrite Z.shiftl_mul_pow2 by assumption.
    replace (wrap32 (av * 2 ^ lg) - av + pi) with (wrap32 (av * 2 ^ lg) + (pi - av)) by lia.
    rewrite wrap32_add_l. f_equal. lia. }
  rewrite Hp. rewrite !E.
  rewrite (quot_shiftr_exact _ _ Hk H1), (quot_shiftr_exact _ _ Hk H2). reflexivity.
Qed.

Lemma STO_CalcElAngle_forms (pHandle : STO_Handle_t) (pInputs : Observer_Inputs_t) :
  STO_pow2_scaling pHandle -> STO_CalcElAngle_exact pHandle pInputs ->
  STO_CalcElAngle true pHandle pInputs = STO_CalcElAngle false pHandle pInputs.
Proof.
  destruct pHandle as [sup c1 c2 c3 c4 c5 c6 f1 f2 f3 f3p f1l f2l pid ia ib ea eb].
  destruct sup as [ang dpp].
  unfold STO_pow2_scaling, STO_CalcElAngle_exact.
  intros ((K1 & P1) & (K2 & P2) & (K3 & P3)) X.
  cbn [hF1 hF2 hF3 F1LOG F2LOG F3POW2] in K1, P1, K2, P2, K3, P3.
  revert X. sto_eval. subst f1 f2 f3.
  intros (X1 & X2 & X3 & X4 & X5 & X6 & X7 & X8 & X9 & X10).
  rewrite (Z.mul_comm (2 ^ f2l) INT16_MAX).
  rewrite (quot_shiftr_exact _ _ K2 X1), (quot_shiftr_exact _ _ K2 X2).
  rewrite (quot_shiftr_exact _ _ K1 X3), (quot_shiftr_exact _ _ K1 X4).
  change 65536 with (2 ^ 16).
  rewrite (quot_shiftr_exact _ 16 ltac:(lia) X5), (quot_shiftr_exact _ 16 ltac:(lia) X6).
  rewrite (quot_shiftr_exact _ _ K3 X7), (quot_shiftr_exact _ _ K3 X8).
  change 32768 with (2 ^ 15).
  rewrite (quot_shiftr_exact _ 15 ltac:(lia) X9), (quot_shiftr_exact _ 15 ltac:(lia) X10).
  reflexivity.
Qed.

(** C4 (as amended).  For a handle whose divisors F1, F2, F3, the dpp buffer
    depth and the low-pass bandwidth are the powers of two that their
    logarithms name, the FULL_MISRA_C_COMPLIANCY division form and the shift
    form of STO_CalcElAngle (decimations, voltage reconstruction, F3 scaling
    and PLL products), of STO_CalcAvrgElSpeedDpp and of FF_DataProcess give
    the same handle whenever every shifted operand is non-negative or an
    exact multiple of its divisor.  (On a negative operand that is not a
    multiple the division rounds toward zero and the shift toward minus
    infinity: lemma [quot_shiftr_inexact].) *)
Theorem dual_path_forms_agree (pHandle : STO_Handle_t) (pInputs : Observer_Inputs_t)
    (pFF : FF.FF_Handle_t) :
  STO_pow2_scaling pHandle ->
  STO_CalcElAngle_exact pHandle pInputs ->
  STO_CalcAvrgElSpeedDpp_exact pHandle ->
  FF.FF_DataProcess_exact pFF ->
  STO_CalcElAngle true pHandle pInputs = STO_CalcElAngle false pHandle pInputs /\
  STO_CalcAvrgElSpeedDpp true pHandle = STO_CalcAvrgElSpeedDpp false pHandle /\
  FF.FF_DataProcess true pFF = FF.FF_DataProcess false pFF.
Proof.
  intros HP HX HA HF.
  split; [apply STO_CalcElAngle_forms; assumption |].
  split; [apply STO_CalcAvrgElSpeedDpp_forms; assumption |].
  apply FF_DataProcess_forms; assumption.
Qed.

End DualPath.

(** The dual-path scenario with exact operands, some of them negative. *)
Lemma dual_path_forms_agree_witness :
  STO_CalcElAngle true exact_handle idle_inputs = STO_CalcElAngle false exact_handle idle_inputs /\
  STO_CalcAvrgElSpeedDpp true exact_handle = STO_CalcAvrgElSpeedDpp false exact_handle /\
  FF.FF_DataProcess true settling_ff_handle = FF.FF_DataProcess false settling_ff_handle.
Proof.
  apply (dual_path_forms_agree exact_handle idle_inputs settling_ff_handle).
  - repeat split; vm_compute; congruence.
  - unfold STO_CalcElAngle_exact. cbv zeta.
    repeat split; try (left; vm_compute; congruence).
    + right. exists (-128). vm_compute. reflexivity.
    + right. exists (-2). vm_compute. reflexivity.
  - repeat split; try (vm_compute; congruence). left. vm_compute. congruence.
  - unfold FF.FF_DataProcess_exact. cbv zeta.
    repeat split; try (vm_compute; congruence).
    + left. vm_compute. congruence.
    + right. exists (-250). vm_compute. reflexivity.
Defined.

(** C4 as first stated fails on negative operands that are not multiples of
    the divisor.  With depth 4 = 2^2 and a rolling sum of -1 (one stored
    sample of -1), STO_CalcAvrgElSpeedDpp publishes 0 in the MISRA form and
    -1 in the shift form; with bandwidth 4 = 2^2, average 0 and regulator
    output -1, FF_DataProcess leaves 0 in the MISRA form and -1 in the shift
    form. *)
Lemma dual_path_forms_differ :
  STO_pow2_scaling odd_sum_handle /\
  SpeedBufferSizedpp odd_sum_handle = 2 ^ SpeedBufferSizedppLOG odd_sum_handle /\
  DppBufferSum (STO_CalcAvrgElSpeedDpp false odd_sum_handle) = -1 /\
  hElSpeedDpp (_Super (STO_CalcAvrgElSpeedDpp true odd_sum_handle)) = 0 /\
  hElSpeedDpp (_Super (STO_CalcAvrgElSpeedDpp false odd_sum_handle)) = -1 /\
  FF.hVqdLowPassFilterBW (FF.pParams_str odd_ff_handle)
  = 2 ^ FF.hVqdLowPassFilterBWLOG odd_ff_handle /\
  FF.VqdAvPIout (FF.FF_DataProcess true odd_ff_handle)
  = {| qV_Component1 := 0; qV_Component2 := 0 |} /\
  FF.VqdAvPIout (FF.FF_DataProcess false odd_ff_handle)
  = {| qV_Component1 := -1; qV_Component2 := -1 |}.
Proof.
  repeat split; vm_compute; congruence.
Qed.

(** * Further properties of the code *)

(** ** Initialisation of the observer *)

(** Reduction of the projections of a handle over every setter. *)
Ltac sto_norm :=
  cbn [fst snd
       hElAngle hElSpeedDpp hAvrMecSpeed01Hz hMecAccel01HzP bSpeedErrorNumber
       bMaximumSpeedErrorsNumber hMeasurementFrequency bElToMecRatio hMaxReliableMecSpeed01Hz
       _Super hC1 hC2 hC3 hC4 hC5 hC6 hF1 hF2 hF3 F3POW2 F1LOG F2LOG PIRegulator Ialfa_est
       Ibeta_est wBemf_alfa_est wBemf_beta_est hBemf_alfa_est hBemf_beta_est Speed_Buffer
       Speed_Buffer_Index IsSpeedReliable ConsistencyCounter ReliabilityCounter
       IsAlgorithmConverged IsBemfConsistent Obs_Bemf_Level Est_Bemf_Level EnableDualCheck
       DppBufferSum SpeedBufferOldestEl SpeedBufferSize01Hz SpeedBufferSizedpp
       SpeedBufferSizedppLOG VariancePercentage SpeedValidationBand_H SpeedValidationBand_L
       MinStartUpValidSpeed StartUpConsistThreshold Reliability_hysteresys BemfConsistencyCheck
       BemfConsistencyGain MaxAppPositiveMecSpeed01Hz ForceConvergency ForceConvergency2
       set_hElAngle set_hElSpeedDpp set_hAvrMecSpeed01Hz set_bSpeedErrorNumber
       set_hMecAccel01HzP set__Super
       set_hC2 set_hC4 set_hC6 set_hF3 set_F3POW2 set_EnableDualCheck set_MinStartUpValidSpeed
       set_PIRegulator set_Ialfa_est set_Ibeta_est set_wBemf_alfa_est
       set_wBemf_beta_est set_hBemf_alfa_est set_hBemf_beta_est set_Speed_Buffer
       set_Speed_Buffer_Index set_IsSpeedReliable set_ConsistencyCounter set_ReliabilityCounter
       set_IsAlgorithmConverged set_IsBemfConsistent set_Obs_Bemf_Level set_Est_Bemf_Level
       set_DppBufferSum set_SpeedBufferOldestEl set_ForceConvergency set_ForceConvergency2].

(** The same by call-by-need evaluation, which reaches the projections
    that sit below a conditional. *)
Ltac sto_lazy :=
  lazy beta iota zeta delta
      [fst snd
       hElAngle hElSpeedDpp hAvrMecSpeed01Hz hMecAccel01HzP bSpeedErrorNumber
       bMaximumSpeedErrorsNumber hMeasurementFrequency bElToMecRatio hMaxReliableMecSpeed01Hz
       _Super hC1 hC2 hC3 hC4 hC5 hC6 hF1 hF2 hF3 F3POW2 F1LOG F2LOG PIRegulator Ialfa_est
       Ibeta_est wBemf_alfa_est wBemf_beta_est hBemf_alfa_est hBemf_beta_est Speed_Buffer
       Speed_Buffer_Index IsSpeedReliable ConsistencyCounter ReliabilityCounter
       IsAlgorithmConverged IsBemfConsistent Obs_Bemf_Level Est_Bemf_Level EnableDualCheck
       DppBufferSum SpeedBufferOldestEl SpeedBufferSize01Hz SpeedBufferSizedpp
       SpeedBufferSizedppLOG VariancePercentage SpeedValidationBand_H SpeedValidationBand_L
       MinStartUpValidSpeed StartUpConsistThreshold Reliability_hysteresys BemfConsistencyCheck
       BemfConsistencyGain MaxAppPositiveMecSpeed01Hz ForceConvergency ForceConvergency2
       set_hElAngle set_hElSpeedDpp set_hAvrMecSpeed01Hz set_bSpeedErrorNumber
       set_hMecAccel01HzP set__Super
       set_hC2 set_hC4 set_hC6 set_hF3 set_F3POW2 set_EnableDualCheck set_MinStartUpValidSpeed
       set_PIRegulator set_Ialfa_est set_Ibeta_est set_wBemf_alfa_est
       set_wBemf_beta_est set_hBemf_alfa_est set_hBemf_beta_est set_Speed_Buffer
       set_Speed_Buffer_Index set_IsSpeedReliable set_ConsistencyCounter set_ReliabilityCounter
       set_IsAlgorithmConverged set_IsBemfConsistent set_Obs_Bemf_Level set_Est_Bemf_Level
       set_DppBufferSum set_SpeedBufferOldestEl set_ForceConvergency set_ForceConvergency2].

Section Initialisation.
Context {lib : MCLib} {pidlib : PIDLib}.

(** The loop of STO_InitSpeedBuffer changes the speed buffer only. *)
Lemma init_loop_frame (l : list nat) (p : STO_Handle_t) :
  let f := fun a i => set_Speed_Buffer (buf_set (Speed_Buffer a) (Z.of_nat i) 0) a in
  fold_left f l p = set_Speed_Buffer (Speed_Buffer (fold_left f l p)) p.
Proof.
  intros f. revert p; induction l as [|a l IH]; intros p; cbn [fold_left].
  - destruct p; reflexivity.
  - rewrite IH. set (b := Speed_Buffer _). reflexivity.
Qed.

(** STO_InitSpeedBuffer changes the speed buffer, its index and the
    oldest-element snapshot, and nothing else. *)
Lemma STO_InitSpeedBuffer_frame (p : STO_Handle_t) :
  STO_InitSpeedBuffer p
  = set_SpeedBufferOldestEl 0
      (set_Speed_Buffer_Index 0
         (set_Speed_Buffer (Speed_Buffer (STO_InitSpeedBuffer p)) p)).
Proof.
  unfold STO_InitSpeedBuffer, for_upto. sto_norm. do 2 f_equal. apply init_loop_frame.
Qed.

(** What STO_Clear leaves of a handle, field by field: the dynamic state is
    reset, the regulator is given a zero integral term, and the parameters
    and the 16-bit back-EMF estimates are kept. *)
Lemma STO_Clear_fields (p : STO_Handle_t) :
  let c := STO_Clear p in
  (Ialfa_est c = 0 /\ Ibeta_est c = 0 /\ wBemf_alfa_est c = 0 /\ wBemf_beta_est c = 0) /\
  (hElAngle (_Super c) = 0 /\ hElSpeedDpp (_Super c) = 0) /\
  (ConsistencyCounter c = 0 /\ ReliabilityCounter c = 0 /\ DppBufferSum c = 0) /\
  (IsAlgorithmConverged c = false /\ IsBemfConsistent c = false /\
   ForceConvergency c = false /\ ForceConvergency2 c = false) /\
  (Obs_Bemf_Level c = 0 /\ Est_Bemf_Level c = 0) /\
  (Speed_Buffer_Index c = 0 /\ SpeedBufferOldestEl c = 0) /\
  PIRegulator c = PID_SetIntegralTerm (PIRegulator p) 0 /\
  (hC1 c = hC1 p /\ hC2 c = hC2 p /\ hC3 c = hC3 p /\ hC4 c = hC4 p /\ hC5 c = hC5 p /\
   hC6 c = hC6 p) /\
  (hF1 c = hF1 p /\ hF2 c = hF2 p /\ hF3 c = hF3 p /\ F3POW2 c = F3POW2 p /\
   F1LOG c = F1LOG p /\ F2LOG c = F2LOG p) /\
  (EnableDualCheck c = EnableDualCheck p /\ IsSpeedReliable c = IsSpeedReliable p /\
   hBemf_alfa_est c = hBemf_alfa_est p /\ hBemf_beta_est c = hBemf_beta_est p) /\
  (hMecAccel01HzP (_Super c) = hMecAccel01HzP (_Super p) /\
   hAvrMecSpeed01Hz (_Super c) = hAvrMecSpeed01Hz (_Super p) /\
   bSpeedErrorNumber (_Super c) = bSpeedErrorNumber (_Super p)).
Proof.
  intros c; subst c. unfold STO_Clear. rewrite STO_InitSpeedBuffer_frame. sto_norm.
  repeat split.
Qed.

End Initialisation.

Section Initialisation2.
Context {lib : MCLib} {pidlib : PIDLib}.

(** A loop whose condition is false leaves its state as it is. *)
Lemma while_do_exit {S : Type} (fuel : nat) (cond : S -> bool) (body : S -> S) (s : S) :
  cond s = false -> while_do fuel cond body s = Some s.
Proof. intros H. destruct fuel; cbn [while_do]; rewrite H; reflexivity. Qed.

(** The loop of STO_Init on a positive [htempk]: it runs once per binary
    digit of [htempk], doubling [wAux] and counting F3POW2 up each time. *)
Lemma STO_Init_loop_pos (fuel : nat) (h w : Z) (p : STO_Handle_t) :
  0 < h <= 32767 -> h < 2 ^ Z.of_nat fuel ->
  0 < w -> w * 2 ^ (Z.log2 h + 1) <= 2147483647 ->
  0 <= F3POW2 p -> F3POW2 p + Z.log2 h + 1 < 65536 ->
  STO_Init_loop fuel h w p
  = Some (0, w * 2 ^ (Z.log2 h + 1), set_F3POW2 (F3POW2 p + (Z.log2 h + 1)) p).
Proof.
  unfold STO_Init_loop.
  revert h w p; induction fuel as [|fuel IH]; intros h w p Hh Hf Hw Hov Hp Hq.
  - cbn in Hf. lia.
  - cbn [while_do].
    destruct (Z.eqb_spec h 0) as [e|_]; [lia|]. cbn [negb].
    assert (Hl : 0 <= Z.log2 h) by apply Z.log2_nonneg.
    assert (Hpw : 2 ^ (Z.log2 h + 1) = 2 * 2 ^ Z.log2 h) by (rewrite Z.pow_add_r by lia; change (2 ^ 1) with 2; lia).
    assert (Hpos : 0 < 2 ^ Z.log2 h) by (apply Z.pow_pos_nonneg; lia).
    rewrite Z.quot_div_nonneg by lia.
    assert (Hd : 0 <= h / 2 <= 32767) by (split; [apply Z.div_pos; lia | apply Z.div_le_upper_bound; lia]).
    rewrite (wrap16_small (h / 2)) by (unfold in_s16; lia).
    assert (Hw2 : w * 2 <= w * 2 ^ (Z.log2 h + 1)).
    { rewrite Hpw. apply Z.mul_le_mono_nonneg_l; lia. }
    rewrite (wrap32_small (w * 2)) by (unfold in_s32; lia).
    unfold wrap_u16. rewrite (Z.mod_small (F3POW2 p + 1)) by lia.
    destruct (Z.eq_dec h 1) as [->|H1].
    + change (1 / 2) with 0. change (Z.log2 1) with 0.
      rewrite while_do_exit by reflexivity. reflexivity.
    + assert (Hh2 : 0 < h / 2) by (apply Z.div_str_pos; lia).
      assert (Hlog : Z.log2 (h / 2) + 1 = Z.log2 h).
      { rewrite <- (Z.div2_div h), Z.div2_spec, Z.log2_shiftr by lia.
        assert (1 <= Z.log2 h) by (apply Z.log2_le_pow2; lia). lia. }
      assert (Hf' : h / 2 < 2 ^ Z.of_nat fuel).
      { rewrite Nat2Z.inj_succ, Z.pow_succ_r in Hf by lia.
        apply Z.div_lt_upper_bound; lia. }
      rewrite IH; rewrite ?Hlog; sto_norm.
      * rewrite Hpw.
        replace (w * 2 * 2 ^ Z.log2 h) with (w * (2 * 2 ^ Z.log2 h)) by ring.
        replace (F3POW2 p + 1 + Z.log2 h) with (F3POW2 p + (Z.log2 h + 1)) by ring.
        reflexivity.
      * lia.
      * exact Hf'.
      * lia.
      * rewrite Hpw in Hov. lia.
      * lia.
      * lia.
Qed.

(** The loop ends on every 16-bit [htempk], positive or not, within as many
    rounds as [htempk] has binary digits, and changes F3POW2 only. *)
Lemma STO_Init_loop_ends (fuel : nat) (h w : Z) (p : STO_Handle_t) :
  Z.abs h < 2 ^ Z.of_nat fuel -> in_s16 h ->
  exists w' k, STO_Init_loop fuel h w p = Some (0, w', set_F3POW2 k p).
Proof.
  unfold STO_Init_loop.
  revert h w p; induction fuel as [|fuel IH]; intros h w p Hf Hh.
  - cbn in Hf. assert (h = 0) by lia. subst h. cbn. exists w, (F3POW2 p).
    destruct p; reflexivity.
  - cbn [while_do]. destruct (Z.eqb_spec h 0) as [->|ne]; cbn [negb].
    + exists w, (F3POW2 p). destruct p; reflexivity.
    + unfold in_s16 in Hh.
      assert (Hq : Z.abs (Z.quot h 2) * 2 <= Z.abs h).
      { destruct (Z_le_gt_dec 0 h) as [Hp | Hn].
        - rewrite Z.quot_div_nonneg by lia.
          pose proof (Z.mul_div_le h 2 ltac:(lia)).
          pose proof (Z.div_pos h 2 Hp ltac:(lia)). lia.
        - replace (Z.quot h 2) with (- ((- h) / 2)).
          + pose proof (Z.mul_div_le (- h) 2 ltac:(lia)).
            pose proof (Z.div_pos (- h) 2 ltac:(lia) ltac:(lia)). lia.
          + rewrite <- Z.quot_div_nonneg by lia. rewrite Z.quot_opp_l by lia. lia. }
      rewrite (wrap16_small (Z.quot h 2)) by (unfold in_s16; lia).
      rewrite Nat2Z.inj_succ, Z.pow_succ_r in Hf by lia.
      destruct (IH (Z.quot h 2) (wrap32 (w * 2))
                  (set_F3POW2 (wrap_u16 (F3POW2 p + 1)) p)) as (w' & k & E).
      * lia.
      * unfold in_s16; lia.
      * exists w', k. exact E.
Qed.

(** STO_Init once its loop has ended: the statements that follow the loop,
    on the values the loop left. *)
Lemma STO_Init_after_loop (pHandle : STO_Handle_t) (h w : Z) (q : STO_Handle_t) :
  let p0 :=
    set_F3POW2 0
      (set_EnableDualCheck true
         (set_ConsistencyCounter (StartUpConsistThreshold pHandle) pHandle)) in
  STO_Init_loop 16 (wrap16 (Z.quot C6_COMP_CONST1 (hF2 p0))) 1 p0 = Some (h, w, q) ->
  STO_Init pHandle
  = Some (let pHandle := set_hF3 (wrap16 w) q in
          let wAux := hF2 pHandle * hF3 pHandle in
          let pHandle := set_hC6 (wrap16 (Z.quot wAux C6_COMP_CONST2)) pHandle in
          let pHandle := STO_Clear pHandle in
          let pHandle := set_PIRegulator (PID_HandleInit (PIRegulator pHandle)) pHandle in
          set__Super (set_hMecAccel01HzP 0 (_Super pHandle)) pHandle).
Proof.
  intros p0 E. unfold STO_Init. cbv zeta. fold p0. rewrite E. reflexivity.
Qed.

(** The fields of the handle that STO_Init returns, from those of the handle
    [q] that its loop left and the power of two [w] that the loop built. *)
Lemma STO_Init_fields (w : Z) (q : STO_Handle_t) :
  let r :=
    let pHandle := set_hF3 (wrap16 w) q in
    let wAux := hF2 pHandle * hF3 pHandle in
    let pHandle := set_hC6 (wrap16 (Z.quot wAux C6_COMP_CONST2)) pHandle in
    let pHandle := STO_Clear pHandle in
    let pHandle := set_PIRegulator (PID_HandleInit (PIRegulator pHandle)) pHandle in
    set__Super (set_hMecAccel01HzP 0 (_Super pHandle)) pHandle in
  (F3POW2 r = F3POW2 q /\ hF3 r = wrap16 w /\
   hC6 r = wrap16 (Z.quot (hF2 q * wrap16 w) C6_COMP_CONST2)) /\
  (ConsistencyCounter r = 0 /\ ReliabilityCounter r = 0 /\
   EnableDualCheck r = EnableDualCheck q /\ IsAlgorithmConverged r = false) /\
  (Ialfa_est r = 0 /\ Ibeta_est r = 0 /\ wBemf_alfa_est r = 0 /\ wBemf_beta_est r = 0) /\
  (hElAngle (_Super r) = 0 /\ hElSpeedDpp (_Super r) = 0 /\
   hMecAccel01HzP (_Super r) = 0 /\ DppBufferSum r = 0) /\
  PIRegulator r = PID_HandleInit (PID_SetIntegralTerm (PIRegulator q) 0) /\
  (hC1 r = hC1 q /\ hC2 r = hC2 q /\ hC3 r = hC3 q /\ hC4 r = hC4 q /\ hC5 r = hC5 q) /\
  (hF1 r = hF1 q /\ hF2 r = hF2 q /\ F1LOG r = F1LOG q /\ F2LOG r = F2LOG q).
Proof.
  cbv zeta.
  set (q2 := set_hC6 _ _).
  pose proof (STO_Clear_fields q2) as F. cbv zeta in F.
  revert F. generalize (STO_Clear q2). intros c. subst q2. sto_norm.
  intros ((F1 & F2 & F3 & F4) & (F5 & F6) & (F7 & F8 & F9) & (F10 & _) & _ & _ & F11 &
          (G1 & G2 & G3 & G4 & G5 & G6) & (H1 & H2 & H3 & H4 & H5 & H6) & (K1 & _) & _).
  repeat split; try assumption; try reflexivity.
  rewrite F11. reflexivity.
Qed.

(** STO_Init once its loop has ended with [w] and [q]: it returns, and the
    fields of the handle it returns are these. *)
Lemma STO_Init_spec (pHandle : STO_Handle_t) (h w : Z) (q : STO_Handle_t) :
  let p0 :=
    set_F3POW2 0
      (set_EnableDualCheck true
         (set_ConsistencyCounter (StartUpConsistThreshold pHandle) pHandle)) in
  STO_Init_loop 16 (wrap16 (Z.quot C6_COMP_CONST1 (hF2 p0))) 1 p0 = Some (h, w, q) ->
  exists r, STO_Init pHandle = Some r /\
    (F3POW2 r = F3POW2 q /\ hF3 r = wrap16 w /\
     hC6 r = wrap16 (Z.quot (hF2 q * wrap16 w) C6_COMP_CONST2)) /\
    (ConsistencyCounter r = 0 /\ ReliabilityCounter r = 0 /\
     EnableDualCheck r = EnableDualCheck q /\ IsAlgorithmConverged r = false) /\
    (Ialfa_est r = 0 /\ Ibeta_est r = 0 /\ wBemf_alfa_est r = 0 /\ wBemf_beta_est r = 0) /\
    (hElAngle (_Super r) = 0 /\ hElSpeedDpp (_Super r) = 0 /\
     hMecAccel01HzP (_Super r) = 0 /\ DppBufferSum r = 0) /\
    PIRegulator r = PID_HandleInit (PID_SetIntegralTerm (PIRegulator q) 0) /\
    (hC1 r = hC1 q /\ hC2 r = hC2 q /\ hC3 r = hC3 q /\ hC4 r = hC4 q /\ hC5 r = hC5 q) /\
    (hF1 r = hF1 q /\ hF2 r = hF2 q /\ F1LOG r = F1LOG q /\ F2LOG r = F2LOG q).
Proof.
  intros p0 E. rewrite (STO_Init_after_loop pHandle h w q E).
  eexists. split; [reflexivity|]. exact (STO_Init_fields w q).
Qed.

(** X1.  STO_Init returns on every handle with a non-zero F2, and the handle
    it returns is a cleared one: the consistency counter is 0 (the start-up
    threshold that the function stores in it first does not survive the call
    of STO_Clear), the dual check is enabled, the convergence flag is down,
    the four estimates, the angle, the dpp speed, the rolling sum and the
    acceleration are 0, the regulator has been given a zero integral term and
    then been initialised, and the gains C1..C5 and the factors F1, F2 are
    those of the call. *)
Theorem STO_Init_returns_cleared (pHandle : STO_Handle_t) :
  hF2 pHandle <> 0 ->
  exists p', STO_Init pHandle = Some p' /\
    (ConsistencyCounter p' = 0 /\ ReliabilityCounter p' = 0 /\
     EnableDualCheck p' = true /\ IsAlgorithmConverged p' = false) /\
    (Ialfa_est p' = 0 /\ Ibeta_est p' = 0 /\ wBemf_alfa_est p' = 0 /\ wBemf_beta_est p' = 0) /\
    (hElAngle (_Super p') = 0 /\ hElSpeedDpp (_Super p') = 0 /\
     hMecAccel01HzP (_Super p') = 0 /\ DppBufferSum p' = 0) /\
    PIRegulator p' = PID_HandleInit (PID_SetIntegralTerm (PIRegulator pHandle) 0) /\
    (hC1 p' = hC1 pHandle /\ hC2 p' = hC2 pHandle /\ hC3 p' = hC3 pHandle /\
     hC4 p' = hC4 pHandle /\ hC5 p' = hC5 pHandle) /\
    (hF1 p' = hF1 pHandle /\ hF2 p' = hF2 pHandle /\ F1LOG p' = F1LOG pHandle /\
     F2LOG p' = F2LOG pHandle).
Proof.
  intros _.
  pose proof (STO_Init_spec pHandle) as A. cbv zeta in A.
  set (p0 := set_F3POW2 0 _) in A.
  destruct (STO_Init_loop_ends 16 (wrap16 (Z.quot C6_COMP_CONST1 (hF2 p0))) 1 p0)
    as (w' & k & E).
  { pose proof (wrap16_range (Z.quot C6_COMP_CONST1 (hF2 p0))) as R.
    unfold in_s16 in R. change (2 ^ Z.of_nat 16) with 65536. lia. }
  { apply wrap16_range. }
  destruct (A _ _ _ E) as (r & Er & F). exists r. split; [exact Er|].
  revert F. subst p0. sto_norm. intros (_ & F). exact F.
Qed.

(** X2.  For a factor F2 from 64 to 32767, STO_Init makes F3 the smallest
    power of two above C6_COMP_CONST1 / F2: F3POW2 is the number of binary
    digits of that quotient, hF3 = 2^F3POW2 (so that the division by hF3 and
    the shift by F3POW2 of the observer step name the same factor), and the
    gain C6 = F2 * F3 / C6_COMP_CONST2 lies between 100 and 200. *)
Theorem STO_Init_scaling (pHandle : STO_Handle_t) :
  64 <= hF2 pHandle <= 32767 ->
  exists p', STO_Init pHandle = Some p' /\
    let k := Z.log2 (C6_COMP_CONST1 / hF2 pHandle) + 1 in
    F3POW2 p' = k /\ hF3 p' = 2 ^ k /\
    2 ^ (k - 1) <= C6_COMP_CONST1 / hF2 pHandle < 2 ^ k /\
    hC6 p' = Z.quot (hF2 pHandle * 2 ^ k) C6_COMP_CONST2 /\
    100 <= hC6 p' <= 200.
Proof.
  intros HF.
  pose proof (STO_Init_spec pHandle) as A. cbv zeta in A.
  set (p0 := set_F3POW2 0 _) in A.
  assert (P1 : hF2 p0 = hF2 pHandle) by reflexivity.
  assert (P2 : F3POW2 p0 = 0) by reflexivity.
  rewrite P1 in A.
  unfold C6_COMP_CONST1, C6_COMP_CONST2 in *.
  rewrite Z.quot_div_nonneg in A by lia.
  set (h := 1043038 / hF2 pHandle) in *.
  assert (Hh : 31 <= h <= 16297).
  { subst h. split; [apply Z.div_le_lower_bound; lia |].
    apply Z.lt_succ_r, Z.div_lt_upper_bound; lia. }
  assert (Hm : hF2 pHandle * h <= 1043038 < hF2 pHandle * (h + 1)).
  { subst h. pose proof (Z.mul_div_le 1043038 (hF2 pHandle) ltac:(lia)).
    pose proof (Z.mul_succ_div_gt 1043038 (hF2 pHandle) ltac:(lia)). lia. }
  rewrite (wrap16_small h) in A by (unfold in_s16; lia).
  destruct (Z.log2_spec h ltac:(lia)) as [L1 L2].
  assert (L0 : 0 <= Z.log2 h) by apply Z.log2_nonneg.
  assert (L3 : Z.log2 h < 14) by (apply Z.log2_lt_pow2; lia).
  replace (Z.succ (Z.log2 h)) with (Z.log2 h + 1) in L2 by lia.
  set (k := Z.log2 h + 1) in *.
  assert (Hk : 2 ^ k <= 16384).
  { change 16384 with (2 ^ 14). apply Z.pow_le_mono_r; lia. }
  assert (Hk2 : 2 ^ k = 2 * 2 ^ Z.log2 h).
  { subst k. rewrite Z.pow_add_r by lia. change (2 ^ 1) with 2. lia. }
  assert (E : STO_Init_loop 16 h 1 p0 = Some (0, 1 * 2 ^ k, set_F3POW2 (F3POW2 p0 + k) p0)).
  { apply STO_Init_loop_pos; fold k; lia. }
  destruct (A _ _ _ E) as (r & Er & (F1 & F2 & F3) & _). exists r. split; [exact Er|].
  cbv zeta. revert F1 F2 F3. sto_norm. rewrite P1, P2, Z.mul_1_l.
  rewrite (wrap16_small (2 ^ k)) by (unfold in_s16; lia).
  assert (Hq : 100 <= Z.quot (hF2 pHandle * 2 ^ k) 10430 <= 200).
  { assert (B1 : hF2 pHandle * 2 ^ k <= hF2 pHandle * (2 * h))
      by (apply Z.mul_le_mono_nonneg_l; lia).
    assert (B2 : hF2 pHandle * (h + 1) <= hF2 pHandle * 2 ^ k)
      by (apply Z.mul_le_mono_nonneg_l; lia).
    rewrite Z.quot_div_nonneg by lia. split.
    - apply Z.div_le_lower_bound; lia.
    - apply Z.lt_succ_r, Z.div_lt_upper_bound; lia. }
  rewrite (wrap16_small (Z.quot _ _)) by (unfold in_s16; lia).
  intros F1 F2 F3. rewrite F1, F2, F3.
  replace (k - 1) with (Z.log2 h) by lia.
  repeat split; lia.
Qed.

(** X3.  For a factor F2 from 32 to 63 the power of two that the loop builds
    is 2^15, which the 16-bit hF3 cannot hold: STO_Init leaves F3POW2 = 15
    but hF3 = -32768, and a negative gain C6. *)
Theorem STO_Init_small_F2_overflows (pHandle : STO_Handle_t) :
  32 <= hF2 pHandle <= 63 ->
  exists p', STO_Init pHandle = Some p' /\
    F3POW2 p' = 15 /\ hF3 p' = -32768 /\ -197 <= hC6 p' <= -100.
Proof.
  intros HF.
  pose proof (STO_Init_spec pHandle) as A. cbv zeta in A.
  set (p0 := set_F3POW2 0 _) in A.
  assert (P1 : hF2 p0 = hF2 pHandle) by reflexivity.
  assert (P2 : F3POW2 p0 = 0) by reflexivity.
  rewrite P1 in A.
  unfold C6_COMP_CONST1, C6_COMP_CONST2 in *.
  rewrite Z.quot_div_nonneg in A by lia.
  set (h := 1043038 / hF2 pHandle) in *.
  assert (Hh : 16556 <= h <= 32594).
  { subst h. split; [apply Z.div_le_lower_bound; lia |].
    apply Z.lt_succ_r, Z.div_lt_upper_bound; lia. }
  rewrite (wrap16_small h) in A by (unfold in_s16; lia).
  assert (L : Z.log2 h = 14).
  { apply Z.log2_unique; [lia|]. change (2 ^ 14) with 16384.
    change (2 ^ Z.succ 14) with 32768. lia. }
  assert (E : STO_Init_loop 16 h 1 p0 = Some (0, 32768, set_F3POW2 15 p0)).
  { rewrite (STO_Init_loop_pos 16 h 1 p0); rewrite ?L, ?P2; try lia.
    reflexivity. }
  destruct (A _ _ _ E) as (r & Er & (F1 & F2 & F3) & _). exists r. split; [exact Er|].
  revert F1 F2 F3. sto_norm. rewrite P1.
  change (wrap16 32768) with (-32768).
  assert (Hq : -197 <= Z.quot (hF2 pHandle * -32768) 10430 <= -100).
  { replace (hF2 pHandle * -32768) with (- (hF2 pHandle * 32768)) by lia.
    rewrite Z.quot_opp_l by lia. rewrite Z.quot_div_nonneg by lia.
    assert (100 <= hF2 pHandle * 32768 / 10430 <= 197); [|lia]. split.
    - apply Z.div_le_lower_bound; lia.
    - apply Z.lt_succ_r, Z.div_lt_upper_bound; lia. }
  rewrite (wrap16_small (Z.quot _ _)) by (unfold in_s16; lia).
  intros F1 F2 F3. rewrite F1, F2, F3. repeat split; lia.
Qed.

End Initialisation2.

(** Initialisation of the sample handle, whose F2 is 2^14: the handle comes
    back cleared, with the dual check on and F2 as it was. *)
Lemma STO_Init_returns_cleared_witness :
  hF2 (sample_handle 8 8 3 32) <> 0 /\
  exists p', @STO_Init probe_lib probe_pid (sample_handle 8 8 3 32) = Some p' /\
    ConsistencyCounter p' = 0 /\ EnableDualCheck p' = true /\ hF2 p' = 16384.
Proof.
  split; [vm_compute; congruence |].
  destruct (@STO_Init_returns_cleared probe_lib probe_pid (sample_handle 8 8 3 32))
    as (p' & E & (A1 & _ & A3 & _) & _ & _ & _ & _ & (_ & F2 & _)).
  - vm_compute; congruence.
  - exists p'. repeat split; assumption.
Defined.

(** With F2 = 2^14 the quotient C6_COMP_CONST1 / F2 = 63 has six binary
    digits: F3 = 64 and C6 = 100, the values the sample handle was built
    with. *)
Lemma STO_Init_scaling_witness :
  64 <= hF2 (sample_handle 8 8 3 32) <= 32767 /\
  exists p', @STO_Init probe_lib probe_pid (sample_handle 8 8 3 32) = Some p' /\
    F3POW2 p' = 6 /\ hF3 p' = 64 /\ hC6 p' = 100.
Proof.
  split; [vm_compute; split; congruence |].
  destruct (@STO_Init_scaling probe_lib probe_pid (sample_handle 8 8 3 32))
    as (p' & E & K1 & K2 & _ & K4 & _).
  - vm_compute; split; congruence.
  - exists p'. repeat split; assumption.
Defined.

(** With F2 = 32 the power of two is 2^15. *)
Lemma STO_Init_small_F2_overflows_witness :
  32 <= hF2 coarse_handle <= 63 /\
  exists p', @STO_Init probe_lib probe_pid coarse_handle = Some p' /\
    F3POW2 p' = 15 /\ hF3 p' = -32768 /\ -197 <= hC6 p' <= -100.
Proof.
  split; [vm_compute; split; congruence |].
  apply (@STO_Init_small_F2_overflows probe_lib probe_pid coarse_handle).
  vm_compute; split; congruence.
Defined.

(** ** Convergence detector: forcing, counting, latching *)

Section ConvergenceRuns.
Context {lib : MCLib}.

(** One validated call, in full: the counter steps, the verdict is its
    comparison with the threshold, the convergence flag is raised on a true
    verdict, and what the four conditions read is left as it was. *)
Lemma STO_IsObserverConverged_counts (pHandle : STO_Handle_t) (hForced : Z) :
  ForceConvergency pHandle = false ->
  ForceConvergency2 pHandle = false ->
  same_direction pHandle hForced = true ->
  speed_validated pHandle hForced = true ->
  let r := STO_IsObserverConverged pHandle hForced in
  (ForceConvergency (fst r) = false /\ ForceConvergency2 (fst r) = false /\
   same_direction (fst r) hForced = true /\ speed_validated (fst r) hForced = true) /\
  StartUpConsistThreshold (fst r) = StartUpConsistThreshold pHandle /\
  ConsistencyCounter (fst r) = wrap_u8 (ConsistencyCounter pHandle + 1) /\
  snd r = (wrap_u8 (ConsistencyCounter pHandle + 1) >=? StartUpConsistThreshold pHandle) /\
  IsAlgorithmConverged (fst r) = (IsAlgorithmConverged pHandle || snd r).
Proof.
  intros F1 F2 Hd Hv r; subst r.
  unfold STO_IsObserverConverged.
  rewrite F1, F2.
  pose proof Hd as Hd'. pose proof Hv as Hv'.
  unfold same_direction in Hd'. unfold speed_validated, abs16 in Hv'.
  rewrite Hd'. cbv zeta.
  apply andb_prop in Hv' as [Hv' H4]. apply andb_prop in Hv' as [Hv' H3].
  apply andb_prop in Hv' as [H1 H2].
  rewrite H1, H2, H3, H4.
  sto_norm.
  destruct (wrap_u8 (ConsistencyCounter pHandle + 1) >=? StartUpConsistThreshold pHandle);
    sto_norm; unfold same_direction, speed_validated; sto_norm;
    fold (same_direction pHandle hForced); fold (speed_validated pHandle hForced);
    rewrite ?orb_true_r, ?orb_false_r; repeat split; assumption.
Qed.

(** X4.  Counting to convergence.  With both force flags clear, a consistency
    counter at c and speeds that satisfy the four conditions of the detector,
    n successive calls with c + n <= 255 leave the counter at c + n, and the
    n-th call returns true exactly when c + n has reached
    StartUpConsistThreshold: from a cleared counter, convergence is declared
    at the call that completes the threshold, and not before. *)
Theorem STO_IsObserverConverged_consecutive (pHandle : STO_Handle_t) (hForced : Z)
    (n : nat) :
  ForceConvergency pHandle = false ->
  ForceConvergency2 pHandle = false ->
  same_direction pHandle hForced = true ->
  speed_validated pHandle hForced = true ->
  0 <= ConsistencyCounter pHandle ->
  (1 <= n)%nat ->
  ConsistencyCounter pHandle + Z.of_nat n <= 255 ->
  let r := STO_IsObserverConverged_n n pHandle hForced in
  ConsistencyCounter (fst r) = ConsistencyCounter pHandle + Z.of_nat n /\
  snd r = (ConsistencyCounter pHandle + Z.of_nat n >=? StartUpConsistThreshold pHandle) /\
  (snd r = true -> IsAlgorithmConverged (fst r) = true).
Proof.
  intros F1 F2 Hd Hv Hc Hn Hmax.
  assert (Inv : forall k, (k <= n)%nat ->
            let q := fst (STO_IsObserverConverged_n k pHandle hForced) in
            (ForceConvergency q = false /\ ForceConvergency2 q = false /\
             same_direction q hForced = true /\ speed_validated q hForced = true) /\
            StartUpConsistThreshold q = StartUpConsistThreshold pHandle /\
            ConsistencyCounter q = ConsistencyCounter pHandle + Z.of_nat k).
  { induction k as [|k IH]; intros Hk; cbn [STO_IsObserverConverged_n fst].
    - repeat split; auto. lia.
    - destruct (IH ltac:(lia)) as ((G1 & G2 & G3 & G4) & T & C).
      destruct (STO_IsObserverConverged_counts _ hForced G1 G2 G3 G4)
        as (I1 & I2 & I3 & _).
      split; [exact I1 | split; [congruence |]].
      rewrite I3, C. rewrite wrap_u8_small by lia. lia. }
  destruct n as [|k]; [lia|]. cbn [STO_IsObserverConverged_n]. cbv zeta.
  destruct (Inv k ltac:(lia)) as ((G1 & G2 & G3 & G4) & T & C).
  destruct (STO_IsObserverConverged_counts _ hForced G1 G2 G3 G4)
    as (_ & _ & I3 & I4 & I5).
  rewrite I3, I5, I4, C, T. rewrite wrap_u8_small by lia.
  replace (ConsistencyCounter pHandle + Z.of_nat k + 1)
    with (ConsistencyCounter pHandle + Z.of_nat (S k)) by lia.
  repeat split. intros ->. apply orb_true_r.
Qed.

(** X5.  STO_ForceConvergency1 latches.  Once it has been called, every call
    of STO_IsObserverConverged returns true, whatever the estimated and the
    forced speed, raises the convergence flag, clears the speed error number
    and leaves the consistency counter alone; STO_Clear takes the force flag
    down again. *)
Theorem STO_ForceConvergency1_latches (pHandle : STO_Handle_t) (hForced : Z) (n : nat) :
  let r := STO_IsObserverConverged_n (S n) (STO_ForceConvergency1 pHandle) hForced in
  snd r = true /\
  IsAlgorithmConverged (fst r) = true /\
  bSpeedErrorNumber (_Super (fst r)) = 0 /\
  ConsistencyCounter (fst r) = ConsistencyCounter pHandle /\
  ForceConvergency (fst r) = true /\
  ForceConvergency (STO_Clear (fst r)) = false.
Proof.
  assert (Step : forall q f, ForceConvergency q = true ->
            let r := STO_IsObserverConverged q f in
            snd r = true /\ IsAlgorithmConverged (fst r) = true /\
            bSpeedErrorNumber (_Super (fst r)) = 0 /\
            ConsistencyCounter (fst r) = ConsistencyCounter q /\
            ForceConvergency (fst r) = true).
  { intros q f Hq. unfold STO_IsObserverConverged. rewrite Hq. sto_norm.
    repeat split. exact Hq. }
  assert (Inv : forall k,
            let q := fst (STO_IsObserverConverged_n k (STO_ForceConvergency1 pHandle) hForced) in
            ForceConvergency q = true /\ ConsistencyCounter q = ConsistencyCounter pHandle).
  { induction k as [|k [I1 I2]]; cbn [STO_IsObserverConverged_n fst].
    - split; reflexivity.
    - destruct (Step _ hForced I1) as (_ & _ & _ & S4 & S5). split; congruence. }
  cbn [STO_IsObserverConverged_n]. cbv zeta.
  destruct (Inv n) as [I1 I2].
  destruct (Step _ hForced I1) as (S1 & S2 & S3 & S4 & S5).
  repeat split; try assumption; try congruence.
  match goal with |- ForceConvergency (STO_Clear ?q) = false =>
    generalize q; intros q'
  end.
  unfold STO_Clear. rewrite STO_InitSpeedBuffer_frame. reflexivity.
Qed.

(** X6.  With ForceConvergency2 set, STO_IsObserverConverged does not read
    its forced-speed argument: any two forced speeds give the same handle and
    the same verdict. *)
Theorem STO_ForceConvergency2_ignores_forced_speed (pHandle : STO_Handle_t)
    (hForced1 hForced2 : Z) :
  STO_IsObserverConverged (STO_ForceConvergency2 pHandle) hForced1
  = STO_IsObserverConverged (STO_ForceConvergency2 pHandle) hForced2.
Proof.
  unfold STO_IsObserverConverged, STO_ForceConvergency2. sto_norm. reflexivity.
Qed.

(** X7.  With ForceConvergency2 set (and ForceConvergency clear) the detector
    compares the estimated speed with itself: for validation bands
    L <= 16 <= H, a reliable estimate v, not zero, of magnitude above
    MinStartUpValidSpeed and with |v| * H / 16 within 16 bits, satisfies the
    four conditions whatever the forced speed, so that the call counts. *)
Theorem STO_ForceConvergency2_validates_estimate (pHandle : STO_Handle_t) (hForced : Z) :
  ForceConvergency pHandle = false ->
  IsSpeedReliable pHandle = true ->
  0 <= SpeedValidationBand_L pHandle <= 16 ->
  16 <= SpeedValidationBand_H pHandle <= 255 ->
  let v := hAvrMecSpeed01Hz (_Super pHandle) in
  v <> 0 -> -32767 <= v <= 32767 ->
  MinStartUpValidSpeed pHandle < Z.abs v ->
  Z.abs v * SpeedValidationBand_H pHandle < 16 * 32768 ->
  let r := STO_IsObserverConverged (STO_ForceConvergency2 pHandle) hForced in
  ConsistencyCounter (fst r) = wrap_u8 (ConsistencyCounter pHandle + 1) /\
  snd r = (wrap_u8 (ConsistencyCounter pHandle + 1) >=? StartUpConsistThreshold pHandle).
Proof.
  intros F1 HR HL HH v Hv0 Hv HM HB r; subst r.
  unfold STO_IsObserverConverged, STO_ForceConvergency2. sto_norm.
  rewrite F1, HR. fold v.
  assert (Hd : (v * v >? 0) = true) by (rewrite Z.gtb_ltb; apply Z.ltb_lt; nia).
  rewrite Hd.
  assert (Ha : (if v <? 0 then wrap16 (- v) else v) = Z.abs v).
  { destruct (Z.ltb_spec v 0); [rewrite wrap16_small by (unfold in_s16; lia)|]; lia. }
  rewrite Ha. set (a := Z.abs v) in *. assert (Ha0 : 0 < a <= 32767) by lia.
  rewrite (wrap16_small (SpeedValidationBand_H pHandle)) by (unfold in_s16; lia).
  rewrite (wrap16_small (SpeedValidationBand_L pHandle)) by (unfold in_s16; lia).
  set (H := SpeedValidationBand_H pHandle) in *.
  set (L := SpeedValidationBand_L pHandle) in *.
  assert (HU : a <= Z.quot (a * H) 16 <= 32767).
  { rewrite Z.quot_div_nonneg by nia. split.
    - apply Z.div_le_lower_bound; nia.
    - apply Z.lt_succ_r, Z.div_lt_upper_bound; lia. }
  assert (HLo : 0 <= Z.quot (a * L) 16 <= a).
  { rewrite Z.quot_div_nonneg by nia. split.
    - apply Z.div_pos; nia.
    - apply Z.div_le_upper_bound; nia. }
  rewrite (wrap16_small (Z.quot (a * H) 16)) by (unfold in_s16; lia).
  rewrite (wrap16_small (Z.quot (a * L) 16)) by (unfold in_s16; lia).
  replace (wrap_u16 a) with a by (unfold wrap_u16; rewrite Z.mod_small; lia).
  assert (E1 : (a >? MinStartUpValidSpeed pHandle) = true)
    by (rewrite Z.gtb_ltb; apply Z.ltb_lt; lia).
  assert (E2 : (a >=? Z.quot (a * L) 16) = true)
    by (rewrite Z.geb_leb; apply Z.leb_le; lia).
  assert (E3 : (a <=? Z.quot (a * H) 16) = true) by (apply Z.leb_le; lia).
  rewrite E1, E2, E3.
  destruct (wrap_u8 (ConsistencyCounter pHandle + 1) >=? StartUpConsistThreshold pHandle);
    sto_norm; split; reflexivity.
Qed.

End ConvergenceRuns.

(** The 64th consecutive valid call of the start-up scenario declares
    convergence. *)
Lemma STO_IsObserverConverged_consecutive_witness :
  let r := STO_IsObserverConverged_n 1 startup_handle 100 in
  ConsistencyCounter (fst r) = 64 /\ snd r = true /\ IsAlgorithmConverged (fst r) = true.
Proof.
  destruct (STO_IsObserverConverged_consecutive startup_handle 100 1) as (A & B & C);
    [first [reflexivity | vm_compute; congruence | lia] .. |].
  cbv zeta. split; [exact A | split; [exact B | apply C; exact B]].
Defined.

(** With ForceConvergency2 the start-up scenario counts against a forced
    speed of the opposite sign. *)
Lemma STO_ForceConvergency2_validates_estimate_witness :
  let r := STO_IsObserverConverged (STO_ForceConvergency2 startup_handle) (-5) in
  ConsistencyCounter (fst r) = 64 /\ snd r = true.
Proof.
  destruct (STO_ForceConvergency2_validates_estimate startup_handle (-5)) as (A & B);
    [first [reflexivity | vm_compute; first [congruence | split; congruence]] .. |].
  cbv zeta. split; [exact A | exact B].
Defined.

(** ** Mechanical speed and reliability *)

Section SpeedLoop.
Context {lib : MCLib}.

(** STO_CalcAvrgMecSpeed01Hz over its named quantities: the handle before
    the decision, and the decision. *)
Lemma STO_CalcAvrgMecSpeed01Hz_eq (pHandle : STO_Handle_t) :
  STO_CalcAvrgMecSpeed01Hz pHandle =
  let wAux := STO_mec_speed_of_dpp pHandle (STO_avr_speed_dpp pHandle) in
  let pMecSpeed01Hz := wrap16 wAux in
  let chk := STO_bemf_check pHandle wAux in
  let p1 :=
    set_IsSpeedReliable (STO_variance_check pHandle)
      (set__Super (set_hAvrMecSpeed01Hz (wrap16 wAux) (_Super pHandle)) pHandle) in
  let p2 :=
    if EnableDualCheck pHandle
    then set_Est_Bemf_Level (snd (fst chk))
           (set_Obs_Bemf_Level (fst (fst chk)) (set_IsBemfConsistent (snd chk) p1))
    else p1 in
  let bIs_Bemf_Consistent := if EnableDualCheck pHandle then snd chk else true in
  if negb (IsAlgorithmConverged pHandle) then
    let r := SPD_IsMecSpeedReliable (_Super p2) pMecSpeed01Hz in
    (set__Super (fst r) p2, pMecSpeed01Hz, snd r)
  else if negb (STO_variance_check pHandle) || negb bIs_Bemf_Consistent then
    let p3 := set_ReliabilityCounter (wrap_u8 (ReliabilityCounter pHandle + 1)) p2 in
    if wrap_u8 (ReliabilityCounter pHandle + 1) >=? Reliability_hysteresys pHandle then
      (set__Super (set_bSpeedErrorNumber (bMaximumSpeedErrorsNumber (_Super pHandle))
                     (_Super p2)) (set_ReliabilityCounter 0 p3),
       pMecSpeed01Hz, false)
    else
      let r := SPD_IsMecSpeedReliable (_Super p3) pMecSpeed01Hz in
      (set__Super (fst r) p3, pMecSpeed01Hz, snd r)
  else
    let p3 := set_ReliabilityCounter 0 p2 in
    let r := SPD_IsMecSpeedReliable (_Super p3) pMecSpeed01Hz in
    (set__Super (fst r) p3, pMecSpeed01Hz, snd r).
Proof.
  cbv beta zeta delta [STO_CalcAvrgMecSpeed01Hz].
  fold (STO_avr_speed_dpp pHandle).
  change (Z.quot (Z.quot (wrap32 (wrap32 (STO_avr_speed_dpp pHandle
            * hMeasurementFrequency (_Super pHandle)) * 10)) 65536)
            (bElToMecRatio (_Super pHandle)))
    with (STO_mec_speed_of_dpp pHandle (STO_avr_speed_dpp pHandle)).
  set (w := STO_mec_speed_of_dpp pHandle (STO_avr_speed_dpp pHandle)).
  match goal with |- context [set_IsSpeedReliable ?b _] =>
    change b with (STO_variance_check pHandle)
  end.
  set (rel := STO_variance_check pHandle).
  unfold STO_bemf_check. sto_norm.
  set (wAbs := if w <? 0 then wrap32 (- w) else w).
  destruct (EnableDualCheck pHandle); sto_norm;
    [destruct (wAbs <? MaxAppPositiveMecSpeed01Hz pHandle); sto_norm |];
    (destruct (IsAlgorithmConverged pHandle); cbn [negb]; sto_norm; [|reflexivity]);
    (destruct rel; cbn [negb orb]; sto_norm);
    repeat match goal with |- context [if ?c then _ else _] => destruct c; sto_norm end;
    reflexivity.
Qed.

(** The fields of the handle that STO_CalcAvrgMecSpeed01Hz leaves, and the
    speed it reports: the two verdicts and the two levels are those of the
    checks (the back-EMF ones only if the dual check is enabled), and the
    convergence flag, the consistency counter, the estimates and the speed
    buffer are not written. *)
Lemma STO_CalcAvrgMecSpeed01Hz_fields (pHandle : STO_Handle_t) :
  let r := STO_CalcAvrgMecSpeed01Hz pHandle in
  let p' := fst (fst r) in
  let wAux := STO_mec_speed_of_dpp pHandle (STO_avr_speed_dpp pHandle) in
  let chk := STO_bemf_check pHandle wAux in
  snd (fst r) = wrap16 wAux /\
  IsSpeedReliable p' = STO_variance_check pHandle /\
  IsBemfConsistent p' = (if EnableDualCheck pHandle then snd chk else IsBemfConsistent pHandle) /\
  Obs_Bemf_Level p' =
    (if EnableDualCheck pHandle then fst (fst chk) else Obs_Bemf_Level pHandle) /\
  Est_Bemf_Level p' =
    (if EnableDualCheck pHandle then snd (fst chk) else Est_Bemf_Level pHandle) /\
  IsAlgorithmConverged p' = IsAlgorithmConverged pHandle /\
  EnableDualCheck p' = EnableDualCheck pHandle /\
  ConsistencyCounter p' = ConsistencyCounter pHandle /\
  Speed_Buffer p' = Speed_Buffer pHandle /\
  Speed_Buffer_Index p' = Speed_Buffer_Index pHandle /\
  DppBufferSum p' = DppBufferSum pHandle.
Proof.
  cbv zeta. rewrite STO_CalcAvrgMecSpeed01Hz_eq. cbv zeta.
  set (w := STO_mec_speed_of_dpp pHandle (STO_avr_speed_dpp pHandle)).
  generalize (STO_bemf_check pHandle w). intros chk.
  generalize (STO_variance_check pHandle). intros rel.
  destruct (EnableDualCheck pHandle) eqn:ED;
    destruct (IsAlgorithmConverged pHandle) eqn:EC;
    destruct rel; destruct (snd chk) eqn:Ek; cbn [negb orb]; sto_norm;
    repeat match goal with |- context [if ?c then _ else _] => destruct c; sto_norm end;
    rewrite ?ED, ?EC, ?Ek; repeat split.
Qed.

(** The decision of STO_CalcAvrgMecSpeed01Hz, read off the handle it leaves.
    Before convergence the variance and back-EMF verdicts are recorded but
    not acted upon.  After convergence a bad tick counts, the tick on which
    the count reaches Reliability_hysteresys returns false without asking the
    base class, and a good tick clears the count. *)
Lemma STO_CalcAvrgMecSpeed01Hz_decision (pHandle : STO_Handle_t) :
  let r := STO_CalcAvrgMecSpeed01Hz pHandle in
  let p' := fst (fst r) in
  let S1 := set_hAvrMecSpeed01Hz (snd (fst r)) (_Super pHandle) in
  let base := SPD_IsMecSpeedReliable S1 (snd (fst r)) in
  let c := wrap_u8 (ReliabilityCounter pHandle + 1) in
  (IsAlgorithmConverged pHandle = false ->
   ReliabilityCounter p' = ReliabilityCounter pHandle /\ _Super p' = fst base /\
   snd r = snd base) /\
  (IsAlgorithmConverged pHandle = true -> STO_tick_is_bad pHandle p' = false ->
   ReliabilityCounter p' = 0 /\ _Super p' = fst base /\ snd r = snd base) /\
  (IsAlgorithmConverged pHandle = true -> STO_tick_is_bad pHandle p' = true ->
   c < Reliability_hysteresys pHandle ->
   ReliabilityCounter p' = c /\ _Super p' = fst base /\ snd r = snd base) /\
  (IsAlgorithmConverged pHandle = true -> STO_tick_is_bad pHandle p' = true ->
   Reliability_hysteresys pHandle <= c ->
   ReliabilityCounter p' = 0 /\ snd r = false /\
   _Super p' = set_bSpeedErrorNumber (bMaximumSpeedErrorsNumber (_Super pHandle)) S1).
Proof.
  cbv zeta. unfold STO_tick_is_bad. rewrite STO_CalcAvrgMecSpeed01Hz_eq. cbv zeta.
  set (w := STO_mec_speed_of_dpp pHandle (STO_avr_speed_dpp pHandle)).
  generalize (STO_bemf_check pHandle w). intros chk.
  generalize (STO_variance_check pHandle). intros rel.
  set (c := wrap_u8 (ReliabilityCounter pHandle + 1)).
  destruct (Z.geb_spec c (Reliability_hysteresys pHandle)) as [Hc | Hc];
    destruct (EnableDualCheck pHandle) eqn:ED;
    destruct (IsAlgorithmConverged pHandle) eqn:EC; cbn [negb]; sto_norm;
    destruct rel; destruct (snd chk) eqn:Ek; cbn [negb orb andb]; sto_norm;
    repeat split; intros; try discriminate; try lia; try reflexivity.
Qed.

(** The loops of STO_CalcAvrgMecSpeed01Hz on a steady buffer: the entries sum
    to their number times the speed, and their deviations from it to zero. *)
Lemma for_upto_steady_sum (b : list Z) (n v : Z) :
  (forall i, 0 <= i < n -> buf_get b i = v) -> in_s16 v -> 0 <= n <= 255 ->
  for_upto n (fun w i => wrap32 (w + buf_get b i)) 0 = n * v.
Proof.
  intros Hb Hv Hn. unfold for_upto.
  set (f := fun (a : Z) (i : nat) => wrap32 (a + buf_get b (Z.of_nat i))).
  assert (G : forall k, (k <= Z.to_nat n)%nat -> fold_left f (seq 0 k) 0 = Z.of_nat k * v).
  { induction k as [|k IH]; intros Hk; [reflexivity|].
    rewrite seq_S, fold_left_app, IH by lia. cbn [fold_left Nat.add]. subst f. cbv beta.
    rewrite Hb by lia.
    unfold in_s16 in Hv. rewrite wrap32_small by (unfold in_s32; nia). lia. }
  rewrite G by lia. rewrite Z2Nat.id by lia. reflexivity.
Qed.

Lemma for_upto_steady_error (b : list Z) (n v : Z) :
  (forall i, 0 <= i < n -> buf_get b i = v) -> 0 <= n ->
  for_upto n
    (fun q i =>
       let wError := wrap32 (buf_get b i - v) in
       let wError := wrap32 (wError * wError) in
       wrap32 (q + wError)) 0 = 0.
Proof.
  intros Hb Hn. unfold for_upto.
  set (f := fun (a : Z) (i : nat) => _).
  assert (G : forall k, (k <= Z.to_nat n)%nat -> fold_left f (seq 0 k) 0 = 0).
  { induction k as [|k IH]; intros Hk; [reflexivity|].
    rewrite seq_S, fold_left_app, IH by lia. cbn [fold_left Nat.add]. subst f. cbv beta zeta.
    rewrite Hb by lia. rewrite Z.sub_diag. reflexivity. }
  apply G. lia.
Qed.

(** X8.  On a steady speed the variance is zero and the variance check
    degenerates into a threshold on the speed itself.  With every entry in
    use of the buffer equal to v and a variance percentage of at most 255,
    STO_CalcAvrgMecSpeed01Hz reports the speed reliable (IsSpeedReliable,
    which STO_IsVarianceTight returns) if and only if v * v >= 128 and the
    percentage is not zero: a steady speed of magnitude 11 dpp or less, and
    standstill in particular, is never reliable. *)
Theorem STO_steady_speed_reliability (pHandle : STO_Handle_t) (v : Z) :
  1 <= SpeedBufferSize01Hz pHandle <= 255 ->
  steady_buffer pHandle v -> in_s16 v ->
  0 <= VariancePercentage pHandle <= 255 ->
  let p' := fst (fst (STO_CalcAvrgMecSpeed01Hz pHandle)) in
  STO_avr_speed_dpp pHandle = v /\
  STO_IsVarianceTight p' = (128 <=? v * v) && (1 <=? VariancePercentage pHandle) /\
  (Z.abs v <= 11 -> STO_IsVarianceTight p' = false).
Proof.
  intros Hn Hs Hv HP p'. unfold STO_IsVarianceTight. subst p'.
  destruct (STO_CalcAvrgMecSpeed01Hz_fields pHandle) as (_ & F & _). rewrite F.
  assert (A : STO_avr_speed_dpp pHandle = v).
  { unfold STO_avr_speed_dpp. cbv zeta. rewrite (for_upto_steady_sum _ _ v); try assumption.
    - rewrite Z.mul_comm. apply Z.quot_mul. lia.
    - lia. }
  assert (V : STO_variance_check pHandle
              = (128 <=? v * v) && (1 <=? VariancePercentage pHandle)).
  { unfold STO_variance_check. cbv zeta. rewrite A.
    rewrite (for_upto_steady_error _ _ v) by (try assumption; lia).
    change (Z.quot 0 (SpeedBufferSize01Hz pHandle)) with 0.
    unfold in_s16 in Hv.
    assert (Hsq : 0 <= v * v <= 1073741824) by nia.
    rewrite (wrap32_small (v * v)) by (unfold in_s32; lia).
    rewrite Z.quot_div_nonneg by lia.
    assert (Hq : 0 <= v * v / 128 <= 8388608).
    { split; [apply Z.div_pos; lia | apply Z.div_le_upper_bound; lia]. }
    set (P := VariancePercentage pHandle) in *.
    rewrite wrap32_small by (unfold in_s32; nia).
    destruct (Z.leb_spec 128 (v * v)) as [H1 | H1];
      destruct (Z.leb_spec 1 P) as [H2 | H2]; cbn [andb].
    - apply Z.ltb_lt. assert (1 <= v * v / 128) by (apply Z.div_le_lower_bound; lia). nia.
    - apply Z.ltb_ge. assert (P = 0) by lia. subst P. lia.
    - apply Z.ltb_ge. rewrite Z.div_small by lia. lia.
    - apply Z.ltb_ge. rewrite Z.div_small by lia. lia. }
  split; [exact A | split; [exact V |]].
  intros Hsmall. rewrite V.
  assert (E : (128 <=? v * v) = false) by (apply Z.leb_gt; nia).
  rewrite E. reflexivity.
Qed.

(** X9.  Above the application's maximum speed the consistency check does not
    pass: with the dual check enabled and a reported mechanical speed of
    magnitude MaxAppPositiveMecSpeed01Hz or more, STO_CalcAvrgMecSpeed01Hz
    sets IsBemfConsistent to false and both back-EMF levels to 0, whatever
    the back-EMF estimates are. *)
Theorem STO_overspeed_is_inconsistent (pHandle : STO_Handle_t) :
  EnableDualCheck pHandle = true ->
  0 < bElToMecRatio (_Super pHandle) ->
  let r := STO_CalcAvrgMecSpeed01Hz pHandle in
  MaxAppPositiveMecSpeed01Hz pHandle <= Z.abs (snd (fst r)) ->
  STO_IsBemfConsistent (fst (fst r)) = false /\
  STO_GetObservedBemfLevel (fst (fst r)) = 0 /\
  STO_GetEstimatedBemfLevel (fst (fst r)) = 0.
Proof.
  intros HD HR r; subst r.
  unfold STO_IsBemfConsistent, STO_GetObservedBemfLevel, STO_GetEstimatedBemfLevel.
  destruct (STO_CalcAvrgMecSpeed01Hz_fields pHandle) as (F1 & _ & F3 & F4 & F5 & _).
  rewrite F1, F3, F4, F5, HD.
  set (w := STO_mec_speed_of_dpp pHandle (STO_avr_speed_dpp pHandle)).
  assert (Hw : in_s16 w).
  { subst w. unfold STO_mec_speed_of_dpp, in_s16. cbv zeta.
    match goal with |- _ <= Z.quot (Z.quot (wrap32 ?X) _) _ <= _ =>
      pose proof (wrap32_range X) as W;
      assert (-32768 <= Z.quot (wrap32 X) 65536 <= 32767)
        by (unfold in_s32 in W; apply quot_bounds; lia)
    end.
    apply quot_bounds; nia. }
  rewrite (wrap16_small w Hw). intros HM.
  unfold STO_bemf_check. cbv zeta.
  assert (E : (if w <? 0 then wrap32 (- w) else w) = Z.abs w).
  { unfold in_s16 in Hw. destruct (Z.ltb_spec w 0).
    - rewrite wrap32_small by (unfold in_s32; lia). lia.
    - lia. }
  rewrite E.
  assert (E2 : (Z.abs w <? MaxAppPositiveMecSpeed01Hz pHandle) = false)
    by (apply Z.ltb_ge; exact HM).
  rewrite E2. repeat split.
Qed.

(** X10.  Disabling the dual check freezes what the accessors report: after
    STO_BemfConsistencyCheckSwitch with false, STO_CalcAvrgMecSpeed01Hz writes
    neither IsBemfConsistent nor the two back-EMF levels, so that
    STO_IsBemfConsistent, STO_GetObservedBemfLevel and
    STO_GetEstimatedBemfLevel keep returning the values of the last check
    made while it was enabled. *)
Theorem STO_disabled_check_is_stale (pHandle : STO_Handle_t) :
  let p' := fst (fst (STO_CalcAvrgMecSpeed01Hz
                        (STO_BemfConsistencyCheckSwitch pHandle false))) in
  STO_IsBemfConsistent p' = STO_IsBemfConsistent pHandle /\
  STO_GetObservedBemfLevel p' = STO_GetObservedBemfLevel pHandle /\
  STO_GetEstimatedBemfLevel p' = STO_GetEstimatedBemfLevel pHandle.
Proof.
  intros p'; subst p'.
  unfold STO_IsBemfConsistent, STO_GetObservedBemfLevel, STO_GetEstimatedBemfLevel.
  destruct (STO_CalcAvrgMecSpeed01Hz_fields (STO_BemfConsistencyCheckSwitch pHandle false))
    as (_ & _ & F3 & F4 & F5 & _).
  rewrite F3, F4, F5. unfold STO_BemfConsistencyCheckSwitch. sto_norm. repeat split.
Qed.

(** X11.  The reliability hysteresis.  Once the algorithm has converged, a
    call of STO_CalcAvrgMecSpeed01Hz whose own checks fail (variance too wide,
    or dual check enabled and failed) counts in ReliabilityCounter; the call
    on which the count reaches Reliability_hysteresys returns false, clears
    the count and sets the speed error number to its maximum; a call whose
    checks pass clears the count.  Before convergence the count is not
    touched. *)
Theorem STO_reliability_hysteresis (pHandle : STO_Handle_t) :
  0 <= ReliabilityCounter pHandle < 255 ->
  let r := STO_CalcAvrgMecSpeed01Hz pHandle in
  let p' := fst (fst r) in
  (IsAlgorithmConverged pHandle = false ->
   ReliabilityCounter p' = ReliabilityCounter pHandle) /\
  (IsAlgorithmConverged pHandle = true -> STO_tick_is_bad pHandle p' = false ->
   ReliabilityCounter p' = 0) /\
  (IsAlgorithmConverged pHandle = true -> STO_tick_is_bad pHandle p' = true ->
   ReliabilityCounter pHandle + 1 < Reliability_hysteresys pHandle ->
   ReliabilityCounter p' = ReliabilityCounter pHandle + 1) /\
  (IsAlgorithmConverged pHandle = true -> STO_tick_is_bad pHandle p' = true ->
   Reliability_hysteresys pHandle <= ReliabilityCounter pHandle + 1 ->
   snd r = false /\ ReliabilityCounter p' = 0 /\
   bSpeedErrorNumber (_Super p') = bMaximumSpeedErrorsNumber (_Super pHandle) /\
   hAvrMecSpeed01Hz (_Super p') = snd (fst r)).
Proof.
  intros HR r p'; subst r p'.
  destruct (STO_CalcAvrgMecSpeed01Hz_decision pHandle) as (D1 & D2 & D3 & D4).
  rewrite (wrap_u8_small (ReliabilityCounter pHandle + 1)) in D3, D4 by lia.
  split; [intros H; apply (D1 H) |].
  split; [intros H B; apply (D2 H B) |].
  split; [intros H B C; apply (D3 H B C) |].
  intros H B C. destruct (D4 H B C) as (E1 & E2 & E3).
  rewrite E3. repeat split; assumption.
Qed.

End SpeedLoop.

(** Four buffered speeds of 3277 dpp: the average is 3277 and the variance
    check passes. *)
Lemma STO_steady_speed_reliability_witness :
  STO_avr_speed_dpp (zero_bemf_handle 32) = 3277 /\
  STO_IsVarianceTight (fst (fst (STO_CalcAvrgMecSpeed01Hz (zero_bemf_handle 32)))) = true.
Proof.
  destruct (STO_steady_speed_reliability (zero_bemf_handle 32) 3277) as (A & B & _).
  - vm_compute; split; congruence.
  - intros i Hi. change (0 <= i < 4) in Hi.
    assert (Hc : i = 0 \/ i = 1 \/ i = 2 \/ i = 3) by lia.
    destruct Hc as [-> | [-> | [-> | ->]]]; reflexivity.
  - vm_compute; split; congruence.
  - vm_compute; split; congruence.
  - split; [exact A | exact B].
Defined.

(** At the maximum speed of the application, 1000, the check does not pass. *)
Lemma STO_overspeed_is_inconsistent_witness :
  snd (fst (STO_CalcAvrgMecSpeed01Hz overspeed_handle)) = 1000 /\
  STO_IsBemfConsistent (fst (fst (STO_CalcAvrgMecSpeed01Hz overspeed_handle))) = false /\
  STO_GetObservedBemfLevel (fst (fst (STO_CalcAvrgMecSpeed01Hz overspeed_handle))) = 0 /\
  STO_GetEstimatedBemfLevel (fst (fst (STO_CalcAvrgMecSpeed01Hz overspeed_handle))) = 0.
Proof.
  split; [vm_compute; reflexivity |].
  apply (STO_overspeed_is_inconsistent overspeed_handle);
    first [reflexivity | vm_compute; congruence].
Defined.

(** The fifth bad call in a row after convergence trips the hysteresis. *)
Lemma STO_reliability_hysteresis_witness :
  let r := STO_CalcAvrgMecSpeed01Hz tripping_handle in
  snd r = false /\ ReliabilityCounter (fst (fst r)) = 0 /\
  bSpeedErrorNumber (_Super (fst (fst r))) = 3.
Proof.
  destruct (STO_reliability_hysteresis tripping_handle) as (_ & _ & _ & H);
    [vm_compute; split; congruence |].
  destruct H as (A & B & C & _);
    [reflexivity | vm_compute; reflexivity | vm_compute; congruence |].
  cbv zeta. split; [exact A | split; [exact B | exact C]].
Defined.

(** ** Feed-forward: saturation, constants, clearing *)

(** The macro lands in the symmetric 16-bit range and keeps a value that is
    already there. *)
Lemma SATURATION_TO_S16_range (a : Z) : -32767 <= FF.SATURATION_TO_S16 a <= 32767.
Proof.
  unfold FF.SATURATION_TO_S16.
  destruct (Z.gtb_spec a 32767); [lia|]. destruct (Z.ltb_spec a (-32767)); lia.
Qed.

Lemma SATURATION_TO_S16_id (a : Z) : -32767 <= a <= 32767 -> FF.SATURATION_TO_S16 a = a.
Proof.
  intros H. unfold FF.SATURATION_TO_S16.
  destruct (Z.gtb_spec a 32767); [lia|]. destruct (Z.ltb_spec a (-32767)); lia.
Qed.

Lemma wrap16_SATURATION_TO_S16 (a : Z) :
  wrap16 (FF.SATURATION_TO_S16 a) = FF.SATURATION_TO_S16 a.
Proof.
  apply wrap16_small. pose proof (SATURATION_TO_S16_range a). unfold in_s16. lia.
Qed.

Section FeedForwardServices.
Context {lib : MCLib}.

(** X12.  FF_VqdConditioning adds the feed-forward voltages to 16-bit
    regulator outputs with saturation: each component it returns lies in
    [-32767, 32767], is the exact sum whenever that sum lies there, is 32767
    when the sum is above and -32767 when it is below; the handle records the
    regulator outputs as they came in, and the feed-forward voltages are not
    changed. *)
Theorem FF_VqdConditioning_saturates (pHandle : FF.FF_Handle_t) (Vqd : Volt_Components) :
  in_s16 (qV_Component1 Vqd) -> in_s16 (qV_Component2 Vqd) ->
  let r := FF.FF_VqdConditioning pHandle Vqd in
  let sum1 := qV_Component1 Vqd + qV_Component1 (FF.Vqdff pHandle) in
  let sum2 := qV_Component2 Vqd + qV_Component2 (FF.Vqdff pHandle) in
  (-32767 <= qV_Component1 (snd r) <= 32767 /\ -32767 <= qV_Component2 (snd r) <= 32767) /\
  (-32767 <= sum1 <= 32767 -> qV_Component1 (snd r) = sum1) /\
  (-32767 <= sum2 <= 32767 -> qV_Component2 (snd r) = sum2) /\
  (32767 < sum1 -> qV_Component1 (snd r) = 32767) /\
  (sum1 < -32767 -> qV_Component1 (snd r) = -32767) /\
  (32767 < sum2 -> qV_Component2 (snd r) = 32767) /\
  (sum2 < -32767 -> qV_Component2 (snd r) = -32767) /\
  FF.VqdPIout (fst r) = Vqd /\ FF.Vqdff (fst r) = FF.Vqdff pHandle.
Proof.
  intros H1 H2 r sum1 sum2; subst r.
  unfold FF.FF_VqdConditioning. ff_simpl.
  rewrite !wrap16_SATURATION_TO_S16. fold sum1 sum2.
  pose proof (SATURATION_TO_S16_range sum1). pose proof (SATURATION_TO_S16_range sum2).
  assert (Hi : forall a, 32767 < a -> FF.SATURATION_TO_S16 a = 32767).
  { intros a Ha. unfold FF.SATURATION_TO_S16. destruct (Z.gtb_spec a 32767); lia. }
  assert (Lo : forall a, a < -32767 -> FF.SATURATION_TO_S16 a = -32767).
  { intros a Ha. unfold FF.SATURATION_TO_S16.
    destruct (Z.gtb_spec a 32767); [lia|]. destruct (Z.ltb_spec a (-32767)); lia. }
  repeat split; try lia; try (intros; apply SATURATION_TO_S16_id; assumption);
    first [apply Hi | apply Lo].
Qed.

(** X13.  With a non-zero halved bus voltage (the divisor of the
    computation), whatever the speed, the reference currents and the
    constants, the two feed-forward voltages that FF_VqdffComputation stores
    lie in [-32767, 32767]; the function writes nothing but Vqdff. *)
Theorem FF_VqdffComputation_range (pBusSensorM1 : FF.RDivider_Handle_t)
    (pHandle : FF.FF_Handle_t) (Iqdref : Curr_Components) (pSTC : SpeednTorqCtrl_Handle_t) :
  wrap_u16 (Z.quot (VBS_GetAvBusVoltage_d (FF._Super pBusSensorM1)) 2) <> 0 ->
  let p' := FF.FF_VqdffComputation pBusSensorM1 pHandle Iqdref pSTC in
  (-32767 <= qV_Component1 (FF.FF_GetVqdff p') <= 32767 /\
   -32767 <= qV_Component2 (FF.FF_GetVqdff p') <= 32767) /\
  FF.VqdAvPIout p' = FF.VqdAvPIout pHandle /\ FF.VqdPIout p' = FF.VqdPIout pHandle /\
  FF.FF_GetFFConstants p' = FF.FF_GetFFConstants pHandle.
Proof.
  intros _ p'; subst p'.
  unfold FF.FF_VqdffComputation, FF.FF_GetVqdff, FF.FF_GetFFConstants. ff_simpl.
  rewrite !wrap16_SATURATION_TO_S16.
  repeat split; apply SATURATION_TO_S16_range.
Qed.

(** X14.  At zero electrical speed the feed-forward voltages are the averaged
    regulator outputs: with a non-zero halved bus voltage and 16-bit averages,
    FF_VqdffComputation stores Vqdff = VqdAvPIout, each component saturated
    to [-32767, 32767], whatever the reference currents and the constants. *)
Theorem FF_VqdffComputation_at_standstill (pBusSensorM1 : FF.RDivider_Handle_t)
    (pHandle : FF.FF_Handle_t) (Iqdref : Curr_Components) (pSTC : SpeednTorqCtrl_Handle_t) :
  SPD_GetElSpeedDpp (STC_GetSpeedSensor pSTC) = 0 ->
  wrap_u16 (Z.quot (VBS_GetAvBusVoltage_d (FF._Super pBusSensorM1)) 2) <> 0 ->
  in_s16 (qV_Component1 (FF.VqdAvPIout pHandle)) ->
  in_s16 (qV_Component2 (FF.VqdAvPIout pHandle)) ->
  let p' := FF.FF_VqdffComputation pBusSensorM1 pHandle Iqdref pSTC in
  qV_Component1 (FF.Vqdff p') = FF.SATURATION_TO_S16 (qV_Component1 (FF.VqdAvPIout pHandle)) /\
  qV_Component2 (FF.Vqdff p') = FF.SATURATION_TO_S16 (qV_Component2 (FF.VqdAvPIout pHandle)).
Proof.
  intros Hs Hb H1 H2 p'; subst p'.
  unfold FF.FF_VqdffComputation. ff_simpl. rewrite Hs.
  repeat first [ rewrite Z.mul_0_l | rewrite Z.mul_0_r | rewrite (Z.quot_0_l _ Hb)
               | progress change (Z.quot 0 32768) with 0
               | progress change (wrap32 0) with 0 ].
  rewrite !wrap16_SATURATION_TO_S16, Z.add_0_l, Z.sub_0_r.
  unfold in_s16 in *.
  split; f_equal; apply wrap32_small; unfold in_s32; lia.
Qed.

(** X15.  The tuning constants round-trip, and initialisation overrides
    them: FF_GetFFConstants after FF_SetFFConstants returns the constants
    that were set, FF_SetFFConstants touches no voltage of the handle, and
    FF_Init brings the three constants back to the defaults of the handle
    whatever had been set before. *)
Theorem FF_constants_round_trip (pHandle : FF.FF_Handle_t)
    (sNewConstants : FF.FF_TuningStruct_t) (pBusSensor : BusVoltageSensor_Handle_t)
    (pPIDId pPIDIq : PID_Handle_t) :
  FF.FF_GetFFConstants (FF.FF_SetFFConstants pHandle sNewConstants) = sNewConstants /\
  FF.Vqdff (FF.FF_SetFFConstants pHandle sNewConstants) = FF.Vqdff pHandle /\
  FF.VqdAvPIout (FF.FF_SetFFConstants pHandle sNewConstants) = FF.VqdAvPIout pHandle /\
  FF.FF_GetFFConstants
    (FF.FF_Init (FF.FF_SetFFConstants pHandle sNewConstants) pBusSensor pPIDId pPIDIq)
  = {| FF.wConst_1D := FF.wDefConstant_1D pHandle;
       FF.wConst_1Q := FF.wDefConstant_1Q pHandle;
       FF.wConst_2 := FF.wDefConstant_2 pHandle |}.
Proof.
  unfold FF.FF_GetFFConstants, FF.FF_SetFFConstants, FF.FF_Init. ff_simpl.
  destruct sNewConstants. repeat split.
Qed.

(** X16.  FF_Clear is undone by the next computation and leaves the filter
    alone.  After FF_Clear the conditioning returns 16-bit regulator outputs
    as they are (-32768 becoming -32767); the averaged regulator output is
    not cleared (FF_InitFOCAdditionalMethods clears it); and
    FF_VqdffComputation gives the same handle after FF_Clear as without it. *)
Theorem FF_Clear_composes (pBusSensorM1 : FF.RDivider_Handle_t)
    (pHandle : FF.FF_Handle_t) (Vqd : Volt_Components) (Iqdref : Curr_Components)
    (pSTC : SpeednTorqCtrl_Handle_t) :
  in_s16 (qV_Component1 Vqd) -> in_s16 (qV_Component2 Vqd) ->
  snd (FF.FF_VqdConditioning (FF.FF_Clear pHandle) Vqd)
  = {| qV_Component1 := FF.SATURATION_TO_S16 (qV_Component1 Vqd);
       qV_Component2 := FF.SATURATION_TO_S16 (qV_Component2 Vqd) |} /\
  FF.VqdAvPIout (FF.FF_Clear pHandle) = FF.VqdAvPIout pHandle /\
  FF.VqdAvPIout (FF.FF_InitFOCAdditionalMethods pHandle)
  = {| qV_Component1 := 0; qV_Component2 := 0 |} /\
  FF.FF_VqdffComputation pBusSensorM1 (FF.FF_Clear pHandle) Iqdref pSTC
  = FF.FF_VqdffComputation pBusSensorM1 pHandle Iqdref pSTC.
Proof.
  intros H1 H2.
  unfold FF.FF_VqdConditioning, FF.FF_Clear, FF.FF_InitFOCAdditionalMethods,
    FF.FF_VqdffComputation.
  ff_simpl. rewrite !Z.add_0_r, !wrap16_SATURATION_TO_S16.
  repeat split.
Qed.

End FeedForwardServices.

(** On feed-forward voltages (30000, -30000): regulator outputs
    (5000, 1000) give a first sum that saturates at the upper rail and an
    exact second sum; regulator outputs (1000, -5000) give an exact first sum
    and a second sum that saturates at the lower rail. *)
Lemma FF_VqdConditioning_saturates_witness :
  (let r := FF.FF_VqdConditioning loaded_ff_handle
              {| qV_Component1 := 5000; qV_Component2 := 1000 |} in
   qV_Component1 (snd r) = 32767 /\ qV_Component2 (snd r) = -29000) /\
  (let r := FF.FF_VqdConditioning loaded_ff_handle
              {| qV_Component1 := 1000; qV_Component2 := -5000 |} in
   qV_Component1 (snd r) = 31000 /\ qV_Component2 (snd r) = -32767).
Proof.
  split.
  - destruct (FF_VqdConditioning_saturates loaded_ff_handle
                {| qV_Component1 := 5000; qV_Component2 := 1000 |})
      as (_ & _ & E2 & H1 & _); [vm_compute; split; congruence .. |].
    cbv zeta. split.
    + apply H1. vm_compute; reflexivity.
    + apply E2. vm_compute; split; congruence.
  - destruct (FF_VqdConditioning_saturates loaded_ff_handle
                {| qV_Component1 := 1000; qV_Component2 := -5000 |})
      as (_ & E1 & _ & _ & _ & _ & L2 & _); [vm_compute; split; congruence .. |].
    cbv zeta. split.
    + apply E1. vm_compute; split; congruence.
    + apply L2. vm_compute; reflexivity.
Defined.

(** At 1000 dpp with a halved bus voltage of 10000 and a second constant of
    100000, the q-axis term is 160000 and is stored as 32767. *)
Lemma FF_VqdffComputation_range_witness :
  wrap_u16 (Z.quot (VBS_GetAvBusVoltage_d (FF._Super bus_sensor_M1)) 2) = 10000 /\
  FF.FF_GetVqdff
    (FF.FF_VqdffComputation bus_sensor_M1 stiff_ff_handle reference_currents running_sensor)
  = {| qV_Component1 := 32767; qV_Component2 := 0 |} /\
  -32767 <= qV_Component1
              (FF.FF_GetVqdff
                 (FF.FF_VqdffComputation bus_sensor_M1 stiff_ff_handle reference_currents
                    running_sensor)) <= 32767.
Proof.
  split; [reflexivity |]. split; [reflexivity |].
  apply (FF_VqdffComputation_range bus_sensor_M1 stiff_ff_handle reference_currents
           running_sensor).
  vm_compute; congruence.
Defined.

(** At 0 dpp the feed-forward voltages are the averages (1000, -2000). *)
Lemma FF_VqdffComputation_at_standstill_witness :
  FF.Vqdff (FF.FF_VqdffComputation bus_sensor_M1 standstill_ff_handle reference_currents
              resting_sensor)
  = {| qV_Component1 := 1000; qV_Component2 := -2000 |}.
Proof.
  destruct (FF_VqdffComputation_at_standstill bus_sensor_M1 standstill_ff_handle
              reference_currents resting_sensor) as (A & B);
    [first [reflexivity | vm_compute; first [congruence | split; congruence]] .. |].
  destruct (FF.Vqdff _) as [v1 v2]. cbn [qV_Component1 qV_Component2] in A, B.
  rewrite A, B. reflexivity.
Defined.

(** After FF_Clear, regulator outputs (-32768, 100) come back as
    (-32767, 100). *)
Lemma FF_Clear_composes_witness :
  snd (FF.FF_VqdConditioning (FF.FF_Clear loaded_ff_handle)
         {| qV_Component1 := -32768; qV_Component2 := 100 |})
  = {| qV_Component1 := -32767; qV_Component2 := 100 |}.
Proof.
  apply (FF_Clear_composes bus_sensor_M1 loaded_ff_handle
           {| qV_Component1 := -32768; qV_Component2 := 100 |} reference_currents
           resting_sensor); vm_compute; split; congruence.
Defined.

(** ** Observer step: what it publishes and what it keeps *)

Section ObserverOutputs.
Context {lib : MCLib} {pidlib : PIDLib}.

(** The 16-bit back-EMF estimates that a step publishes are the clamped
    stored estimates, scaled down by F2; the step does not write the
    convergence flag. *)
Lemma STO_CalcElAngle_publishes (misra : bool) (pHandle : STO_Handle_t)
    (pInputs : Observer_Inputs_t) :
  let p' := fst (STO_CalcElAngle misra pHandle pInputs) in
  let scale := fun w =>
    wrap16 (if misra then Z.quot w (hF2 pHandle) else Z.shiftr w (F2LOG pHandle)) in
  hBemf_alfa_est p'
    = scale (clamp_estimate (wBemf_alfa_est pHandle) (hF2 pHandle)) /\
  hBemf_beta_est p'
    = scale (clamp_estimate (wBemf_beta_est pHandle) (hF2 pHandle)) /\
  IsAlgorithmConverged p' = IsAlgorithmConverged pHandle.
Proof.
  intros p' scale; subst p' scale.
  destruct pHandle as [sup c1 c2 c3 c4 c5 c6 f1 f2].
  sto_eval. rewrite (Z.mul_comm f2 INT16_MAX).
  repeat split.
Qed.

(** A clamped estimate scaled down by its factor is a 16-bit value other
    than -32768, in the division form and in the shift form. *)
Lemma descale_within (misra : bool) (w F L : Z) :
  within_clamp w F ->
  (misra = true -> 0 < F) ->
  (misra = false -> 0 <= L /\ F = 2 ^ L) ->
  -32767 <= (if misra then Z.quot w F else Z.shiftr w L) <= 32767.
Proof.
  unfold within_clamp, INT16_MAX. intros Hw Hq Hs. destruct misra.
  - specialize (Hq eq_refl). apply quot_bounds; lia.
  - destruct (Hs eq_refl) as [HL HF]. rewrite Z.shiftr_div_pow2 by assumption.
    rewrite <- HF. assert (0 < F) by (subst F; apply Z.pow_pos_nonneg; lia).
    split.
    + apply Z.div_le_lower_bound; lia.
    + apply Z.div_le_upper_bound; lia.
Qed.

(** X17.  After every observer step the back-EMF estimates that
    STO_GetEstimatedBemf exports lie in [-32767, 32767]: they are taken from
    the stored estimates after the clamp, so that -32768 is never exported
    (for a positive factor F2, which is 2^F2LOG in the shift form). *)
Theorem STO_GetEstimatedBemf_range (misra : bool) (pHandle : STO_Handle_t)
    (pInputs : Observer_Inputs_t) :
  0 < hF2 pHandle ->
  (misra = false -> 0 <= F2LOG pHandle /\ hF2 pHandle = 2 ^ F2LOG pHandle) ->
  let Vaux := STO_GetEstimatedBemf (fst (STO_CalcElAngle misra pHandle pInputs)) in
  -32767 <= qV_Component1 Vaux <= 32767 /\ -32767 <= qV_Component2 Vaux <= 32767.
Proof.
  intros HF HL Vaux; subst Vaux. unfold STO_GetEstimatedBemf. cbn [qV_Component1 qV_Component2].
  destruct (STO_CalcElAngle_publishes misra pHandle pInputs) as (E1 & E2 & _).
  rewrite E1, E2.
  pose proof (descale_within misra _ _ (F2LOG pHandle)
                (clamp_estimate_within (wBemf_alfa_est pHandle) _ HF) (fun _ => HF) HL) as B1.
  pose proof (descale_within misra _ _ (F2LOG pHandle)
                (clamp_estimate_within (wBemf_beta_est pHandle) _ HF) (fun _ => HF) HL) as B2.
  rewrite !wrap16_small by (unfold in_s16; lia). split; assumption.
Qed.

(** X18.  STO_GetEstimatedCurrent scales the stored current estimates
    without clamping them.  Within the clamp range it exports the scaled
    estimate, a value in [-32767, 32767]; but the estimate that a step has
    stored can lie above the range, and one from 32768 * F1 up to
    32769 * F1 - 1 is exported as -32768. *)
Theorem STO_GetEstimatedCurrent_unclamped (misra : bool) (pHandle : STO_Handle_t) :
  0 < hF1 pHandle ->
  (misra = false -> 0 <= F1LOG pHandle /\ hF1 pHandle = 2 ^ F1LOG pHandle) ->
  let Iaux := STO_GetEstimatedCurrent misra pHandle in
  (within_clamp (Ialfa_est pHandle) (hF1 pHandle) ->
   -32767 <= qI_Component1 Iaux <= 32767 /\
   qI_Component1 Iaux
   = (if misra then Z.quot (Ialfa_est pHandle) (hF1 pHandle)
      else Ialfa_est pHandle / hF1 pHandle)) /\
  (32768 * hF1 pHandle <= Ialfa_est pHandle < 32769 * hF1 pHandle ->
   qI_Component1 Iaux = -32768).
Proof.
  intros HF HL Iaux; subst Iaux. unfold STO_GetEstimatedCurrent. cbn [qI_Component1].
  split.
  - intros Hw.
    pose proof (descale_within misra _ _ (F1LOG pHandle) Hw (fun _ => HF) HL) as B.
    rewrite wrap16_small by (unfold in_s16; lia). split; [exact B|].
    destruct misra; [reflexivity|].
    destruct (HL eq_refl) as [H0 H1]. rewrite Z.shiftr_div_pow2 by assumption.
    rewrite <- H1. reflexivity.
  - intros Hw.
    assert (E : (if misra then Z.quot (Ialfa_est pHandle) (hF1 pHandle)
                 else Z.shiftr (Ialfa_est pHandle) (F1LOG pHandle)) = 32768).
    { assert (D : Ialfa_est pHandle / hF1 pHandle = 32768).
      { symmetry. apply (Z.div_unique _ _ _ (Ialfa_est pHandle - 32768 * hF1 pHandle)); lia. }
      destruct misra.
      - rewrite Z.quot_div_nonneg by lia. exact D.
      - destruct (HL eq_refl) as [H0 H1]. rewrite Z.shiftr_div_pow2 by assumption.
        rewrite <- H1. exact D. }
    rewrite E. reflexivity.
Qed.

(** X19.  Convergence is withdrawn by STO_Clear only.  STO_IsObserverConverged
    never lowers the flag IsAlgorithmConverged; the observer step, the two
    averaging functions and the services that set forcing and thresholds do
    not write it, not even on the call of STO_CalcAvrgMecSpeed01Hz that trips
    the reliability hysteresis; STO_Clear lowers it. *)
Theorem STO_convergence_latches (misra : bool) (pHandle : STO_Handle_t)
    (pInputs : Observer_Inputs_t) (hForced : Z) :
  (IsAlgorithmConverged pHandle = true ->
   IsAlgorithmConverged (fst (STO_IsObserverConverged pHandle hForced)) = true) /\
  IsAlgorithmConverged (fst (STO_CalcElAngle misra pHandle pInputs))
  = IsAlgorithmConverged pHandle /\
  IsAlgorithmConverged (fst (fst (STO_CalcAvrgMecSpeed01Hz pHandle)))
  = IsAlgorithmConverged pHandle /\
  IsAlgorithmConverged (STO_CalcAvrgElSpeedDpp misra pHandle)
  = IsAlgorithmConverged pHandle /\
  IsAlgorithmConverged (STO_ForceConvergency1 pHandle) = IsAlgorithmConverged pHandle /\
  IsAlgorithmConverged (STO_ForceConvergency2 pHandle) = IsAlgorithmConverged pHandle /\
  IsAlgorithmConverged (STO_ResetPLL pHandle) = IsAlgorithmConverged pHandle /\
  IsAlgorithmConverged (STO_Clear pHandle) = false.
Proof.
  split.
  { intros H. unfold STO_IsObserverConverged.
    repeat match goal with |- context [if ?c then _ else _] => destruct c end;
      sto_norm; first [reflexivity | exact H]. }
  destruct (STO_CalcElAngle_publishes misra pHandle pInputs) as (_ & _ & E1).
  destruct (STO_CalcAvrgMecSpeed01Hz_fields pHandle) as (_ & _ & _ & _ & _ & E2 & _).
  destruct (STO_Clear_fields pHandle) as (_ & _ & _ & (E3 & _) & _).
  split; [exact E1 | split; [exact E2 |]].
  split; [reflexivity |].
  split; [reflexivity |]. split; [reflexivity |]. split; [reflexivity | exact E3].
Qed.

(** X20.  STO_InitSpeedBuffer zeroes the entries in use and nothing else:
    every entry below SpeedBufferSize01Hz reads 0 afterwards, every entry
    from SpeedBufferSize01Hz on is as before, the array keeps its length, and
    the index and the oldest-element snapshot are 0. *)
Theorem STO_InitSpeedBuffer_zeroes (pHandle : STO_Handle_t) :
  SpeedBufferSize01Hz pHandle <= Z.of_nat (length (Speed_Buffer pHandle)) ->
  let p' := STO_InitSpeedBuffer pHandle in
  length (Speed_Buffer p') = length (Speed_Buffer pHandle) /\
  (forall i, 0 <= i < SpeedBufferSize01Hz pHandle -> buf_get (Speed_Buffer p') i = 0) /\
  (forall i, SpeedBufferSize01Hz pHandle <= i ->
     buf_get (Speed_Buffer p') i = buf_get (Speed_Buffer pHandle) i) /\
  Speed_Buffer_Index p' = 0 /\ SpeedBufferOldestEl p' = 0 /\
  SpeedBufferSize01Hz p' = SpeedBufferSize01Hz pHandle.
Proof.
  intros Hlen p'; subst p'.
  rewrite STO_InitSpeedBuffer_frame. sto_norm.
  unfold STO_InitSpeedBuffer, for_upto. sto_norm.
  set (n := SpeedBufferSize01Hz pHandle) in *.
  assert (G : forall k q,
            let q' := fold_left
                        (fun a i => set_Speed_Buffer (buf_set (Speed_Buffer a) (Z.of_nat i) 0) a)
                        (seq 0 k) q in
            length (Speed_Buffer q') = length (Speed_Buffer q) /\
            forall i, (0 <= i)%nat ->
              nth i (Speed_Buffer q') 0
              = if (i <? k)%nat then (if (i <? length (Speed_Buffer q))%nat then 0
                                      else nth i (Speed_Buffer q) 0)
                else nth i (Speed_Buffer q) 0).
  { induction k as [|k IH]; intros q q'; subst q'.
    - cbn. split; [reflexivity | intros; reflexivity].
    - rewrite seq_S, fold_left_app. cbn [fold_left Nat.add].
      destruct (IH q) as [L E]. cbv zeta in L, E.
      set (q1 := fold_left _ (seq 0 k) q) in *.
      sto_norm. rewrite buf_set_length. split; [exact L|].
      intros i _. unfold buf_set. rewrite Nat2Z.id.
      destruct (Nat.eq_dec k i) as [->|ne].
      + replace (i <? S i)%nat with true by (symmetry; apply Nat.ltb_lt; lia).
        destruct (Nat.ltb_spec i (length (Speed_Buffer q))).
        * apply nth_list_set_same. lia.
        * rewrite nth_overflow by (rewrite list_set_length; lia).
          symmetry. apply nth_overflow. lia.
      + rewrite nth_list_set_other by assumption. rewrite E by lia.
        destruct (Nat.ltb_spec i k); destruct (Nat.ltb_spec i (S k)); try lia; reflexivity. }
  destruct (G (Z.to_nat n) pHandle) as [L E]. cbv zeta in L, E.
  repeat split; try assumption.
  - intros i Hi. unfold buf_get. rewrite E by lia.
    replace (Z.to_nat i <? Z.to_nat n)%nat with true by (symmetry; apply Nat.ltb_lt; lia).
    replace (Z.to_nat i <? length (Speed_Buffer pHandle))%nat with true
      by (symmetry; apply Nat.ltb_lt; lia).
    reflexivity.
  - intros i Hi. unfold buf_get. rewrite E by lia.
    destruct (Nat.ltb_spec (Z.to_nat i) (Z.to_nat n)); [|reflexivity].
    assert (n <= 0) by lia. lia.
Qed.

End ObserverOutputs.

(** The clamp scenario in the shift form. *)
Lemma STO_GetEstimatedBemf_range_witness :
  let Vaux := STO_GetEstimatedBemf
                (fst (STO_CalcElAngle false saturated_handle braking_inputs)) in
  -32767 <= qV_Component1 Vaux <= 32767 /\ -32767 <= qV_Component2 Vaux <= 32767.
Proof.
  apply (STO_GetEstimatedBemf_range false saturated_handle braking_inputs).
  - vm_compute; reflexivity.
  - intros _. vm_compute. split; congruence.
Defined.

(** A stored estimate of 32768 * F1 is exported as -32768. *)
Lemma STO_GetEstimatedCurrent_unclamped_witness :
  qI_Component1 (STO_GetEstimatedCurrent true overshoot_handle) = -32768.
Proof.
  destruct (STO_GetEstimatedCurrent_unclamped true overshoot_handle) as (_ & A).
  - vm_compute; reflexivity.
  - intros H; discriminate H.
  - apply A. vm_compute; split; congruence.
Defined.

(** A buffer holding 1..8 with four entries in use: entry 2 is zeroed and
    entry 5 keeps its 6. *)
Lemma STO_InitSpeedBuffer_zeroes_witness :
  let p' := STO_InitSpeedBuffer numbered_handle in
  length (Speed_Buffer p') = 8%nat /\
  buf_get (Speed_Buffer p') 2 = 0 /\ buf_get (Speed_Buffer p') 5 = 6.
Proof.
  destruct (STO_InitSpeedBuffer_zeroes numbered_handle) as (A & B & C & _);
    [vm_compute; congruence |].
  cbv zeta. split; [exact A | split].
  - apply B. vm_compute; split; congruence.
  - apply (C 5). vm_compute; congruence.
Defined.

(** ** Angle and speeds over a run *)

Lemma wrap16_add_l (a b : Z) : wrap16 (wrap16 a + b) = wrap16 (a + b).
Proof.
  unfold wrap16. f_equal.
  replace ((a + 32768) mod 65536 - 32768 + b + 32768)
    with ((a + 32768) mod 65536 + b) by lia.
  rewrite Zplus_mod_idemp_l. f_equal. lia.
Qed.

(** Overwriting one of the first [n] entries changes their sum by the
    difference of the two values, and keeps a property that the new value
    has. *)
Lemma samples_sum_firstn_list_set (b : list Z) (n i : nat) (v : Z) :
  (i < n)%nat -> (n <= length b)%nat ->
  samples_sum (firstn n (list_set b i v)) = samples_sum (firstn n b) - nth i b 0 + v.
Proof.
  revert n i; induction b as [|x t IH]; intros n i Hi Hn; cbn [length] in Hn.
  - lia.
  - destruct n as [|n]; [lia|]. destruct i as [|i]; cbn [list_set firstn nth samples_sum fold_right].
    + fold (samples_sum (firstn n t)). lia.
    + fold (samples_sum (firstn n (list_set t i v))). fold (samples_sum (firstn n t)).
      rewrite IH by lia. lia.
Qed.

Lemma Forall_firstn_list_set (P : Z -> Prop) (b : list Z) (n i : nat) (v : Z) :
  P v -> Forall P (firstn n b) -> Forall P (firstn n (list_set b i v)).
Proof.
  intros Hv. revert n i; induction b as [|x t IH]; intros n i H.
  - destruct n, i; exact H.
  - destruct n as [|n]; [constructor|].
    cbn [firstn] in H. inversion H as [|? ? Hx Ht]; subst.
    destruct i as [|i]; cbn [list_set firstn]; constructor; auto.
Qed.

(** Entries that all read 0 are zeros. *)
Lemma firstn_zeros (b : list Z) (n : nat) :
  (n <= length b)%nat -> (forall i, (i < n)%nat -> nth i b 0 = 0) ->
  firstn n b = repeat 0 n.
Proof.
  revert b; induction n as [|n IH]; intros b Hn Hz; [reflexivity|].
  destruct b as [|x t]; cbn [length] in Hn; [lia|].
  cbn [firstn repeat]. f_equal.
  - apply (Hz O). lia.
  - apply IH; [lia|]. intros i Hi. apply (Hz (S i)). lia.
Qed.

(** The first loop of STO_CalcAvrgMecSpeed01Hz adds up the entries in use,
    without overflow when they are 16-bit values. *)
Lemma for_upto_sum (b : list Z) (n : Z) :
  0 <= n <= 255 -> n <= Z.of_nat (length b) -> Forall in_s16 (firstn (Z.to_nat n) b) ->
  for_upto n (fun w i => wrap32 (w + buf_get b i)) 0 = samples_sum (firstn (Z.to_nat n) b).
Proof.
  intros Hn Hl Hb. unfold for_upto.
  set (f := fun (a : Z) (i : nat) => wrap32 (a + buf_get b (Z.of_nat i))).
  assert (G : forall k, (k <= Z.to_nat n)%nat ->
            fold_left f (seq 0 k) 0 = samples_sum (firstn k b)).
  { induction k as [|k IH]; intros Hk; [reflexivity|].
    rewrite seq_S, fold_left_app, IH by lia. cbn [fold_left Nat.add]. subst f. cbv beta.
    unfold buf_get. rewrite Nat2Z.id.
    rewrite samples_sum_firstn_succ.
    assert (B : -32768 * Z.of_nat (S k) <= samples_sum (firstn (S k) b)
                <= 32767 * Z.of_nat (S k)).
    { replace (firstn (S k) b) with (firstn (S k) (firstn (Z.to_nat n) b))
        by (rewrite firstn_firstn; f_equal; lia).
      apply samples_sum_firstn_bounds. exact Hb. }
    rewrite samples_sum_firstn_succ in B.
    apply wrap32_small. unfold in_s32. lia. }
  apply G. lia.
Qed.

Section AngleRun.
Context {lib : MCLib}.

(** The angle after an observer step is the angle before it plus the output
    of the regulator, cut to 16 bits. *)
Lemma STO_CalcElAngle_angle (misra : bool) (pHandle : STO_Handle_t)
    (pInputs : Observer_Inputs_t) :
  let p1 := fst (STO_CalcElAngle misra pHandle pInputs) in
  let x :=
    snd (PI_Controller (PIRegulator pHandle)
           (err_pll_code misra (hBemf_alfa_est p1) (hBemf_beta_est p1)
              (STO_direction pHandle) (MCM_Trig_Functions (hElAngle (_Super pHandle))))) in
  hElAngle (_Super p1) = wrap16 (hElAngle (_Super pHandle) + x).
Proof.
  intros p1 x; subst p1 x. sto_eval. reflexivity.
Qed.

(** The averaging call writes the dpp speed and the rolling sum only; with
    equal buffer sizes the rolling sum takes in the newest entry and lets go
    of the oldest-element snapshot. *)
Lemma STO_CalcAvrgElSpeedDpp_frame (misra : bool) (pHandle : STO_Handle_t) :
  let p2 := STO_CalcAvrgElSpeedDpp misra pHandle in
  hElAngle (_Super p2) = hElAngle (_Super pHandle) /\
  Speed_Buffer p2 = Speed_Buffer pHandle /\
  Speed_Buffer_Index p2 = Speed_Buffer_Index pHandle /\
  SpeedBufferSize01Hz p2 = SpeedBufferSize01Hz pHandle /\
  SpeedBufferSizedpp p2 = SpeedBufferSizedpp pHandle /\
  (index_in_range pHandle -> SpeedBufferSizedpp pHandle = SpeedBufferSize01Hz pHandle ->
   DppBufferSum p2
   = wrap32 (DppBufferSum pHandle
             + buf_get (Speed_Buffer pHandle) (Speed_Buffer_Index pHandle)
             - SpeedBufferOldestEl pHandle) /\
   (misra = true ->
    hElSpeedDpp (_Super p2)
    = wrap16 (Z.quot (DppBufferSum p2) (SpeedBufferSizedpp pHandle)))).
Proof.
  intros p2; subst p2. unfold STO_CalcAvrgElSpeedDpp. sto_simpl.
  repeat (split; [reflexivity|]).
  intros (Hn & Hl & Hi) Hd. rewrite Hd.
  set (n := SpeedBufferSize01Hz pHandle) in *.
  rewrite (wrap16_small n) by (unfold in_s16; lia).
  rewrite (wrap16_small (Speed_Buffer_Index pHandle)) by (unfold in_s16; lia).
  rewrite Z.sub_diag. change (wrap16 0 =? 0) with true. cbv iota.
  split; [reflexivity|]. intros ->. reflexivity.
Qed.

(** STO_Clear keeps the number of entries in use. *)
Lemma STO_Clear_size (pHandle : STO_Handle_t) :
  SpeedBufferSize01Hz (STO_Clear pHandle) = SpeedBufferSize01Hz pHandle.
Proof.
  unfold STO_Clear. rewrite STO_InitSpeedBuffer_frame. reflexivity.
Qed.

(** The second half of a tick, on a handle [p1] in which an observer step
    has stored the sample [x]. *)
Lemma STO_tick_from_store (misra : bool) (pHandle p1 : STO_Handle_t) (x : Z) :
  index_in_range pHandle ->
  Speed_Buffer p1 = Speed_Buffer (STO_Store_Rotor_Speed pHandle x) ->
  Speed_Buffer_Index p1 = Speed_Buffer_Index (STO_Store_Rotor_Speed pHandle x) ->
  SpeedBufferOldestEl p1 = SpeedBufferOldestEl (STO_Store_Rotor_Speed pHandle x) ->
  SpeedBufferSize01Hz p1 = SpeedBufferSize01Hz pHandle ->
  SpeedBufferSizedpp p1 = SpeedBufferSizedpp pHandle ->
  DppBufferSum p1 = DppBufferSum pHandle ->
  let p' := STO_CalcAvrgElSpeedDpp misra p1 in
  STO_newest_sample p1 = x /\
  0 <= Speed_Buffer_Index p' < SpeedBufferSize01Hz pHandle /\
  Speed_Buffer p' = buf_set (Speed_Buffer pHandle) (Speed_Buffer_Index p') x /\
  SpeedBufferSize01Hz p' = SpeedBufferSize01Hz pHandle /\
  SpeedBufferSizedpp p' = SpeedBufferSizedpp pHandle /\
  hElAngle (_Super p') = hElAngle (_Super p1) /\
  (SpeedBufferSizedpp pHandle = SpeedBufferSize01Hz pHandle ->
   DppBufferSum p'
   = wrap32 (DppBufferSum pHandle + x
             - buf_get (Speed_Buffer pHandle) (Speed_Buffer_Index p')) /\
   (misra = true ->
    hElSpeedDpp (_Super p')
    = wrap16 (Z.quot (DppBufferSum p') (SpeedBufferSizedpp pHandle)))).
Proof.
  intros (Hn & Hl & Hi) F1 F2 F3 F4 F5 F7 p'; subst p'.
  unfold STO_Store_Rotor_Speed in F1, F2, F3. sto_simpl_in F1. sto_simpl_in F2. sto_simpl_in F3.
  rewrite (wrap_u8_small (Speed_Buffer_Index pHandle + 1)) in F1, F2, F3 by lia.
  set (i' := if Speed_Buffer_Index pHandle + 1 =? SpeedBufferSize01Hz pHandle
             then 0 else Speed_Buffer_Index pHandle + 1) in *.
  assert (Hi' : 0 <= i' < SpeedBufferSize01Hz pHandle).
  { subst i'. destruct (Z.eqb_spec (Speed_Buffer_Index pHandle + 1)
                          (SpeedBufferSize01Hz pHandle)); lia. }
  assert (N : buf_get (Speed_Buffer p1) (Speed_Buffer_Index p1) = x).
  { rewrite F1, F2. apply buf_get_set_same. lia. }
  assert (R1 : index_in_range p1).
  { unfold index_in_range. rewrite F1, F2, F4, buf_set_length. lia. }
  destruct (STO_CalcAvrgElSpeedDpp_frame misra p1) as (G1 & G2 & G3 & G4 & G5 & G6).
  unfold STO_newest_sample. rewrite G1, G2, G3, G4, G5, F1, F2, F4, F5.
  split; [rewrite <- F1, <- F2; exact N |].
  split; [exact Hi' |].
  split; [reflexivity|]. split; [reflexivity|]. split; [reflexivity|]. split; [reflexivity|].
  intros Hd. destruct (G6 R1) as [S1 S2]; [rewrite F4, F5; exact Hd |].
  rewrite F5 in S2. split; [| exact S2].
  rewrite S1, F7, F3, N. reflexivity.
Qed.

(** One tick on the handle: the sample it stores, where it stores it, and
    what it does to the angle, the rolling sum and the dpp speed. *)
Lemma STO_tick_handle (misra : bool) (pHandle : STO_Handle_t) (h : list Z)
    (pInputs : Observer_Inputs_t) :
  index_in_range pHandle ->
  let st' := STO_tick misra (pHandle, h) pInputs in
  let p' := fst st' in
  exists x,
    snd st' = x :: h /\
    ((forall pid e, in_s16 (snd (PI_Controller pid e))) -> in_s16 x) /\
    0 <= Speed_Buffer_Index p' < SpeedBufferSize01Hz pHandle /\
    Speed_Buffer p' = buf_set (Speed_Buffer pHandle) (Speed_Buffer_Index p') x /\
    SpeedBufferSize01Hz p' = SpeedBufferSize01Hz pHandle /\
    SpeedBufferSizedpp p' = SpeedBufferSizedpp pHandle /\
    hElAngle (_Super p') = wrap16 (hElAngle (_Super pHandle) + x) /\
    (SpeedBufferSizedpp pHandle = SpeedBufferSize01Hz pHandle ->
     DppBufferSum p'
     = wrap32 (DppBufferSum pHandle + x
               - buf_get (Speed_Buffer pHandle) (Speed_Buffer_Index p')) /\
     (misra = true ->
      hElSpeedDpp (_Super p')
      = wrap16 (Z.quot (DppBufferSum p') (SpeedBufferSizedpp pHandle)))).
Proof.
  intros HR. unfold STO_tick. cbn [fst snd].
  pose proof (STO_CalcElAngle_stores misra pHandle pInputs) as F.
  pose proof (STO_CalcElAngle_angle misra pHandle pInputs) as A. cbv zeta in F, A.
  destruct F as (F1 & F2 & F3 & F4 & F5 & F6 & F7).
  destruct (STO_tick_from_store misra pHandle _ _ HR F1 F2 F3 F4 F5 F7)
    as (N & T3 & T4 & T5 & T6 & T7 & T8).
  eexists. split; [rewrite N; reflexivity |].
  split; [intros HPI; apply HPI |].
  split; [exact T3 |]. split; [exact T4 |]. split; [exact T5 |]. split; [exact T6 |].
  split; [rewrite T7; exact A | exact T8].
Qed.

(** X21.  The electrical angle integrates the speed samples.  From a handle
    whose buffer index is in range and whose angle is a 16-bit value, after
    any number of ticks (observer step, then averaging call) the angle is the
    initial angle plus the sum of all speed samples stored during the run,
    cut to 16 bits; one sample is stored per tick. *)
Theorem STO_angle_integrates_speed (misra : bool) (pHandle : STO_Handle_t)
    (inputs : list Observer_Inputs_t) :
  index_in_range pHandle ->
  in_s16 (hElAngle (_Super pHandle)) ->
  let st := STO_run misra inputs (pHandle, []) in
  hElAngle (_Super (fst st))
  = wrap16 (hElAngle (_Super pHandle) + samples_sum (snd st)) /\
  length (snd st) = length inputs.
Proof.
  intros HR HA.
  assert (G : forall ins p h,
            index_in_range p ->
            hElAngle (_Super p) = wrap16 (hElAngle (_Super pHandle) + samples_sum h) ->
            let st := STO_run misra ins (p, h) in
            hElAngle (_Super (fst st))
            = wrap16 (hElAngle (_Super pHandle) + samples_sum (snd st)) /\
            length (snd st) = (length ins + length h)%nat).
  { induction ins as [|i rest IH]; intros p h Hp Ha; cbn [STO_run fold_left].
    - split; [exact Ha | reflexivity].
    - destruct (STO_tick_handle misra p h i Hp)
        as (x & T1 & _ & T3 & T4 & T5 & _ & T7 & _).
      pose proof Hp as (Hn & Hl & Hi).
      destruct (STO_tick misra (p, h) i) as [p' h'] eqn:E. cbn [fst snd] in *. subst h'.
      destruct (IH p' (x :: h)) as [I1 I2].
      + unfold index_in_range. rewrite T4, T5, buf_set_length. lia.
      + rewrite T7, Ha, wrap16_add_l. f_equal.
        change (samples_sum (x :: h)) with (x + samples_sum h). lia.
      + unfold STO_run in I1, I2. split; [exact I1 |].
        rewrite I2. cbn [length]. lia. }
  intros st; subst st.
  destruct (G inputs pHandle [] HR) as [G1 G2].
  - change (samples_sum []) with 0. rewrite Z.add_0_r. symmetry. apply wrap16_small. exact HA.
  - split; [exact G1 | rewrite G2; cbn [length]; lia].
Qed.

(** X22.  With equal buffer sizes the two speeds agree.  From a cleared
    handle whose two averages are taken over the same 1 to 255 entries, with
    a regulator whose output is a 16-bit value and in the division form:
    after any number of ticks, the average that STO_CalcAvrgMecSpeed01Hz
    takes over the buffer is the dpp speed hElSpeedDpp that the averaging
    call has published, and the mechanical speed it reports is the
    conversion of that dpp speed. *)
Theorem STO_speeds_agree (pHandle : STO_Handle_t) (inputs : list Observer_Inputs_t) :
  (forall pid e, in_s16 (snd (PI_Controller pid e))) ->
  1 <= SpeedBufferSize01Hz pHandle <= 255 ->
  SpeedBufferSizedpp pHandle = SpeedBufferSize01Hz pHandle ->
  SpeedBufferSize01Hz pHandle <= Z.of_nat (length (Speed_Buffer pHandle)) ->
  let p' := fst (STO_run true inputs (STO_Clear pHandle, [])) in
  STO_avr_speed_dpp p' = hElSpeedDpp (_Super p') /\
  snd (fst (STO_CalcAvrgMecSpeed01Hz p'))
  = wrap16 (STO_mec_speed_of_dpp p' (hElSpeedDpp (_Super p'))).
Proof.
  intros HPI Hn Hd Hl.
  assert (Step : forall p h i,
            index_in_range p -> speeds_in_sync p ->
            let p' := fst (STO_tick true (p, h) i) in
            index_in_range p' /\ speeds_in_sync p').
  { intros p h i Hp (K1 & K2 & K3 & K4).
    destruct (STO_tick_handle true p h i Hp)
      as (x & _ & T2 & T3 & T4 & T5 & T6 & _ & T8).
    specialize (T2 HPI). destruct (T8 K1) as [T9 T10]. specialize (T10 eq_refl).
    pose proof Hp as (Hpn & Hpl & Hpi).
    cbv zeta. set (p' := fst (STO_tick true (p, h) i)) in *.
    set (n := SpeedBufferSize01Hz p) in *.
    set (i' := Speed_Buffer_Index p') in *.
    assert (Tot : STO_buffer_total p'
                  = STO_buffer_total p - buf_get (Speed_Buffer p) i' + x).
    { unfold STO_buffer_total. rewrite T4, T5. fold n. unfold buf_set, buf_get.
      apply samples_sum_firstn_list_set; lia. }
    assert (Fa : Forall in_s16 (firstn (Z.to_nat n) (Speed_Buffer p'))).
    { rewrite T4. unfold buf_set. apply Forall_firstn_list_set; assumption. }
    split.
    - unfold index_in_range. rewrite T4, T5, buf_set_length. fold n i'. lia.
    - unfold speeds_in_sync. rewrite T5, T6. fold n.
      split; [exact K1 | split; [exact Fa |]].
      assert (B : -32768 * n <= STO_buffer_total p' <= 32767 * n).
      { unfold STO_buffer_total. rewrite T5. fold n.
        pose proof (samples_sum_firstn_bounds (Z.to_nat n) _ Fa) as B.
        rewrite firstn_firstn, Nat.min_id in B. lia. }
      assert (S' : DppBufferSum p' = STO_buffer_total p').
      { rewrite T9, K3, Tot.
        replace (STO_buffer_total p + x - buf_get (Speed_Buffer p) i')
          with (STO_buffer_total p - buf_get (Speed_Buffer p) i' + x) by lia.
        rewrite <- Tot. apply wrap32_small. unfold in_s32. lia. }
      split; [exact S' | rewrite T10, K1; reflexivity]. }
  assert (Run : forall ins p h,
            index_in_range p -> speeds_in_sync p ->
            let p' := fst (STO_run true ins (p, h)) in
            index_in_range p' /\ speeds_in_sync p').
  { induction ins as [|i rest IH]; intros p h Hp Hs; cbn [STO_run fold_left fst].
    - split; assumption.
    - destruct (Step p h i Hp Hs) as [S1 S2]. cbv zeta in S1, S2.
      destruct (STO_tick true (p, h) i) as [p1 h1]. cbn [fst] in S1, S2.
      apply (IH p1 h1 S1 S2). }
  assert (Start : index_in_range (STO_Clear pHandle) /\ speeds_in_sync (STO_Clear pHandle)).
  { destruct (STO_Clear_holds pHandle) as ((_ & B2 & B3 & B4 & _ & B6) & _ & C3 & _);
      try lia.
    destruct (STO_Clear_fields pHandle)
      as (_ & (_ & Hce) & (_ & _ & Hcs) & _). cbv zeta in Hce, Hcs.
    pose proof (STO_Clear_size pHandle) as C4. rewrite <- Hd, <- C3 in C4.
    generalize dependent (STO_Clear pHandle). intros c B2 B3 B4 B6 C3 Hce Hcs C4.
    set (n := SpeedBufferSize01Hz c) in *.
    assert (Hcn : 1 <= n <= 255) by lia.
    assert (Z0 : firstn (Z.to_nat n) (Speed_Buffer c) = repeat 0 (Z.to_nat n)).
    { apply firstn_zeros; [lia|]. intros i Hi.
      pose proof (Z.mod_pos_bound (Speed_Buffer_Index c - Z.of_nat i) n ltac:(lia)) as Hm.
      specialize (B6 ((Speed_Buffer_Index c - Z.of_nat i) mod n) Hm).
      rewrite Zminus_mod_idemp_r in B6.
      replace (Speed_Buffer_Index c - (Speed_Buffer_Index c - Z.of_nat i))
        with (Z.of_nat i) in B6 by lia.
      rewrite Z.mod_small in B6 by lia.
      unfold buf_get in B6. rewrite Nat2Z.id in B6. rewrite B6.
      destruct (Z.to_nat _); reflexivity. }
    assert (S0 : forall k, samples_sum (repeat 0 k) = 0).
    { induction k as [|k IH]; [reflexivity|].
      cbn [repeat]. change (samples_sum (0 :: repeat 0 k)) with (0 + samples_sum (repeat 0 k)).
      rewrite IH. reflexivity. }
    split; [unfold index_in_range; fold n; lia |].
    unfold speeds_in_sync, STO_buffer_total. fold n. rewrite Z0, S0, Hce, Hcs, <- C4.
    split; [reflexivity |]. split.
    - apply Forall_forall. intros y Hy. apply repeat_spec in Hy. subst y.
      unfold in_s16. lia.
    - split; [reflexivity |]. rewrite Z.quot_0_l by lia. reflexivity. }
  destruct Start as [St1 St2].
  destruct (Run inputs (STO_Clear pHandle) [] St1 St2) as [(Rn & Rl & Ri) (K1 & K2 & K3 & K4)].
  cbv zeta in *.
  generalize dependent (fst (STO_run true inputs (STO_Clear pHandle, []))).
  intros p' Rn Rl Ri K1 K2 K3 K4.
  assert (Avr : STO_avr_speed_dpp p' = hElSpeedDpp (_Super p')).
  { unfold STO_avr_speed_dpp. cbv zeta.
    rewrite for_upto_sum by (try assumption; lia).
    fold (STO_buffer_total p'). rewrite K4, K3, K1. symmetry. apply wrap16_small.
    pose proof (samples_sum_firstn_bounds (Z.to_nat (SpeedBufferSize01Hz p')) _ K2) as B.
    rewrite firstn_firstn, Nat.min_id in B. fold (STO_buffer_total p') in B.
    unfold in_s16. apply quot_bounds; lia. }
  split; [exact Avr |].
  destruct (STO_CalcAvrgMecSpeed01Hz_fields p') as (E & _). cbv zeta in E.
  rewrite E, Avr. reflexivity.
Qed.

End AngleRun.

(** Seven ticks under load from the sample handle. *)
Lemma STO_angle_integrates_speed_witness :
  let st := STO_run false (repeat load_inputs 7) (sample_handle 8 4 2 32, []) in
  hElAngle (_Super (fst st)) = wrap16 (0 + samples_sum (snd st)) /\
  length (snd st) = 7%nat.
Proof.
  apply (STO_angle_integrates_speed false (sample_handle 8 4 2 32) (repeat load_inputs 7)).
  - unfold index_in_range. vm_compute. repeat split; congruence.
  - vm_compute; split; congruence.
Defined.

(** Seven ticks under load from the cleared handle, four entries in use and
    averaged. *)
Lemma STO_speeds_agree_witness :
  let p' := fst (STO_run true (repeat load_inputs 7) (STO_Clear (sample_handle 4 4 2 32), [])) in
  STO_avr_speed_dpp p' = hElSpeedDpp (_Super p') /\
  snd (fst (STO_CalcAvrgMecSpeed01Hz p'))
  = wrap16 (STO_mec_speed_of_dpp p' (hElSpeedDpp (_Super p'))).
Proof.
  apply (STO_speeds_agree (sample_handle 4 4 2 32) (repeat load_inputs 7)).
  - exact probe_PI_s16.
  - vm_compute; split; congruence.
  - reflexivity.
  - vm_compute; congruence.
Defined.
